(** * resnet-posture/train.py: the training, validation and inference driver

    A shallow embedding of [train.py].  The script keeps all of its state in
    one global namespace object ([args]) and talks to the outside world through
    [print], [input], a tensorboard writer and a few helpers of the repository
    ([utils], [network], [imshow], [heatmap]).  The embedding threads a
    [World] (the namespace, standard input, the checkpoint files and the
    sampler's generator) through a monad that also collects the observable
    calls and whose failures are the Python exceptions the script can raise. *)

From Stdlib Require Import ZArith List String Bool Lia Floats Sorted Permutation.
From Stdlib Require Import Uint63.
Import ListNotations.

Set Warnings "-inexact-float".
Set Implicit Arguments.

Local Open Scope string_scope.
Local Open Scope list_scope.
Local Open Scope Z_scope.

(** ** Python values *)

(** The value of an attribute that the script tests with [is None]: Python's
    [None] or a boolean. *)
Inductive PyVal : Type :=
| PyNone
| PyBool (b : bool).

Definition is_None (v : PyVal) : bool :=
  match v with PyNone => true | PyBool _ => false end.

Definition truthy (v : PyVal) : bool :=
  match v with PyNone => false | PyBool b => b end.

(** [args.device]: the string given on the command line, or the
    [torch.device] object [main] replaces it with. *)
Inductive Device : Type :=
| DevStr (s : string)
| DevTorch (s : string).

(** [args.device != 'cpu'] *)
Definition device_ne_cpu (d : Device) : bool :=
  match d with
  | DevStr s => negb (String.eqb s "cpu")
  | DevTorch _ => true
  end.

(** The exceptions of the script. *)
Inductive PyErr : Type :=
| AttributeError (attr : string)
| UnboundLocalError (name : string)
| ZeroDivisionError
| StopIteration
| EOFError
| ValueError (msg : string)
| RuntimeError (msg : string)
| HelperError (msg : string).

Inductive Res (A : Type) : Type :=
| Ok (a : A)
| Raise (e : PyErr).
Arguments Raise {A} e.

(** ** Floats and integers *)

(** [float(n)] for a Python integer. *)
Definition Z2float (z : Z) : float :=
  if z <? 0 then PrimFloat.opp (PrimFloat.of_uint63 (Uint63.of_Z (- z)))
  else PrimFloat.of_uint63 (Uint63.of_Z z).

(** [sum] of per-batch losses the way the loops accumulate it, left to right. *)
Definition accumulate (start : float) (losses : list float) : float :=
  fold_left PrimFloat.add losses start.

(** [enumerate(xs, start)] *)
Fixpoint enumerate {A : Type} (xs : list A) (start : Z) : list (Z * A) :=
  match xs with
  | [] => []
  | x :: rest => (start, x) :: enumerate rest (start + 1)
  end.

(** [range(n)] *)
Definition range (n : Z) : list Z :=
  map Z.of_nat (seq 0 (Z.to_nat n)).

(** ** The data loader *)

Section Loader.
Variable A : Type.

(** The random sampler: every element is inserted at a drawn position of the
    list built so far, so the result is a permutation whatever is drawn. *)
Fixpoint insert_at (k : nat) (x : A) (l : list A) : list A :=
  match k, l with
  | O, _ => x :: l
  | S k', [] => [x]
  | S k', y :: l' => y :: insert_at k' x l'
  end.

Fixpoint shuffle (draws : list nat) (l : list A) : list A :=
  match l with
  | [] => []
  | x :: rest =>
      let k := match draws with [] => O | d :: _ => d end in
      insert_at k x (shuffle (tl draws) rest)
  end.

(** The batch sampler with [drop_last=False]: [size] elements per batch, the
    last batch holding whatever is left. *)
Fixpoint take_batch (size : nat) (cur : list A) (l : list A) : list (list A) :=
  match l with
  | [] => match cur with [] => [] | _ => [rev cur] end
  | x :: rest =>
      if Nat.eqb (S (List.length cur)) size
      then rev (x :: cur) :: take_batch size [] rest
      else take_batch size (x :: cur) rest
  end.

Definition chunks (size : nat) (l : list A) : list (list A) :=
  take_batch size [] l.

Record DataLoader : Type := mkLoader {
  dl_dataset : list A;
  dl_batch_size : Z;
  dl_shuffle : bool
}.

(** [len(loader)] with [drop_last=False]:
    [(len(sampler) + batch_size - 1) // batch_size]. *)
Definition loader_len (dl : DataLoader) : Z :=
  (Z.of_nat (List.length (dl_dataset dl)) + dl_batch_size dl - 1) / dl_batch_size dl.

(** One pass over the loader, given what the generator draws for it. *)
Definition loader_batches (draws : list nat) (dl : DataLoader) : list (list A) :=
  chunks (Z.to_nat (dl_batch_size dl))
         (if dl_shuffle dl then shuffle draws (dl_dataset dl) else dl_dataset dl).
End Loader.

(** ** The framework *)

(** What the script uses of torch and torchvision.  [backward_step] is
    [zero_grad(); loss.backward(); optimizer.step()] under
    [autograd.detect_anomaly()]: it yields the updated parameters and optimizer,
    or nothing when anomaly detection raises. *)
Class Torch : Type := {
  Tensor : Type;
  Model : Type;
  Optimizer : Type;
  stack : list Tensor -> Tensor;
  to_device : Device -> Tensor -> Tensor;
  module_to : Device -> Model -> Model;
  forward : Model -> Tensor -> Tensor;
  mse_loss : Tensor -> Tensor -> float;
  Adam : Model -> float -> Optimizer;
  SGD : Model -> float -> Optimizer;
  backward_step : Optimizer -> Model -> Tensor -> Tensor -> option (Model * Optimizer);
  sum_dim1 : Tensor -> Tensor;
  tensor_add : Tensor -> Tensor -> Tensor;
  make_grid : Tensor -> Tensor;
  shape : Tensor -> list Z;
  count_trainable : Model -> Z;
  freeze_backbone : Model -> Model
}.

(** [args.criterion] *)
Inductive Criterion : Type := MSELoss.

Section Namespace.
Context {T : Torch}.

(** [args.optimizer]: the name given on the command line, until [train]
    stores the optimizer object under the same attribute. *)
Inductive OptimizerAttr : Type :=
| OptStr (s : string)
| OptObj (o : Optimizer).

(** The namespace [args]: the parsed options, then the attributes the script
    attaches to it while it runs ([None] while an attribute is not set). *)
Record Args : Type := mkArgs {
  train_percentage : float;
  batch_size : Z;
  log_interval : Z;
  epochs : Z;
  device : Device;
  network : string;
  image_shape : list Z;
  optimizer : OptimizerAttr;
  learning_rate : float;
  sigma : float;
  dataset : string;
  checkpoint : string;
  predict : PyVal;
  plot : PyVal;
  summary : PyVal;
  running_loss : option float;
  train_loss : option float;
  train_acc : option float;
  writer : option string;
  dataset_size : option Z;
  dataloader_size : option Z;
  criterion : option Criterion;
  best : option float;
  run : option string;
  hparams : option (list (string * string));
  net : option Model
}.

Definition set_device (v : Device) (a : Args) : Args :=
  mkArgs (train_percentage a) (batch_size a) (log_interval a) (epochs a) v
    (network a) (image_shape a) (optimizer a) (learning_rate a) (sigma a)
    (dataset a) (checkpoint a) (predict a) (plot a) (summary a)
    (running_loss a) (train_loss a) (train_acc a) (writer a) (dataset_size a)
    (dataloader_size a) (criterion a) (best a) (run a) (hparams a) (net a).

Definition set_optimizer (v : OptimizerAttr) (a : Args) : Args :=
  mkArgs (train_percentage a) (batch_size a) (log_interval a) (epochs a) (device a)
    (network a) (image_shape a) v (learning_rate a) (sigma a)
    (dataset a) (checkpoint a) (predict a) (plot a) (summary a)
    (running_loss a) (train_loss a) (train_acc a) (writer a) (dataset_size a)
    (dataloader_size a) (criterion a) (best a) (run a) (hparams a) (net a).

Definition set_running_loss (v : option float) (a : Args) : Args :=
  mkArgs (train_percentage a) (batch_size a) (log_interval a) (epochs a) (device a)
    (network a) (image_shape a) (optimizer a) (learning_rate a) (sigma a)
    (dataset a) (checkpoint a) (predict a) (plot a) (summary a)
    v (train_loss a) (train_acc a) (writer a) (dataset_size a)
    (dataloader_size a) (criterion a) (best a) (run a) (hparams a) (net a).

Definition set_train_loss (v : option float) (a : Args) : Args :=
  mkArgs (train_percentage a) (batch_size a) (log_interval a) (epochs a) (device a)
    (network a) (image_shape a) (optimizer a) (learning_rate a) (sigma a)
    (dataset a) (checkpoint a) (predict a) (plot a) (summary a)
    (running_loss a) v (train_acc a) (writer a) (dataset_size a)
    (dataloader_size a) (criterion a) (best a) (run a) (hparams a) (net a).

Definition set_train_acc (v : option float) (a : Args) : Args :=
  mkArgs (train_percentage a) (batch_size a) (log_interval a) (epochs a) (device a)
    (network a) (image_shape a) (optimizer a) (learning_rate a) (sigma a)
    (dataset a) (checkpoint a) (predict a) (plot a) (summary a)
    (running_loss a) (train_loss a) v (writer a) (dataset_size a)
    (dataloader_size a) (criterion a) (best a) (run a) (hparams a) (net a).

Definition set_writer (v : option string) (a : Args) : Args :=
  mkArgs (train_percentage a) (batch_size a) (log_interval a) (epochs a) (device a)
    (network a) (image_shape a) (optimizer a) (learning_rate a) (sigma a)
    (dataset a) (checkpoint a) (predict a) (plot a) (summary a)
    (running_loss a) (train_loss a) (train_acc a) v (dataset_size a)
    (dataloader_size a) (criterion a) (best a) (run a) (hparams a) (net a).

Definition set_dataset_size (v : option Z) (a : Args) : Args :=
  mkArgs (train_percentage a) (batch_size a) (log_interval a) (epochs a) (device a)
    (network a) (image_shape a) (optimizer a) (learning_rate a) (sigma a)
    (dataset a) (checkpoint a) (predict a) (plot a) (summary a)
    (running_loss a) (train_loss a) (train_acc a) (writer a) v
    (dataloader_size a) (criterion a) (best a) (run a) (hparams a) (net a).

Definition set_dataloader_size (v : option Z) (a : Args) : Args :=
  mkArgs (train_percentage a) (batch_size a) (log_interval a) (epochs a) (device a)
    (network a) (image_shape a) (optimizer a) (learning_rate a) (sigma a)
    (dataset a) (checkpoint a) (predict a) (plot a) (summary a)
    (running_loss a) (train_loss a) (train_acc a) (writer a) (dataset_size a)
    v (criterion a) (best a) (run a) (hparams a) (net a).

Definition set_criterion (v : option Criterion) (a : Args) : Args :=
  mkArgs (train_percentage a) (batch_size a) (log_interval a) (epochs a) (device a)
    (network a) (image_shape a) (optimizer a) (learning_rate a) (sigma a)
    (dataset a) (checkpoint a) (predict a) (plot a) (summary a)
    (running_loss a) (train_loss a) (train_acc a) (writer a) (dataset_size a)
    (dataloader_size a) v (best a) (run a) (hparams a) (net a).

Definition set_best (v : option float) (a : Args) : Args :=
  mkArgs (train_percentage a) (batch_size a) (log_interval a) (epochs a) (device a)
    (network a) (image_shape a) (optimizer a) (learning_rate a) (sigma a)
    (dataset a) (checkpoint a) (predict a) (plot a) (summary a)
    (running_loss a) (train_loss a) (train_acc a) (writer a) (dataset_size a)
    (dataloader_size a) (criterion a) v (run a) (hparams a) (net a).

Definition set_run (v : option string) (a : Args) : Args :=
  mkArgs (train_percentage a) (batch_size a) (log_interval a) (epochs a) (device a)
    (network a) (image_shape a) (optimizer a) (learning_rate a) (sigma a)
    (dataset a) (checkpoint a) (predict a) (plot a) (summary a)
    (running_loss a) (train_loss a) (train_acc a) (writer a) (dataset_size a)
    (dataloader_size a) (criterion a) (best a) v (hparams a) (net a).

Definition set_hparams (v : option (list (string * string))) (a : Args) : Args :=
  mkArgs (train_percentage a) (batch_size a) (log_interval a) (epochs a) (device a)
    (network a) (image_shape a) (optimizer a) (learning_rate a) (sigma a)
    (dataset a) (checkpoint a) (predict a) (plot a) (summary a)
    (running_loss a) (train_loss a) (train_acc a) (writer a) (dataset_size a)
    (dataloader_size a) (criterion a) (best a) (run a) v (net a).

Definition set_net (v : option Model) (a : Args) : Args :=
  mkArgs (train_percentage a) (batch_size a) (log_interval a) (epochs a) (device a)
    (network a) (image_shape a) (optimizer a) (learning_rate a) (sigma a)
    (dataset a) (checkpoint a) (predict a) (plot a) (summary a)
    (running_loss a) (train_loss a) (train_acc a) (writer a) (dataset_size a)
    (dataloader_size a) (criterion a) (best a) (run a) (hparams a) v.

(** *** The command line (lines 19-72) *)

(** What was given on the command line: [None] for an option left out, and for
    a [store_true] flag whether it occurs. *)
Record CmdLine : Type := mkCmdLine {
  cl_train_percentage : option float;
  cl_batch_size : option Z;
  cl_log_interval : option Z;
  cl_epochs : option Z;
  cl_device : option string;
  cl_network : option string;
  cl_image_shape : option (list Z);
  cl_optimizer : option string;
  cl_learning_rate : option float;
  cl_sigma : option float;
  cl_dataset : option string;
  cl_checkpoint : option string;
  cl_predict : bool;
  cl_plot : bool;
  cl_summary : bool
}.

Definition default {A : Type} (d : A) (o : option A) : A :=
  match o with Some v => v | None => d end.

(** [choices=[...]] *)
Definition one_of (choices : list string) (s : string) : bool :=
  existsb (String.eqb s) choices.

(** [action='store_true']: the attribute is [False] unless the flag occurs. *)
Definition store_true (given : bool) : PyVal := PyBool given.

(** The namespace argparse builds: every option left out gets its declared
    default. *)
Definition namespace_of (c : CmdLine) : Args :=
  mkArgs
    (default 0.9%float (cl_train_percentage c))
    (default 16 (cl_batch_size c))
    (default 50 (cl_log_interval c))
    (default 2 (cl_epochs c))
    (DevStr (default "cpu" (cl_device c)))
    (default "posture" (cl_network c))
    (default [256; 192] (cl_image_shape c))
    (OptStr (default "adam" (cl_optimizer c)))
    (default 0.0001%float (cl_learning_rate c))
    (default 2.0%float (cl_sigma c))
    (default "coco" (cl_dataset c))
    (default "none" (cl_checkpoint c))
    (store_true (cl_predict c))
    (store_true (cl_plot c))
    (store_true (cl_summary c))
    None None None None None None None None None None None.

(** [choices=[...]] and [nargs='+'] *)
Definition accepted (c : CmdLine) : bool :=
  one_of ["cpu"; "cuda"] (default "cpu" (cl_device c))
  && one_of ["posture"] (default "posture" (cl_network c))
  && one_of ["adam"; "sgd"] (default "adam" (cl_optimizer c))
  && one_of ["coco"] (default "coco" (cl_dataset c))
  && match cl_image_shape c with Some [] => false | _ => true end.

(** [parser.parse_args()]; [None] when argparse rejects the command line. *)
Definition parse_args (c : CmdLine) : option Args :=
  if accepted c then Some (namespace_of c) else None.
End Namespace.

(** ** The world and the monad of the script *)

Section World.
Context {T : Torch}.

Definition Sample : Type := (Tensor * Tensor)%type.
Definition Dataset : Type := list Sample.
Definition Batch : Type := (Tensor * Tensor)%type.

(** The default collate function: a batch stacks its samples. *)
Definition collate (samples : list Sample) : Batch :=
  (stack (map fst samples), stack (map snd samples)).

(** A checkpoint file (section 3 of the specification). *)
Record Checkpoint : Type := mkCheckpoint {
  ck_model : Model;
  ck_optimizer : OptimizerAttr;
  ck_best : float;
  ck_step : Z
}.

Definition Files : Type := list (string * Checkpoint).

Inductive Printed : Type :=
| PDevice (d : Device)
| PRunName (name : string)
| PParameters (h : list (string * string))
| PTrainable (n : Z)
| PModel (m : Model)
| PStartedTraining
| PFinishedTraining
| PStartedValidation
| PProgress (epoch batch_idx seen : Z) (total : Z) (percent run_loss valid_loss : float)
| PEpochAverage (epoch : Z) (average : float)
| PShape (s : list Z)
| PTensor (t : Tensor).

(** What the script does to the outside, in the order it does it. *)
Inductive Event : Type :=
| Print (p : Printed)
| Input
| Imshow (grid : Tensor)
| NewSummaryWriter (logdir : string)
| AddScalar (tag : string) (value : float) (step : Z)
| AddImage (tag : string) (img : Tensor) (step : option Z)
| Flush
| Close
| CallReadCheckpoint
| CallRestoreCheckpoint
| CallProcessCheckpoint (loss : float) (step : Z)
| EmptyCache.

Record World : Type := mkWorld {
  args : Args;
  stdin : list string;
  files : Files;
  draws : nat -> list nat;
  passes : nat;
  cuda_is_available : bool
}.

Definition with_args (a : Args) (w : World) : World :=
  mkWorld a (stdin w) (files w) (draws w) (passes w) (cuda_is_available w).
Definition with_stdin (i : list string) (w : World) : World :=
  mkWorld (args w) i (files w) (draws w) (passes w) (cuda_is_available w).
Definition with_files (f : Files) (w : World) : World :=
  mkWorld (args w) (stdin w) f (draws w) (passes w) (cuda_is_available w).
Definition with_passes (n : nat) (w : World) : World :=
  mkWorld (args w) (stdin w) (files w) (draws w) n (cuda_is_available w).

(** Running a piece of the script from a world: its value or the exception it
    raises, the world it leaves, and the events it caused, oldest first. *)
Record Outcome (A : Type) : Type := mkOutcome {
  result : Res A;
  after : World;
  events : list Event
}.

Definition M (A : Type) : Type := World -> Outcome A.

Definition ret {A : Type} (x : A) : M A := fun w => mkOutcome (Ok x) w [].

Definition bind {A B : Type} (m : M A) (k : A -> M B) : M B :=
  fun w =>
    let o := m w in
    match result o with
    | Ok x =>
        let o' := k x (after o) in
        mkOutcome (result o') (after o') (events o ++ events o')
    | Raise e => mkOutcome (Raise e) (after o) (events o)
    end.

Definition raise {A : Type} (e : PyErr) : M A := fun w => mkOutcome (Raise e) w [].

(** An outcome with earlier events put before its own. *)
Definition prepend {A : Type} (evs : list Event) (o : Outcome A) : Outcome A :=
  mkOutcome (result o) (after o) (evs ++ events o).

Definition get_args : M Args := fun w => mkOutcome (Ok (args w)) w [].

(** [args.attr = ...] *)
Definition assign (f : Args -> Args) : M unit :=
  fun w => mkOutcome (Ok tt) (with_args (f (args w)) w) [].

Definition emit (e : Event) : M unit := fun w => mkOutcome (Ok tt) w [e].

Definition when (b : bool) (m : M unit) : M unit :=
  if b then m else ret tt.
End World.

Declare Scope py_scope.
Delimit Scope py_scope with py.
Notation "x <- m ;; k" := (bind m (fun x => k))
  (at level 61, m at next level, right associativity) : py_scope.
Notation "' p <- m ;; k" := (bind m (fun p => k))
  (at level 61, p pattern, m at next level, right associativity) : py_scope.
Notation "m ;; k" := (bind m (fun _ => k))
  (at level 61, right associativity) : py_scope.
Local Open Scope py_scope.

Section Primitives.
Context {T : Torch}.

(** Reading an attribute that may not have been attached yet. *)
Definition read {A : Type} (name : string) (f : Args -> option A) : M A :=
  a <- get_args ;;
  match f a with
  | Some v => ret v
  | None => raise (AttributeError name)
  end.

(** A method call on [args.writer]. *)
Definition writer_call (e : Event) : M unit :=
  _ <- read "writer" writer ;; emit e.

(** [input()] *)
Definition input : M unit :=
  fun w =>
    match stdin w with
    | [] => mkOutcome (Raise EOFError) w []
    | _ :: rest => mkOutcome (Ok tt) (with_stdin rest w) [Input]
    end.

(** [x / n] for a float [x] and an integer [n]. *)
Definition div_int (x : float) (n : Z) : M float :=
  if n =? 0 then raise ZeroDivisionError else ret (x / Z2float n)%float.

(** [a % b] on integers; Python's remainder has the sign of the divisor, as
    [Z.modulo] has. *)
Definition py_mod (a b : Z) : M Z :=
  if b =? 0 then raise ZeroDivisionError else ret (a mod b).

(** [torch.utils.data.DataLoader(dataset, batch_size=..., shuffle=...,
    drop_last=False)] *)
Definition new_loader (ds : Dataset) (size : Z) (shuffled : bool) : M (DataLoader Sample) :=
  if size <=? 0
  then raise (ValueError "batch_size should be a positive integer value")
  else ret (mkLoader ds size shuffled).

(** One pass over a loader: the sampler draws, the batches are collated. *)
Definition iterate (dl : DataLoader Sample) : M (list Batch) :=
  fun w =>
    if dl_shuffle dl
    then mkOutcome (Ok (map collate (loader_batches (draws w (passes w)) dl)))
                   (with_passes (S (passes w)) w) []
    else mkOutcome (Ok (map collate (loader_batches [] dl))) w [].

(** The control a loop body hands back: go on, or [break]. *)
Inductive Ctl (S : Type) : Type :=
| Next (s : S)
| Break (s : S).

(** A [for] loop; [s] holds the local variables the body updates. *)
Fixpoint for_loop {A S : Type} (items : list A) (body : A -> S -> M (Ctl S)) (s : S)
  : M S :=
  match items with
  | [] => ret s
  | x :: rest =>
      c <- body x s ;;
      match c with
      | Next s' => for_loop rest body s'
      | Break s' => ret s'
      end
  end.

(** A [for] loop without local variables and without [break]. *)
Definition for_each {A : Type} (items : list A) (body : A -> M unit) : M unit :=
  for_loop items (fun x _ => body x ;; ret (Next tt)) tt.
End Primitives.

(** ** The helpers of the repository *)

(** [utils], [network], [imshow] and [heatmap] are imported by the script; what
    they do is not in [train.py].  A helper that is handed [args] may read and
    change the namespace and the checkpoint files, or fail. *)
Class Helpers {T : Torch} : Type := {
  heatmap : Tensor -> Tensor;
  get_max : Tensor -> Tensor;
  create_run_name : Args -> string;
  get_hparams : Args -> list (string * string);
  load_dataset : Args -> Dataset * Dataset * Dataset;
  Resnet_Posture : Args -> Model;
  read_checkpoint : Args -> Files -> Res (Args * Files);
  restore_checkpoint : Args -> Files -> Res (Args * Files);
  process_checkpoint : float -> Z -> Args -> Files -> Res (Args * Files)
}.

Section Script.
Context {T : Torch} {H : Helpers}.

(** A call of a helper that is handed [args]. *)
Definition call (e : Event) (h : Args -> Files -> Res (Args * Files)) : M unit :=
  emit e ;;
  fun w =>
    match h (args w) (files w) with
    | Ok (a, f) => mkOutcome (Ok tt) (with_files f (with_args a w)) []
    | Raise err => mkOutcome (Raise err) w []
    end.

Definition apply_criterion (c : Criterion) (outputs targets : Tensor) : float :=
  match c with MSELoss => mse_loss outputs targets end.

(** *** [add_tensorboard] (lines 114-135) *)
Definition add_tensorboard (inputs targets outputs : Tensor) (global_step : Z)
  (name : string) : M unit :=
  let trgt_slice := sum_dim1 targets in
  let otpt_slice := sum_dim1 outputs in
  a <- get_args ;;
  let trgt_htmp := to_device (device a) (heatmap trgt_slice) in
  let otpt_htmp := to_device (device a) (heatmap otpt_slice) in
  let image_grid := make_grid inputs in
  let trgt_slice_grid := make_grid trgt_slice in
  let otpt_slice_grid := make_grid otpt_slice in
  let trgt_htmp_grid := make_grid trgt_htmp in
  let otpt_htmp_grid := make_grid otpt_htmp in
  writer_call (AddImage (String.append name "/gt") trgt_htmp_grid (Some global_step)) ;;
  writer_call (AddImage (String.append name "/gt_image")
                 (tensor_add image_grid trgt_slice_grid) (Some global_step)) ;;
  writer_call (AddImage (String.append name "/pred") otpt_htmp_grid (Some global_step)) ;;
  writer_call (AddImage (String.append name "/pred_image")
                 (tensor_add image_grid otpt_slice_grid) (Some global_step)).

(** *** [validate] (lines 222-259) *)
Definition validate_batch (global_step : Z) (item : Z * Batch) (run_loss : float)
  : M (Ctl float) :=
  let '(batch_idx, (inputs, targets)) := item in
  a <- get_args ;;
  let inputs := to_device (device a) inputs in
  let targets := to_device (device a) targets in
  model <- read "net" net ;;
  let outputs := forward model inputs in
  crit <- read "criterion" criterion ;;
  let loss := apply_criterion crit outputs targets in
  let run_loss := (run_loss + loss)%float in
  when (batch_idx =? 1) (add_tensorboard inputs targets outputs global_step "Valid") ;;
  ret (Next run_loss).

Definition validate (validset : Dataset) (print_info log_info : bool) (global_step : Z)
  : M float :=
  a <- get_args ;;
  valid_loader <- new_loader validset (batch_size a) true ;;
  when print_info (emit (Print PStartedValidation)) ;;
  batches <- iterate valid_loader ;;
  run_loss <- for_loop (enumerate batches 1) (validate_batch global_step) 0%float ;;
  when log_info
    (_ <- read "writer" writer ;;
     mean <- div_int run_loss (loader_len valid_loader) ;;
     emit (AddScalar "Valid/loss" mean global_step)) ;;
  div_int run_loss (loader_len valid_loader).

(** *** [batch_status] (lines 75-111) *)

(** Lines 89-108: what is done every [args.log_interval] batches. *)
Definition interval_actions (batch_idx : Z) (inputs outputs targets : Tensor)
  (epoch : Z) (loss : float) (validset : Dataset) (global_step : Z) : M unit :=
  vloss <- validate validset false true global_step ;;
  add_tensorboard inputs targets outputs global_step "Train" ;;
  call (CallProcessCheckpoint loss global_step) (process_checkpoint loss global_step) ;;
  a <- get_args ;;
  size <- read "dataset_size" dataset_size ;;
  loader_size <- read "dataloader_size" dataloader_size ;;
  percent <- div_int (100 * Z2float batch_idx)%float loader_size ;;
  running <- read "running_loss" running_loss ;;
  run_loss <- div_int running (log_interval a) ;;
  emit (Print (PProgress epoch batch_idx (batch_size a * batch_idx) size
                 percent run_loss vloss)) ;;
  assign (set_running_loss (Some 0%float)).

Definition batch_status (batch_idx : Z) (inputs outputs targets : Tensor) (epoch : Z)
  (train_loader : DataLoader Sample) (loss : float) (validset : Dataset) : M unit :=
  let global_step := batch_idx + loader_len train_loader * epoch in
  running <- read "running_loss" running_loss ;;
  assign (set_running_loss (Some (running + loss)%float)) ;;
  total <- read "train_loss" train_loss ;;
  assign (set_train_loss (Some (total + loss)%float)) ;;
  writer_call (AddScalar "Train/loss" loss global_step) ;;
  a <- get_args ;;
  r <- py_mod global_step (log_interval a) ;;
  when (r =? 0)
    (interval_actions batch_idx inputs outputs targets epoch loss validset global_step) ;;
  writer_call Flush.

(** *** [train] (lines 138-219) *)

(** Lines 139-180: the loader, the sample plot, the optimizer, the loss, the
    checkpoint to restore and the best loss. *)
Definition train_setup (trainset : Dataset) : M (DataLoader Sample) :=
  a <- get_args ;;
  train_loader <- new_loader trainset (batch_size a) true ;;
  assign (set_dataset_size (Some (Z.of_nat (List.length (dl_dataset train_loader))))) ;;
  assign (set_dataloader_size (Some (loader_len train_loader))) ;;
  dataiter <- iterate train_loader ;;
  '(images, targets) <- match dataiter with
                        | _ :: second :: _ => ret second
                        | _ => raise StopIteration
                        end ;;
  a <- get_args ;;
  when (truthy (plot a))
    (let grid := make_grid images in
     let targets_slice := sum_dim1 targets in
     let grid := tensor_add grid (make_grid targets_slice) in
     emit (Imshow grid) ;;
     writer_call (AddImage "Sample" grid None)) ;;
  a <- get_args ;;
  match optimizer a with
  | OptStr kind =>
      if String.eqb kind "adam"
      then model <- read "net" net ;;
           assign (set_optimizer (OptObj (Adam model (learning_rate a))))
      else if String.eqb kind "sgd"
      then model <- read "net" net ;;
           assign (set_optimizer (OptObj (SGD model (learning_rate a))))
      else ret tt
  | OptObj _ => ret tt
  end ;;
  assign (set_criterion (Some MSELoss)) ;;
  call CallRestoreCheckpoint restore_checkpoint ;;
  assign (set_best (Some infinity)) ;;
  ret train_loader.

(** Lines 188-213: one batch of the inner loop. *)
Definition train_batch (epoch : Z) (train_loader : DataLoader Sample)
  (validset : Dataset) (item : Z * Batch) : M unit :=
  let '(batch_idx, (inputs, targets)) := item in
  a <- get_args ;;
  let inputs := to_device (device a) inputs in
  let targets := to_device (device a) targets in
  opt <- match optimizer a with
         | OptObj o => ret o
         | OptStr _ => raise (AttributeError "zero_grad")
         end ;;
  model <- read "net" net ;;
  let outputs := forward model inputs in
  crit <- read "criterion" criterion ;;
  let loss := apply_criterion crit outputs targets in
  match backward_step opt model inputs targets with
  | Some (model', opt') =>
      assign (fun a => set_optimizer (OptObj opt') (set_net (Some model') a))
  | None => raise (RuntimeError "anomaly detected")
  end ;;
  batch_status batch_idx inputs outputs targets epoch train_loader loss validset.

(** Lines 184-216: one epoch. *)
Definition train_epoch (train_loader : DataLoader Sample) (validset : Dataset)
  (epoch : Z) : M unit :=
  assign (fun a => set_train_loss (Some 0%float)
                     (set_train_acc (Some 0%float)
                        (set_running_loss (Some 0%float) a))) ;;
  batches <- iterate train_loader ;;
  for_each (enumerate batches 1) (train_batch epoch train_loader validset) ;;
  total <- read "train_loss" train_loss ;;
  average <- div_int total (loader_len train_loader) ;;
  emit (Print (PEpochAverage epoch average)).

(** Lines 182-219: the loop over the epochs. *)
Definition train_loop (train_loader : DataLoader Sample) (validset : Dataset) : M unit :=
  emit (Print PStartedTraining) ;;
  a <- get_args ;;
  for_each (range (epochs a)) (train_epoch train_loader validset) ;;
  emit (Print PFinishedTraining).

Definition train (trainset validset : Dataset) : M unit :=
  train_loader <- train_setup trainset ;;
  train_loop train_loader validset.

(** *** [predict_test] (lines 262-311) *)
Definition predict_batch (item : Z * Batch) (run_loss : float) : M (Ctl float) :=
  let '(batch_idx, (inputs, targets)) := item in
  a <- get_args ;;
  let inputs := to_device (device a) inputs in
  let targets := to_device (device a) targets in
  model <- read "net" net ;;
  let outputs := forward model inputs in
  emit (Print (PShape (shape outputs))) ;;
  let idx_inpt := get_max inputs in
  let idx_otpt := get_max outputs in
  emit (Print (PShape (shape idx_inpt))) ;;
  emit (Print (PTensor idx_inpt)) ;;
  emit (Print (PShape (shape idx_otpt))) ;;
  emit (Print (PTensor idx_otpt)) ;;
  input ;;
  crit <- read "criterion" criterion ;;
  let loss := apply_criterion crit outputs targets in
  let run_loss := (run_loss + loss)%float in
  if batch_idx <? 10 then ret (Next run_loss) else ret (Break run_loss).

Definition predict_test (testset : Dataset) : M unit :=
  a <- get_args ;;
  test_loader <- new_loader testset (batch_size a) false ;;
  call CallRestoreCheckpoint restore_checkpoint ;;
  assign (set_criterion (Some MSELoss)) ;;
  batches <- iterate test_loader ;;
  for_loop (enumerate batches 1) predict_batch 0%float ;;
  ret tt.

(** *** [main] (lines 314-392) *)

(** Lines 319-326 *)
Definition select_device : M unit :=
  a <- get_args ;;
  when (device_ne_cpu (device a))
    (fun w =>
       assign (set_device (DevTorch (if cuda_is_available w then "cuda:0" else "cpu"))) w) ;;
  a <- get_args ;;
  emit (Print (PDevice (device a))).

(** Lines 338-343 *)
Definition open_writer : M unit :=
  a <- get_args ;;
  when (is_None (predict a))
    (name <- read "run" run ;;
     let logdir := String.append "runs/" name in
     emit (NewSummaryWriter logdir) ;;
     assign (set_writer (Some logdir))).

(** Lines 390-392 *)
Definition close_writer : M unit :=
  a <- get_args ;;
  when (is_None (predict a)) (writer_call Close).

Definition unbound {A : Type} (name : string) (local : option A) : M A :=
  match local with
  | Some v => ret v
  | None => raise (UnboundLocalError name)
  end.

Definition main : M unit :=
  select_device ;;
  a <- get_args ;;
  when (negb (String.eqb (checkpoint a) EmptyString))
    (call CallReadCheckpoint read_checkpoint) ;;
  assign (fun a => set_run (Some (create_run_name a)) a) ;;
  name <- read "run" run ;;
  emit (Print (PRunName name)) ;;
  open_writer ;;
  a <- get_args ;;
  let datasets := if String.eqb (dataset a) "coco" then Some (load_dataset a) else None in
  assign (set_hparams (Some (get_hparams a))) ;;
  params <- read "hparams" hparams ;;
  emit (Print (PParameters params)) ;;
  a <- get_args ;;
  let model := if String.eqb (network a) "posture"
               then Some (freeze_backbone (Resnet_Posture a)) else None in
  model <- unbound "net" model ;;
  assign (set_net (Some (module_to (device a) model))) ;;
  emit (Print (PTrainable (count_trainable (module_to (device a) model)))) ;;
  a <- get_args ;;
  if truthy (summary a)
  then emit (Print (PModel (module_to (device a) model)))
  else
    (if truthy (predict a)
     then '(_, _, tst) <- unbound "tst" datasets ;; predict_test tst
     else '(trn, vld, _) <- unbound "trn" datasets ;; train trn vld) ;;
    _ <- read "net" net ;;
    assign (set_net None) ;;
    emit EmptyCache ;;
    close_writer.
End Script.

(** ** The checkpoint helpers, from the specification *)

Section CheckpointPolicy.
Context {T : Torch}.

Fixpoint lookup (path : string) (fs : Files) : option Checkpoint :=
  match fs with
  | [] => None
  | (name, ck) :: rest => if String.eqb name path then Some ck else lookup path rest
  end.

(** Modelled from the spec: [process_checkpoint] of [utils] is not in
    [train.py].  Section 4.4: given the most recent training loss and the
    current best, if the new loss is strictly lower, persist the model state,
    the optimizer state, the new best and the global step under the current
    run identifier and update best; otherwise no write occurs. *)
Definition process_checkpoint_spec (loss : float) (global_step : Z) (a : Args)
  (fs : Files) : Res (Args * Files) :=
  match best a, net a, run a with
  | None, _, _ => Raise (AttributeError "best")
  | Some _, None, _ => Raise (AttributeError "net")
  | Some _, Some _, None => Raise (AttributeError "run")
  | Some recorded, Some model, Some name =>
      if (loss <? recorded)%float
      then Ok (set_best (Some loss) a,
               (name, mkCheckpoint model (optimizer a) loss global_step) :: fs)
      else Ok (a, fs)
  end.

(** Modelled from the spec: [restore_checkpoint] of [utils] is not in
    [train.py].  Sections 3 and 4.4: a checkpoint is read once at startup if a
    path is supplied, and restoring it reproduces the model weights, the
    optimizer state and the best loss recorded at save time; an unreadable
    file is fatal.  The recorded step stays in the file: the namespace of
    [train.py] has no attribute that holds a step. *)
Definition restore_checkpoint_spec (a : Args) (fs : Files) : Res (Args * Files) :=
  if String.eqb (checkpoint a) "none" then Ok (a, fs)
  else match lookup (checkpoint a) fs with
       | None => Raise (HelperError "CheckpointError")
       | Some ck =>
           Ok (set_best (Some (ck_best ck))
                 (set_optimizer (ck_optimizer ck)
                    (set_net (Some (ck_model ck)) a)), fs)
       end.

(** The checkpoint policy over a run of checkpoint-eligible evaluations, each
    a training loss with its global step. *)
Fixpoint evaluate_all (evals : list (float * Z)) (a : Args) (fs : Files)
  : Res (Args * Files) :=
  match evals with
  | [] => Ok (a, fs)
  | (loss, step) :: rest =>
      match process_checkpoint_spec loss step a fs with
      | Ok (a', fs') => evaluate_all rest a' fs'
      | Raise e => Raise e
      end
  end.
End CheckpointPolicy.

(** ** What the claims observe *)

Section Observations.
Context {T : Torch}.

(** The global steps under which the training loss was logged. *)
Definition train_loss_step (e : Event) : list Z :=
  match e with
  | AddScalar tag _ step => if String.eqb tag "Train/loss" then [step] else []
  | _ => []
  end.

Definition steps (evs : list Event) : list Z := flat_map train_loss_step evs.

(** The batch indices [enumerate(loader, 1)] counts for [n] batches. *)
Definition indices (n : Z) : list Z := map fst (enumerate (repeat tt (Z.to_nat n)) 1).

(** The global steps of [epochs] epochs of [n] batches each. *)
Definition schedule (n epochs : Z) : list Z :=
  flat_map (fun epoch => map (fun batch_idx => batch_idx + n * epoch) (indices n))
           (range epochs).

(** The hyperparameters of the configuration record, the optimizer aside. *)
Definition hyperparameters (a : Args) :=
  (batch_size a, epochs a, learning_rate a, image_shape a, sigma a, device a,
   dataset a, network a, checkpoint a, run a).

(** A piece of the script keeps an invariant of the namespace and causes only
    events of one kind. *)
Definition keeps (I : Args -> Prop) (E : Event -> Prop) {A : Type} (m : M A) : Prop :=
  forall w, I (args w) -> I (args (after (m w))) /\ Forall E (events (m w)).

Definition helper_keeps (I : Args -> Prop) (h : Args -> Files -> Res (Args * Files))
  : Prop :=
  forall a fs a' fs', I a -> h a fs = Ok (a', fs') -> I a'.

(** A piece of the script logs the training loss under the steps [L], in this
    order: all of them when it returns, the first of them when it raises. *)
Definition logs {A : Type} (m : M A) (L : list Z) : Prop :=
  forall w,
    (exists rest, steps (events (m w)) ++ rest = L) /\
    (forall x, result (m w) = Ok x -> steps (events (m w)) = L).

(** What a piece of the script has established whenever it returns. *)
Definition ensures {A : Type} (m : M A) (Q : A -> World -> Prop) : Prop :=
  forall w x, result (m w) = Ok x -> Q x (after (m w)).

(** Opening or closing the tensorboard writer. *)
Definition writer_lifecycle (e : Event) : bool :=
  match e with NewSummaryWriter _ | Close => true | _ => false end.

Definition quiet (e : Event) : Prop := writer_lifecycle e = false.

(** The events of the interval actions: images, the validation loss (with the
    line [validate] prints on request), the checkpoint evaluation and the
    progress line. *)
Definition interval_event (e : Event) : bool :=
  match e with
  | AddImage _ _ _ => true
  | AddScalar tag _ _ => String.eqb tag "Valid/loss"
  | CallProcessCheckpoint _ _ => true
  | Print (PProgress _ _ _ _ _ _ _) => true
  | Print PStartedValidation => true
  | _ => false
  end.

Definition interval_only (e : Event) : Prop := interval_event e = true.

(** An event that is not the training loss. *)
Definition silent (e : Event) : Prop := train_loss_step e = [].

(** [args.predict] holds a boolean. *)
Definition predict_is_bool (a : Args) : Prop := is_None (predict a) = false.

(** The assignments the training, validation and inference loops make. *)
Inductive loop_assignment : (Args -> Args) -> Prop :=
| asg_running_loss v : loop_assignment (set_running_loss v)
| asg_train_loss v : loop_assignment (set_train_loss v)
| asg_train_acc v : loop_assignment (set_train_acc v)
| asg_dataset_size v : loop_assignment (set_dataset_size v)
| asg_dataloader_size v : loop_assignment (set_dataloader_size v)
| asg_optimizer v : loop_assignment (set_optimizer v)
| asg_criterion v : loop_assignment (set_criterion v)
| asg_best v : loop_assignment (set_best v)
| asg_net v : loop_assignment (set_net v)
| asg_both f g : loop_assignment f -> loop_assignment g ->
                 loop_assignment (fun a => f (g a)).

Definition frames (I : Args -> Prop) : Prop :=
  forall f a, loop_assignment f -> I a -> I (f a).

(** The four images [add_tensorboard] logs. *)
Definition four_way {H : @Helpers T} (name : string) (d : Device)
  (inputs targets outputs : Tensor) (global_step : Z) : list Event :=
  let trgt_slice := sum_dim1 targets in
  let otpt_slice := sum_dim1 outputs in
  [AddImage (String.append name "/gt")
     (make_grid (to_device d (heatmap trgt_slice))) (Some global_step);
   AddImage (String.append name "/gt_image")
     (tensor_add (make_grid inputs) (make_grid trgt_slice)) (Some global_step);
   AddImage (String.append name "/pred")
     (make_grid (to_device d (heatmap otpt_slice))) (Some global_step);
   AddImage (String.append name "/pred_image")
     (tensor_add (make_grid inputs) (make_grid otpt_slice)) (Some global_step)].

(** The namespace once [batch_status] has added the loss to its two totals. *)
Definition accumulated (loss r t : float) (a : Args) : Args :=
  set_train_loss (Some (t + loss)%float) (set_running_loss (Some (r + loss)%float) a).

(** What the model puts out on a batch moved to the device, and the loss of the
    batch: the mean squared error against its targets. *)
Definition batch_outputs (d : Device) (model : Model) (b : Batch) : Tensor :=
  forward model (to_device d (fst b)).

Definition batch_loss (d : Device) (model : Model) (b : Batch) : float :=
  mse_loss (batch_outputs d model b) (to_device d (snd b)).

(** The four images of the first batch of a pass. *)
Definition first_batch_grid {H : @Helpers T} (name : string) (d : Device) (model : Model)
  (global_step : Z) (batches : list Batch) : list Event :=
  match batches with
  | [] => []
  | b :: _ =>
      four_way name d (to_device d (fst b)) (to_device d (snd b))
               (batch_outputs d model b) global_step
  end.

(** What [predict_test] shows of one batch before it waits for the user. *)
Definition inspection {H : @Helpers T} (d : Device) (model : Model) (b : Batch) : list Event :=
  let inputs := to_device d (fst b) in
  let outputs := batch_outputs d model b in
  [Print (PShape (shape outputs));
   Print (PShape (shape (get_max inputs)));
   Print (PTensor (get_max inputs));
   Print (PShape (shape (get_max outputs)));
   Print (PTensor (get_max outputs));
   Input].

Definition is_input (e : Event) : bool :=
  match e with Input => true | _ => false end.

(** The batches [predict_test] ran the model on: it waits once per batch. *)
Definition batches_processed (evs : list Event) : nat :=
  List.length (filter is_input evs).
End Observations.

(** ** What the further properties observe *)

Section FurtherObservations.
Context {T : Torch}.

(** The world [select_device] leaves (lines 319-323). *)
Definition select_device_world (w : World) : World :=
  if device_ne_cpu (device (args w))
  then with_args (set_device (DevTorch (if cuda_is_available w then "cuda:0" else "cpu"))
                             (args w)) w
  else w.

(** Lines 371-392 of [main]: what follows the count of the parameters. *)
Definition main_tail {H : @Helpers T} (datasets : option (Dataset * Dataset * Dataset))
  (model : Model) : M unit :=
  (a <- get_args ;;
   if truthy (summary a)
   then emit (Print (PModel (module_to (device a) model)))
   else
     (if truthy (predict a)
      then '(_, _, tst) <- unbound "tst" datasets ;; predict_test tst
      else '(trn, vld, _) <- unbound "trn" datasets ;; train trn vld) ;;
     _ <- read "net" net ;;
     assign (set_net None) ;;
     emit EmptyCache ;;
     close_writer)%py.

(** The namespace [main] has built when it reaches line 371, from the one
    [read_checkpoint] returned. *)
Definition named {H : @Helpers T} (a : Args) : Args :=
  set_run (Some (create_run_name a)) a.

Definition described {H : @Helpers T} (a : Args) : Args :=
  set_hparams (Some (get_hparams (named a))) (named a).

Definition built_model {H : @Helpers T} (a : Args) : Model :=
  module_to (device a) (freeze_backbone (Resnet_Posture (described a))).

Definition built {H : @Helpers T} (a : Args) : Args :=
  set_net (Some (built_model a)) (described a).

(** What [main] prints before line 371. *)
Definition startup_lines {H : @Helpers T} (d : Device) (a : Args) : list Event :=
  [Print (PDevice d); CallReadCheckpoint;
   Print (PRunName (create_run_name a));
   Print (PParameters (get_hparams (named a)));
   Print (PTrainable (count_trainable (built_model a)))].

(** A call on the tensorboard writer, or its construction. *)
Definition tensorboard_event (e : Event) : bool :=
  match e with
  | NewSummaryWriter _ | AddScalar _ _ _ | AddImage _ _ _ | Flush | Close => true
  | _ => false
  end.

Definition off_board (e : Event) : Prop := tensorboard_event e = false.

(** No writer is attached, and [args.predict] holds a boolean. *)
Definition no_writer (a : Args) : Prop :=
  is_None (predict a) = false /\ writer a = None.

(** What [predict_test] prints of a batch before it asks for input. *)
Definition shown {H : @Helpers T} (d : Device) (model : Model) (b : Batch) : list Event :=
  let inputs := to_device d (fst b) in
  let outputs := batch_outputs d model b in
  [Print (PShape (shape outputs));
   Print (PShape (shape (get_max inputs)));
   Print (PTensor (get_max inputs));
   Print (PShape (shape (get_max outputs)));
   Print (PTensor (get_max outputs))].

(** The namespace [train] hands to [restore_checkpoint] (lines 145-174). *)
Definition prepared (a : Args) (samples batches : Z) (o : Optimizer) : Args :=
  set_criterion (Some MSELoss)
    (set_optimizer (OptObj o)
       (set_dataloader_size (Some batches) (set_dataset_size (Some samples) a))).

(** The sample [train] plots with [--plot] (lines 153-163). *)
Definition sample_plot (plotting : bool) (b : Batch) : list Event :=
  let grid := tensor_add (make_grid (fst b)) (make_grid (sum_dim1 (snd b))) in
  if plotting then [Imshow grid; AddImage "Sample" grid None] else [].

(** A piece of the script that raises from every world whose namespace
    satisfies [I]. *)
Definition never_returns (I : Args -> Prop) {A : Type} (m : M A) : Prop :=
  forall w, I (args w) -> forall x, result (m w) <> Ok x.

(** The namespace of a training run of [main]: neither [--predict] nor
    [--summary], at least one epoch, and no writer attached. *)
Definition training_mode (a : Args) : Prop :=
  writer a = None /\ predict a = PyBool false /\ truthy (summary a) = false
  /\ 1 <= epochs a.

(** The losses logged under [Train/loss], oldest first. *)
Definition train_loss_value (e : Event) : list float :=
  match e with
  | AddScalar tag value _ => if String.eqb tag "Train/loss" then [value] else []
  | _ => []
  end.

Definition logged_losses (evs : list Event) : list float := flat_map train_loss_value evs.

Definition lossless (e : Event) : Prop := train_loss_value e = [].

(** A piece of the script adds to [args.train_loss] exactly the losses it logs. *)
Definition tallies {A : Type} (m : M A) : Prop :=
  forall w t x,
    train_loss (args w) = Some t -> result (m w) = Ok x ->
    train_loss (args (after (m w))) = Some (accumulate t (logged_losses (events (m w)))).
End FurtherObservations.

(** ** A small instance to run the script on *)

Module Toy.
Fixpoint zip_with (f : float -> float -> float) (xs ys : list float) : list float :=
  match xs, ys with
  | x :: xs', y :: ys' => f x y :: zip_with f xs' ys'
  | _, _ => []
  end.

Definition total (xs : list float) : float := fold_left PrimFloat.add xs 0%float.

Definition mean (xs : list float) : float :=
  (total xs / Z2float (Z.of_nat (List.length xs)))%float.

Definition square_error (o t : float) : float := ((o - t) * (o - t))%float.

(** A one-weight linear model trained by gradient descent. *)
Definition descend (rate weight : float) (x t : list float) : option (float * float) :=
  let grad := mean (zip_with (fun xi ti => 2 * (weight * xi - ti) * xi)%float x t) in
  Some ((weight - rate * grad)%float, rate).

#[export] Instance torch : Torch := {|
  Tensor := list float;
  Model := float;
  Optimizer := float;
  stack := @List.concat float;
  to_device := fun _ t => t;
  module_to := fun _ m => m;
  forward := fun w x => map (PrimFloat.mul w) x;
  mse_loss := fun o t => mean (zip_with square_error o t);
  Adam := fun _ rate => rate;
  SGD := fun _ rate => rate;
  backward_step := descend;
  sum_dim1 := fun t => t;
  tensor_add := zip_with PrimFloat.add;
  make_grid := fun t => t;
  shape := fun t => [Z.of_nat (List.length t)];
  count_trainable := fun _ => 1;
  freeze_backbone := fun m => m
|}.

(** Samples [(x, 2x)] for [x = 1, ..., n]. *)
Definition samples (n : nat) : Dataset :=
  map (fun k => let x := Z2float (Z.of_nat k) in ([x], [2 * x]%float)) (seq 1 n).

#[export] Instance helpers : Helpers := {|
  heatmap := fun t => t;
  get_max := fun t => firstn 1 t;
  create_run_name := fun _ => "toy";
  get_hparams := fun _ => [];
  load_dataset := fun _ => (samples 100, samples 20, samples 12);
  Resnet_Posture := fun _ => 0.5%float;
  read_checkpoint := fun a fs => Ok (a, fs);
  restore_checkpoint := restore_checkpoint_spec;
  process_checkpoint := process_checkpoint_spec
|}.

Definition world0 (a : Args) : World :=
  mkWorld a [] [] (fun _ => []) 0 false.

Definition no_options : CmdLine :=
  mkCmdLine None None None None None None None None None None None None false false false.

(** [--epochs 1] *)
Definition one_epoch : CmdLine :=
  mkCmdLine None None None (Some 1) None None None None None None None None
            false false false.

(** A namespace with a model and a writer attached, as [train] needs it. *)
Definition attach (a : Args) : Args :=
  set_writer (Some "runs/toy") (set_net (Some 0.5%float) a).

Definition ready_world : World := world0 (attach (namespace_of one_epoch)).

(** The loader of 100 samples in batches of 16, and the world [train] has set up
    when its loop starts. *)
Definition loader100 : DataLoader Sample := mkLoader (samples 100) 16 true.

Definition loop_world : World := after (train_setup (samples 100) ready_world).

(** [--epochs 1 --checkpoint best.pt], with a checkpoint saved at step 100 with
    best loss 0.25. *)
Definition resume : CmdLine :=
  mkCmdLine None None None (Some 1) None None None None None None None (Some "best.pt")
            false false false.

Definition saved : Checkpoint := mkCheckpoint 0.75%float (OptObj 0.0001%float) 0.25%float 100.

Definition resumed_world : World :=
  mkWorld (attach (namespace_of resume)) [] [("best.pt", saved)] (fun _ => []) 0 false.

(** The namespace in the middle of an epoch of training. *)
Definition training : Args :=
  set_running_loss (Some 1.5%float)
    (set_train_loss (Some 4.5%float)
       (set_dataset_size (Some 100)
          (set_dataloader_size (Some 7)
             (set_criterion (Some MSELoss)
                (set_best (Some infinity)
                   (set_run (Some "toy")
                      (attach (namespace_of no_options)))))))).

Definition training_world : World := world0 training.

(** [--batch-size 1 --predict], and a user who answers twelve prompts. *)
Definition predict_only : CmdLine :=
  mkCmdLine None (Some 1) None None None None None None None None None None
            true false false.

Definition predict_world : World :=
  mkWorld (set_net (Some 0.5%float) (namespace_of predict_only))
          (repeat "y" 12) [] (fun _ => []) 0 false.

(** [--device cuda] on a machine without an accelerator. *)
Definition cuda_requested : CmdLine :=
  mkCmdLine None None None None (Some "cuda") None None None None None None None
            false false false.

Definition cuda_world : World := world0 (namespace_of cuda_requested).

(** The namespace in the middle of training for the options of a command line. *)
Definition training_with (c : CmdLine) : Args :=
  set_running_loss (Some 1.5%float)
    (set_train_loss (Some 4.5%float)
       (set_dataset_size (Some 100)
          (set_dataloader_size (Some 7)
             (set_criterion (Some MSELoss)
                (set_best (Some infinity)
                   (set_run (Some "toy") (attach (namespace_of c)))))))).

(** [--log-interval 0] *)
Definition never_log : CmdLine :=
  mkCmdLine None None (Some 0) None None None None None None None None None
            false false false.

(** [--summary] *)
Definition summary_only : CmdLine :=
  mkCmdLine None None None None None None None None None None None None
            false false true.

(** [--device mps], which argparse rejects. *)
Definition unknown_device : CmdLine :=
  mkCmdLine None None None None (Some "mps") None None None None None None None
            false false false.

(** [--batch-size 0] *)
Definition empty_batches : CmdLine :=
  mkCmdLine None (Some 0) None None None None None None None None None None
            false false false.

(** [--batch-size 1 --predict], and a user who answers three prompts only. *)
Definition impatient_world : World :=
  mkWorld (set_net (Some 0.5%float) (namespace_of predict_only))
          (repeat "y" 3) [] (fun _ => []) 0 false.

(** [--plot --epochs 1] *)
Definition plotting : CmdLine :=
  mkCmdLine None None None (Some 1) None None None None None None None None
            false true false.

(** The namespace in the middle of training with an optimizer constructed. *)
Definition stepping : Args := set_optimizer (OptObj 0.0001%float) training.

(** The loss sequence of the specification's checkpoint scenario. *)
Definition scenario : list (float * Z) :=
  [(0.50%float, 50); (0.40%float, 100); (0.45%float, 150); (0.30%float, 200)].
End Toy.


(** * Properties *)

(** ** The data loader *)

Section LoaderFacts.
Variable A : Type.

Lemma insert_at_length (k : nat) (x : A) (l : list A) :
  List.length (insert_at k x l) = S (List.length l).
Proof.
  revert k; induction l as [|y l IH]; intros [|k]; simpl; auto.
Qed.

Lemma shuffle_length (d : list nat) (l : list A) :
  List.length (shuffle d l) = List.length l.
Proof.
  revert d; induction l as [|x l IH]; intros d; simpl; auto.
  rewrite insert_at_length, IH; reflexivity.
Qed.

Lemma take_batch_length (size : nat) (l cur : list A) :
  (List.length cur < size)%nat ->
  Z.of_nat (List.length (take_batch size cur l))
  = (Z.of_nat (List.length cur) + Z.of_nat (List.length l) + Z.of_nat size - 1)
    / Z.of_nat size.
Proof.
  revert cur; induction l as [|x l IH]; intros cur Hcur.
  - destruct cur as [|c cur]; cbn [take_batch List.length].
    + symmetry; apply Z.div_small; lia.
    + apply Z.div_unique with (r := Z.of_nat (List.length cur)).
      * left; cbn [List.length] in Hcur; lia.
      * cbn [List.length] in *; lia.
  - cbn [take_batch].
    destruct (Nat.eqb (S (List.length cur)) size) eqn:E.
    + apply Nat.eqb_eq in E.
      cbn [List.length]. rewrite Nat2Z.inj_succ.
      rewrite IH by (cbn [List.length]; lia).
      cbn [List.length].
      replace (Z.of_nat (List.length cur) + Z.of_nat (S (List.length l)) + Z.of_nat size - 1)
        with (0 + Z.of_nat (List.length l) + Z.of_nat size - 1 + 1 * Z.of_nat size) by lia.
      rewrite Z.div_add by lia. lia.
    + apply Nat.eqb_neq in E.
      rewrite IH by (cbn [List.length]; lia).
      f_equal. cbn [List.length]. lia.
Qed.

(** An iteration yields as many batches as [len(loader)] says. *)
Lemma loader_batches_length (d : list nat) (dl : DataLoader A) :
  0 < dl_batch_size dl ->
  Z.of_nat (List.length (loader_batches d dl)) = loader_len dl.
Proof.
  intros Hpos. unfold loader_batches, chunks, loader_len.
  rewrite take_batch_length by (cbn [List.length]; lia).
  rewrite Z2Nat.id by lia. cbn [List.length].
  destruct (dl_shuffle dl); [rewrite shuffle_length|]; reflexivity.
Qed.
End LoaderFacts.

(** ** The monad *)

Section MonadFacts.
Context {T : Torch}.

Lemma bind_ok {A B : Type} (m : M A) (k : A -> M B) (w : World) (x : A) :
  result (m w) = Ok x ->
  bind m k w = mkOutcome (result (k x (after (m w)))) (after (k x (after (m w))))
                         (events (m w) ++ events (k x (after (m w)))).
Proof. intros E; unfold bind; rewrite E; reflexivity. Qed.

Lemma bind_raise {A B : Type} (m : M A) (k : A -> M B) (w : World) (e : PyErr) :
  result (m w) = Raise e ->
  bind m k w = mkOutcome (Raise e) (after (m w)) (events (m w)).
Proof. intros E; unfold bind; rewrite E; reflexivity. Qed.

Lemma bind_step {A B : Type} (m : M A) (k : A -> M B) (w w' : World) (x : A)
  (evs : list Event) :
  m w = mkOutcome (Ok x) w' evs -> bind m k w = prepend evs (k x w').
Proof. intros E; unfold bind; rewrite E; reflexivity. Qed.

Lemma bind_stop {A B : Type} (m : M A) (k : A -> M B) (w w' : World) (e : PyErr)
  (evs : list Event) :
  m w = mkOutcome (Raise e) w' evs -> bind m k w = mkOutcome (Raise e) w' evs.
Proof. intros E; unfold bind; rewrite E; reflexivity. Qed.

Lemma bind_assoc {A B C : Type} (m : M A) (k1 : A -> M B) (k2 : B -> M C) (w : World) :
  bind (bind m k1) k2 w = bind m (fun x => bind (k1 x) k2) w.
Proof.
  unfold bind. destruct (m w) as [[x|e] w1 ev1]; cbn [result after events]; [|reflexivity].
  destruct (k1 x w1) as [[y|e] w2 ev2]; cbn [result after events]; [|reflexivity].
  rewrite app_assoc. reflexivity.
Qed.

Lemma prepend_nil {A : Type} (o : Outcome A) : prepend [] o = o.
Proof. destruct o; reflexivity. Qed.

Lemma prepend_prepend {A : Type} (e1 e2 : list Event) (o : Outcome A) :
  prepend e1 (prepend e2 o) = prepend (e1 ++ e2) o.
Proof. unfold prepend; cbn [result after events]. rewrite app_assoc; reflexivity. Qed.

Lemma read_run {A : Type} (name : string) (f : Args -> option A) (w : World) (v : A) :
  f (args w) = Some v -> read name f w = mkOutcome (Ok v) w [].
Proof.
  intros E; unfold read, bind, get_args; cbn [result after events]. rewrite E; reflexivity.
Qed.

Lemma read_unset {A : Type} (name : string) (f : Args -> option A) (w : World) :
  f (args w) = None -> read name f w = mkOutcome (Raise (AttributeError name)) w [].
Proof.
  intros E; unfold read, bind, get_args; cbn [result after events]. rewrite E; reflexivity.
Qed.

Lemma assign_run (f : Args -> Args) (w : World) :
  assign f w = mkOutcome (Ok tt) (with_args (f (args w)) w) [].
Proof. reflexivity. Qed.

Lemma get_args_run (w : World) : get_args w = mkOutcome (Ok (args w)) w [].
Proof. reflexivity. Qed.

Lemma emit_run (e : Event) (w : World) : emit e w = mkOutcome (Ok tt) w [e].
Proof. reflexivity. Qed.

Lemma writer_call_run (e : Event) (w : World) (wr : string) :
  writer (args w) = Some wr -> writer_call e w = mkOutcome (Ok tt) w [e].
Proof.
  intros E; unfold writer_call. rewrite (@bind_step _ _ _ _ _ _ _ _ (read_run "writer" writer w E)).
  reflexivity.
Qed.

Lemma py_mod_run (a b : Z) (w : World) :
  b <> 0 -> py_mod a b w = mkOutcome (Ok (a mod b)) w [].
Proof. intros E; unfold py_mod. apply Z.eqb_neq in E; rewrite E; reflexivity. Qed.

Lemma div_int_run (x : float) (n : Z) (w : World) :
  n <> 0 -> div_int x n w = mkOutcome (Ok (x / Z2float n)%float) w [].
Proof. intros E; unfold div_int. apply Z.eqb_neq in E; rewrite E; reflexivity. Qed.

Lemma ret_run {A : Type} (x : A) (w : World) : ret x w = mkOutcome (Ok x) w [].
Proof. reflexivity. Qed.

Lemma input_run (w : World) (line : string) (rest : list string) :
  stdin w = line :: rest -> input w = mkOutcome (Ok tt) (with_stdin rest w) [Input].
Proof. intros E; unfold input; rewrite E; reflexivity. Qed.

Lemma call_run (e : Event) (h : Args -> Files -> Res (Args * Files)) (w : World) a f :
  h (args w) (files w) = Ok (a, f) ->
  call e h w = mkOutcome (Ok tt) (with_files f (with_args a w)) [e].
Proof.
  intros E. unfold call. rewrite (@bind_step _ _ _ _ _ _ _ _ (emit_run e w)).
  rewrite E. reflexivity.
Qed.

Lemma new_loader_run (ds : Dataset) (size : Z) (shuffled : bool) (w : World) :
  0 < size -> new_loader ds size shuffled w = mkOutcome (Ok (mkLoader ds size shuffled)) w [].
Proof.
  intros Hpos. unfold new_loader.
  replace (size <=? 0) with false by (symmetry; apply Z.leb_gt; exact Hpos).
  reflexivity.
Qed.

Lemma iterate_run (dl : DataLoader Sample) (w : World) :
  iterate dl w
  = if dl_shuffle dl
    then mkOutcome (Ok (map collate (loader_batches (draws w (passes w)) dl)))
                   (with_passes (S (passes w)) w) []
    else mkOutcome (Ok (map collate (loader_batches [] dl))) w [].
Proof. reflexivity. Qed.

Lemma steps_app (l1 l2 : list Event) : steps (l1 ++ l2) = steps l1 ++ steps l2.
Proof. apply flat_map_app. Qed.

Section Keeps.
Variable I : Args -> Prop.
Variable E : Event -> Prop.

Lemma keeps_ret {A : Type} (x : A) : keeps I E (ret x).
Proof. intros w Hw; split; [exact Hw | constructor]. Qed.

Lemma keeps_raise {A : Type} (e : PyErr) : keeps I E (raise (A := A) e).
Proof. intros w Hw; split; [exact Hw | constructor]. Qed.

Lemma keeps_get_args : keeps I E get_args.
Proof. intros w Hw; split; [exact Hw | constructor]. Qed.

Lemma keeps_emit (e : Event) : E e -> keeps I E (emit e).
Proof. intros He w Hw; split; [exact Hw | repeat constructor; exact He]. Qed.

Lemma keeps_assign (f : Args -> Args) :
  (forall a, I a -> I (f a)) -> keeps I E (assign f).
Proof. intros Hf w Hw; split; [apply Hf, Hw | constructor]. Qed.

Lemma keeps_bind {A B : Type} (m : M A) (k : A -> M B) :
  keeps I E m -> (forall x, keeps I E (k x)) -> keeps I E (bind m k).
Proof.
  intros Hm Hk w Hw. destruct (Hm w Hw) as [Ha He].
  destruct (result (m w)) as [x|e] eqn:R.
  - rewrite (bind_ok _ _ _ R); cbn [after events].
    destruct (Hk x _ Ha) as [Ha' He']. split; [exact Ha'|].
    apply Forall_app; split; assumption.
  - rewrite (bind_raise _ _ _ R); cbn [after events]. split; assumption.
Qed.

(** After [a <- get_args] the invariant is known of [a]. *)
Lemma keeps_bind_args {B : Type} (k : Args -> M B) :
  (forall a, I a -> keeps I E (k a)) -> keeps I E (bind get_args k).
Proof.
  intros Hk w Hw. unfold bind, get_args; cbn [result after events].
  destruct (Hk (args w) Hw w Hw) as [Ha He]. split; assumption.
Qed.

Lemma keeps_when (b : bool) (m : M unit) : keeps I E m -> keeps I E (when b m).
Proof. destruct b; [trivial | intros _; apply keeps_ret]. Qed.

Lemma keeps_read {A : Type} (name : string) (f : Args -> option A) :
  keeps I E (read name f).
Proof.
  apply keeps_bind_args; intros a _.
  destruct (f a); [apply keeps_ret | apply keeps_raise].
Qed.

Lemma keeps_writer_call (e : Event) : E e -> keeps I E (writer_call e).
Proof.
  intros He; apply keeps_bind; [apply keeps_read | intros _; apply keeps_emit, He].
Qed.

Lemma keeps_input : E Input -> keeps I E input.
Proof.
  intros He w Hw; unfold input. destruct (stdin w); cbn [after events args with_stdin].
  - split; [exact Hw | constructor].
  - split; [exact Hw | repeat constructor; exact He].
Qed.

Lemma keeps_div_int (x : float) (n : Z) : keeps I E (div_int x n).
Proof. unfold div_int; destruct (n =? 0); [apply keeps_raise | apply keeps_ret]. Qed.

Lemma keeps_py_mod (a b : Z) : keeps I E (py_mod a b).
Proof. unfold py_mod; destruct (b =? 0); [apply keeps_raise | apply keeps_ret]. Qed.

Lemma keeps_new_loader (ds : Dataset) (size : Z) (shuffled : bool) :
  keeps I E (new_loader ds size shuffled).
Proof. unfold new_loader; destruct (size <=? 0); [apply keeps_raise | apply keeps_ret]. Qed.

Lemma keeps_iterate (dl : DataLoader Sample) : keeps I E (iterate dl).
Proof.
  intros w Hw; unfold iterate.
  destruct (dl_shuffle dl); cbn [after events args with_passes]; split;
    solve [exact Hw | constructor].
Qed.

Lemma keeps_unbound {A : Type} (name : string) (local : option A) :
  keeps I E (unbound name local).
Proof. destruct local; [apply keeps_ret | apply keeps_raise]. Qed.

Lemma keeps_for_loop {A S : Type} (items : list A) (body : A -> S -> M (Ctl S)) :
  (forall x s, keeps I E (body x s)) -> forall s, keeps I E (for_loop items body s).
Proof.
  intros Hb; induction items as [|x items IH]; intros s; cbn [for_loop].
  - apply keeps_ret.
  - apply keeps_bind; [apply Hb|]. intros [s'|s']; [apply IH | apply keeps_ret].
Qed.

Lemma keeps_for_each {A : Type} (items : list A) (body : A -> M unit) :
  (forall x, keeps I E (body x)) -> keeps I E (for_each items body).
Proof.
  intros Hb; apply keeps_for_loop; intros x _.
  apply keeps_bind; [apply Hb | intros _; apply keeps_ret].
Qed.
End Keeps.

Lemma keeps_weaken (I : Args -> Prop) (E E' : Event -> Prop) {A : Type} (m : M A) :
  (forall e, E e -> E' e) -> keeps I E m -> keeps I E' m.
Proof.
  intros HE Hm w Hw. destruct (Hm w Hw) as [Ha He]. split; [exact Ha|].
  eapply Forall_impl; [exact HE | exact He].
Qed.

(** What keeps every property of the namespace leaves the namespace as it is. *)
Lemma keeps_args (E : Event -> Prop) {A : Type} (m : M A) :
  (forall I, keeps I E m) -> forall w, args (after (m w)) = args w.
Proof. intros Hm w. exact (proj1 (Hm (fun a => a = args w) w eq_refl)). Qed.
End MonadFacts.

Arguments bind_step {T A B m} k {w w' x evs} _.
Arguments bind_stop {T A B m} k {w w' e evs} _.

(** Running a piece of the script one statement at a time. *)
Ltac solve_attr := solve [eassumption | cbn; eassumption].

Ltac run_step :=
  cbv beta zeta;
  lazymatch goal with
  | |- context [bind (bind ?m ?k1) ?k2 ?w] => rewrite (bind_assoc m k1 k2 w)
  | |- context [bind get_args ?k ?w] => rewrite (bind_step k (get_args_run w))
  | |- context [bind (assign ?f) ?k ?w] => rewrite (bind_step k (assign_run f w))
  | |- context [bind (emit ?e) ?k ?w] => rewrite (bind_step k (emit_run e w))
  | |- context [bind (ret ?x) ?k ?w] => rewrite (bind_step k (ret_run x w))
  | |- context [bind (read ?n ?f) ?k ?w] =>
      let E := fresh "E" in
      eassert (E : f (args w) = Some _) by solve_attr;
      rewrite (bind_step k (read_run n f w E)); clear E
  | |- context [bind (writer_call ?e) ?k ?w] =>
      let E := fresh "E" in
      eassert (E : writer (args w) = Some _) by solve_attr;
      rewrite (bind_step k (writer_call_run e w E)); clear E
  | |- context [bind (div_int ?x ?n) ?k ?w] =>
      let E := fresh "E" in
      assert (E : n <> 0) by solve_attr;
      rewrite (bind_step k (div_int_run x w E)); clear E
  | |- context [bind (py_mod ?a ?b) ?k ?w] =>
      let E := fresh "E" in
      assert (E : b <> 0) by solve_attr;
      rewrite (bind_step k (py_mod_run a w E)); clear E
  | |- context [bind (new_loader ?ds ?size ?sh) ?k ?w] =>
      let E := fresh "E" in
      assert (E : 0 < size) by solve_attr;
      rewrite (bind_step k (new_loader_run ds sh w E)); clear E
  | |- context [bind (call ?e ?h) ?k ?w] =>
      let E := fresh "E" in
      eassert (E : h (args w) (files w) = Ok (_, _)) by solve_attr;
      rewrite (bind_step k (call_run e h w E)); clear E
  | |- context [bind input ?k ?w] =>
      let E := fresh "E" in
      eassert (E : stdin w = _ :: _) by solve_attr;
      rewrite (bind_step k (input_run w E)); clear E
  | |- context [writer_call ?e ?w] =>
      let E := fresh "E" in
      eassert (E : writer (args w) = Some _) by solve_attr;
      rewrite (writer_call_run e w E); clear E
  | |- context [div_int ?x ?n ?w] =>
      let E := fresh "E" in
      assert (E : n <> 0) by solve_attr;
      rewrite (div_int_run x w E); clear E
  | |- context [assign ?f ?w] => rewrite (assign_run f w)
  | |- context [emit ?e ?w] => rewrite (emit_run e w)
  | |- context [ret ?x ?w] => rewrite (ret_run x w)
  end.

Ltac finish_run :=
  unfold prepend; cbn [result after events app args stdin files passes draws
                       cuda_is_available with_args with_stdin with_files with_passes];
  try reflexivity.

(** ** What the loops leave alone *)

Ltac keeps_step solver :=
  cbv beta zeta;
  lazymatch goal with
  | |- keeps _ _ (ret _) => apply keeps_ret
  | |- keeps _ _ (raise _) => apply keeps_raise
  | |- keeps _ _ get_args => apply keeps_get_args
  | |- keeps _ _ (read _ _) => apply keeps_read
  | |- keeps _ _ (div_int _ _) => apply keeps_div_int
  | |- keeps _ _ (py_mod _ _) => apply keeps_py_mod
  | |- keeps _ _ (new_loader _ _ _) => apply keeps_new_loader
  | |- keeps _ _ (iterate _) => apply keeps_iterate
  | |- keeps _ _ (unbound _ _) => apply keeps_unbound
  | |- keeps _ _ (when _ _) => apply keeps_when
  | |- keeps _ _ (writer_call _) => apply keeps_writer_call
  | |- keeps _ _ (emit _) => apply keeps_emit
  | |- keeps _ _ input => apply keeps_input
  | |- keeps _ _ (for_loop _ _ _) => apply keeps_for_loop; intros ? ?
  | |- keeps _ _ (for_each _ _) => apply keeps_for_each; intros ?
  | |- keeps _ _ (bind get_args _) => apply keeps_bind_args; intros ? ?
  | |- keeps _ _ (bind _ _) => apply keeps_bind; [ | intros ? ]
  | |- keeps _ _ (match ?x with _ => _ end) => destruct x
  | |- _ => solver
  end.

Ltac keeps_with solver := repeat (keeps_step solver).

Section ScriptFrames.
Context {T : Torch} {H : Helpers}.

Lemma interval_only_quiet (e : Event) : interval_only e -> quiet e.
Proof. unfold interval_only, quiet; destruct e; simpl; congruence. Qed.

Lemma interval_only_silent (e : Event) : interval_only e -> train_loss_step e = [].
Proof.
  unfold interval_only; destruct e; simpl; try congruence.
  intros Htag. apply String.eqb_eq in Htag; subst tag. reflexivity.
Qed.

Lemma keeps_call (I : Args -> Prop) (E : Event -> Prop) (e : Event)
  (h : Args -> Files -> Res (Args * Files)) :
  E e -> helper_keeps I h -> keeps I E (call e h).
Proof.
  intros He Hh. apply keeps_bind; [apply keeps_emit, He | intros _].
  intros w Hw. destruct (h (args w) (files w)) as [[a f]|err] eqn:R;
    cbn [after events args with_files with_args].
  - split; [exact (Hh _ _ _ _ Hw R) | constructor].
  - split; [exact Hw | constructor].
Qed.

Section AnyInvariant.
Variable I : Args -> Prop.

Lemma keeps_add_tensorboard inputs targets outputs global_step name :
  keeps I interval_only (add_tensorboard inputs targets outputs global_step name).
Proof. unfold add_tensorboard. keeps_with ltac:(exact eq_refl). Qed.

Lemma keeps_validate_batch global_step item run_loss :
  keeps I interval_only (validate_batch global_step item run_loss).
Proof.
  unfold validate_batch.
  keeps_with ltac:(first [exact eq_refl | apply keeps_add_tensorboard]).
Qed.

Lemma keeps_validate validset print_info log_info global_step :
  keeps I interval_only (validate validset print_info log_info global_step).
Proof.
  unfold validate.
  keeps_with ltac:(first [exact eq_refl | apply keeps_validate_batch]).
Qed.
End AnyInvariant.

Section LoopInvariant.
Variable I : Args -> Prop.
Hypothesis I_frames : frames I.
Hypothesis I_restore : helper_keeps I restore_checkpoint.
Hypothesis I_process : forall loss step, helper_keeps I (process_checkpoint loss step).

Lemma keeps_loop_assign (E : Event -> Prop) (f : Args -> Args) :
  loop_assignment f -> keeps I E (assign f).
Proof. intros Hf; apply keeps_assign; intros a Ha; apply I_frames; assumption. Qed.

Ltac loop_solver :=
  first [ exact eq_refl
        | apply keeps_loop_assign; repeat constructor
        | apply keeps_call; [exact eq_refl | solve [auto]] ].

Lemma keeps_interval_actions batch_idx inputs outputs targets epoch loss validset gs :
  keeps I interval_only
    (interval_actions batch_idx inputs outputs targets epoch loss validset gs).
Proof.
  unfold interval_actions.
  keeps_with ltac:(first [ apply keeps_validate | apply keeps_add_tensorboard
                         | loop_solver ]).
Qed.

Lemma keeps_batch_status batch_idx inputs outputs targets epoch loader loss validset :
  keeps I quiet
    (batch_status batch_idx inputs outputs targets epoch loader loss validset).
Proof.
  unfold batch_status.
  keeps_with ltac:(first [ loop_solver
                         | eapply keeps_weaken;
                           [apply interval_only_quiet | apply keeps_interval_actions] ]).
Qed.

Lemma keeps_train_batch epoch loader validset item :
  keeps I quiet (train_batch epoch loader validset item).
Proof.
  unfold train_batch.
  keeps_with ltac:(first [apply keeps_batch_status | loop_solver]).
Qed.

Lemma keeps_train_epoch loader validset epoch :
  keeps I quiet (train_epoch loader validset epoch).
Proof.
  unfold train_epoch.
  keeps_with ltac:(first [apply keeps_train_batch | loop_solver]).
Qed.

Lemma keeps_train_loop loader validset : keeps I quiet (train_loop loader validset).
Proof.
  unfold train_loop.
  keeps_with ltac:(first [apply keeps_train_epoch | loop_solver]).
Qed.

Lemma keeps_train_setup trainset : keeps I quiet (train_setup trainset).
Proof. unfold train_setup. keeps_with loop_solver. Qed.

Lemma keeps_train trainset validset : keeps I quiet (train trainset validset).
Proof.
  unfold train.
  keeps_with ltac:(first [apply keeps_train_setup | apply keeps_train_loop]).
Qed.

Lemma keeps_predict_batch item run_loss : keeps I quiet (predict_batch item run_loss).
Proof. unfold predict_batch. keeps_with loop_solver. Qed.

Lemma keeps_predict_test testset : keeps I quiet (predict_test testset).
Proof.
  unfold predict_test.
  keeps_with ltac:(first [apply keeps_predict_batch | loop_solver]).
Qed.
End LoopInvariant.
End ScriptFrames.

(** ** The global steps of the training loss *)

Section Logs.
Context {T : Torch} {H : Helpers}.

Lemma silent_steps (evs : list Event) : Forall silent evs -> steps evs = [].
Proof.
  induction 1 as [|e evs He _ IH]; [reflexivity|].
  unfold steps in *; cbn [flat_map]. rewrite He, IH; reflexivity.
Qed.

Lemma keeps_silent {A : Type} (m : M A) :
  keeps (fun _ => True) silent m -> logs m [].
Proof.
  intros Hm w. destruct (Hm w Logic.I) as [_ He].
  rewrite (silent_steps He). split; [exists []; reflexivity | reflexivity].
Qed.

Lemma logs_raise {A : Type} (e : PyErr) (L : list Z) : logs (raise (A := A) e) L.
Proof. intros w; split; [exists L; reflexivity | discriminate]. Qed.

Lemma logs_bind_value {A B : Type} (m : M A) (k : A -> M B) (P : A -> Prop)
  (L1 L2 : list Z) :
  logs m L1 ->
  (forall w x, result (m w) = Ok x -> P x) ->
  (forall x, P x -> logs (k x) L2) ->
  logs (bind m k) (L1 ++ L2).
Proof.
  intros Hm HP Hk w. destruct (Hm w) as [[rest Hrest] Hall].
  destruct (result (m w)) as [x|e] eqn:R.
  - rewrite (bind_ok _ _ _ R); cbn [result events]. rewrite steps_app.
    rewrite (Hall x eq_refl).
    destruct (Hk x (HP w x R) (after (m w))) as [[rest' Hrest'] Hall'].
    split.
    + exists rest'. rewrite <- app_assoc, Hrest'; reflexivity.
    + intros y Hy. rewrite (Hall' y Hy); reflexivity.
  - rewrite (bind_raise _ _ _ R); cbn [result events]. split.
    + exists (rest ++ L2). rewrite app_assoc, Hrest; reflexivity.
    + discriminate.
Qed.

Lemma logs_bind {A B : Type} (m : M A) (k : A -> M B) (L1 L2 : list Z) :
  logs m L1 -> (forall x, logs (k x) L2) -> logs (bind m k) (L1 ++ L2).
Proof.
  intros Hm Hk.
  apply logs_bind_value with (P := fun _ => True); auto.
Qed.

Lemma logs_bind_silent {A B : Type} (m : M A) (k : A -> M B) (L : list Z) :
  keeps (fun _ => True) silent m -> (forall x, logs (k x) L) -> logs (bind m k) L.
Proof. intros Hm Hk. apply logs_bind with (L1 := []); [apply keeps_silent, Hm | exact Hk]. Qed.

Lemma logs_then_silent {A B : Type} (m : M A) (k : A -> M B) (L : list Z) :
  logs m L -> (forall x, keeps (fun _ => True) silent (k x)) -> logs (bind m k) L.
Proof.
  intros Hm Hk. rewrite <- (app_nil_r L).
  apply logs_bind; [exact Hm | intros x; apply keeps_silent, Hk].
Qed.

Lemma logs_for_each {A : Type} (items : list A) (body : A -> M unit) (f : A -> list Z) :
  (forall x, logs (body x) (f x)) -> logs (for_each items body) (flat_map f items).
Proof.
  intros Hb. unfold for_each.
  induction items as [|x items IH]; cbn [for_loop flat_map].
  - apply keeps_silent, keeps_ret.
  - apply logs_bind_value with (P := fun c => c = Next tt).
    + apply logs_then_silent; [apply Hb | intros _; apply keeps_ret].
    + intros w c. unfold bind, ret.
      destruct (result (body x w)); cbn [result]; congruence.
    + intros c ->. exact IH.
Qed.

(** [enumerate] counts by position. *)
Lemma enumerate_indices {A : Type} (l : list A) (start : Z) :
  map fst (enumerate l start) = map fst (enumerate (repeat tt (List.length l)) start).
Proof.
  revert start; induction l as [|x l IH]; intros start; cbn; [reflexivity|].
  f_equal; apply IH.
Qed.

Lemma logs_writer_call_train (loss : float) (step : Z) :
  logs (writer_call (AddScalar "Train/loss" loss step)) [step].
Proof.
  intros w. destruct (writer (args w)) as [wr|] eqn:E.
  - rewrite (writer_call_run _ _ E). cbn [result events]. split;
      [exists []; reflexivity | reflexivity].
  - unfold writer_call. rewrite (bind_stop _ (read_unset "writer" writer w E)).
    cbn [result events]. split; [exists [step]; reflexivity | discriminate].
Qed.

Ltac silent_solver :=
  first [ exact eq_refl
        | apply keeps_assign; solve [trivial]
        | apply keeps_call; [exact eq_refl | repeat intro; exact Logic.I]
        | eapply keeps_weaken;
          [apply interval_only_silent | apply keeps_interval_actions];
          repeat intro; exact Logic.I ].

Ltac logs_prefix :=
  repeat (cbv beta zeta;
          lazymatch goal with
          | |- logs (match ?x with _ => _ end) _ => destruct x
          | |- logs (raise _) _ => apply logs_raise
          | |- logs (bind _ _) _ =>
              apply logs_bind_silent; [solve [keeps_with silent_solver] | intros ?]
          end).

Lemma logs_batch_status batch_idx inputs outputs targets epoch loader loss validset :
  logs (batch_status batch_idx inputs outputs targets epoch loader loss validset)
       [batch_idx + loader_len loader * epoch].
Proof.
  unfold batch_status. logs_prefix.
  apply logs_then_silent; [apply logs_writer_call_train | intros _].
  keeps_with silent_solver.
Qed.

Lemma logs_train_batch epoch loader validset (item : Z * Batch) :
  logs (train_batch epoch loader validset item)
       [fst item + loader_len loader * epoch].
Proof.
  unfold train_batch. logs_prefix. apply logs_batch_status.
Qed.

Lemma iterate_length (loader : DataLoader Sample) (w : World) (batches : list Batch) :
  0 < dl_batch_size loader ->
  result (iterate loader w) = Ok batches ->
  Z.of_nat (List.length batches) = loader_len loader.
Proof.
  intros Hpos. unfold iterate.
  destruct (dl_shuffle loader); cbn [result]; intros [= <-];
    rewrite length_map; apply loader_batches_length, Hpos.
Qed.

Lemma logs_train_epoch loader validset epoch :
  0 < dl_batch_size loader ->
  logs (train_epoch loader validset epoch)
       (map (fun batch_idx => batch_idx + loader_len loader * epoch)
            (indices (loader_len loader))).
Proof.
  intros Hpos. unfold train_epoch.
  apply logs_bind_silent; [keeps_with silent_solver | intros _].
  rewrite <- (app_nil_l (map _ _)).
  apply logs_bind_value
    with (P := fun batches => Z.of_nat (List.length batches) = loader_len loader).
  - apply keeps_silent; keeps_with silent_solver.
  - intros w batches; apply iterate_length, Hpos.
  - intros batches Hlen.
    apply logs_then_silent; [|intros _; keeps_with silent_solver].
    replace (map _ (indices (loader_len loader)))
      with (flat_map (fun item : Z * Batch => [fst item + loader_len loader * epoch])
                     (enumerate batches 1)).
    + apply logs_for_each; intros item; apply logs_train_batch.
    + unfold indices. rewrite <- Hlen, Nat2Z.id, <- enumerate_indices.
      induction (enumerate batches 1) as [|x l IH]; cbn [flat_map map app];
        [reflexivity | f_equal; exact IH].
Qed.

Lemma train_loop_unfold loader validset (w : World) :
  train_loop loader validset w
  = let o := (for_each (range (epochs (args w))) (train_epoch loader validset) ;;
              emit (Print PFinishedTraining)) w in
    mkOutcome (result o) (after o) (Print PStartedTraining :: events o).
Proof. reflexivity. Qed.

(** The training loop logs the training loss under the steps of the schedule,
    in this order, and under all of them when it returns. *)
Lemma train_loop_steps loader validset (w : World) :
  0 < dl_batch_size loader ->
  (exists rest, steps (events (train_loop loader validset w)) ++ rest
                = schedule (loader_len loader) (epochs (args w))) /\
  (forall x, result (train_loop loader validset w) = Ok x ->
             steps (events (train_loop loader validset w))
             = schedule (loader_len loader) (epochs (args w))).
Proof.
  intros Hpos. rewrite train_loop_unfold. cbv zeta. cbn [result events].
  change (steps (?e :: ?l)) with (steps l).
  apply (@logs_then_silent _ _
           (for_each (range (epochs (args w))) (train_epoch loader validset))
           (fun _ => emit (Print PFinishedTraining))).
  - unfold schedule. apply logs_for_each; intros epoch.
    apply logs_train_epoch, Hpos.
  - intros _. apply keeps_emit. exact eq_refl.
Qed.

(** *** The schedule counts from 1 *)

Lemma enumerate_fst {A : Type} (l : list A) (start : Z) :
  map fst (enumerate l start)
  = map (fun i => start + Z.of_nat i) (seq 0 (List.length l)).
Proof.
  revert start; induction l as [|x l IH]; intros start; [reflexivity|].
  cbn [enumerate map List.length seq fst]. f_equal; [lia|].
  rewrite IH, <- seq_shift, map_map. apply map_ext; intros i; lia.
Qed.

Lemma seq_offset {A : Type} (f : nat -> A) (s k : nat) :
  map (fun i => f (s + i)%nat) (seq 0 k) = map f (seq s k).
Proof.
  revert s; induction k as [|k IH]; intros s; [reflexivity|].
  cbn [seq map]. rewrite Nat.add_0_r. f_equal.
  rewrite <- seq_shift, map_map, <- IH.
  apply map_ext; intros i. f_equal; lia.
Qed.

Lemma schedule_counts (n epochs : Z) :
  schedule n epochs = map Z.of_nat (seq 1 (Z.to_nat n * Z.to_nat epochs)).
Proof.
  unfold schedule, range, indices. rewrite enumerate_fst, repeat_length.
  generalize (Z.to_nat epochs) as e; intros e.
  induction e as [|e IH].
  - rewrite Nat.mul_0_r; reflexivity.
  - rewrite seq_S, map_app, flat_map_app, IH. cbn [map flat_map plus].
    rewrite app_nil_r, Nat.mul_succ_r, seq_app, map_app. f_equal.
    rewrite map_map.
    destruct (Z.to_nat n) as [|k] eqn:Hn; [reflexivity|].
    rewrite <- (seq_offset Z.of_nat (1 + S k * e) (S k)).
    apply map_ext; intros i. lia.
Qed.

Lemma counting_sorted (s k : nat) : StronglySorted Z.lt (map Z.of_nat (seq s k)).
Proof.
  revert s; induction k as [|k IH]; intros s; cbn [seq map]; constructor.
  - apply IH.
  - apply Forall_forall; intros z Hz.
    apply in_map_iff in Hz; destruct Hz as [i [<- Hi]].
    apply in_seq in Hi; lia.
Qed.

Lemma sorted_prefix (l rest : list Z) :
  StronglySorted Z.lt (l ++ rest) -> StronglySorted Z.lt l.
Proof.
  induction l as [|z l IH]; cbn [app]; intros Hs; [constructor|].
  inversion Hs as [|? ? Hl Hz]; subst. constructor; [apply IH, Hl|].
  apply Forall_app in Hz; tauto.
Qed.
End Logs.

(** ** [main] and the tensorboard writer *)

Section MainFacts.
Context {T : Torch} {H : Helpers}.

Lemma frames_predict : frames predict_is_bool.
Proof. intros f a Hf; revert a; induction Hf; intros a Ha; auto. Qed.

Lemma frames_hyperparameters h : frames (fun a => hyperparameters a = h).
Proof. intros f a Hf; revert a; induction Hf; intros a Ha; auto. Qed.

Lemma keeps_select_device (I : Args -> Prop) :
  (forall d a, I a -> I (set_device d a)) -> keeps I quiet select_device.
Proof.
  intros Hd. unfold select_device.
  keeps_with ltac:(first [exact eq_refl | idtac]).
  intros w Hw. unfold assign; cbn [after events args with_args].
  split; [apply Hd, Hw | constructor].
Qed.

Lemma open_writer_skipped (w : World) :
  predict_is_bool (args w) -> open_writer w = mkOutcome (Ok tt) w [].
Proof.
  unfold predict_is_bool, open_writer, bind, get_args; cbn [result after events].
  intros ->. reflexivity.
Qed.

Lemma close_writer_skipped (w : World) :
  predict_is_bool (args w) -> close_writer w = mkOutcome (Ok tt) w [].
Proof.
  unfold predict_is_bool, close_writer, bind, get_args; cbn [result after events].
  intros ->. reflexivity.
Qed.

Section BooleanFlag.
Hypothesis read_keeps : helper_keeps predict_is_bool read_checkpoint.
Hypothesis restore_keeps : helper_keeps predict_is_bool restore_checkpoint.
Hypothesis process_keeps :
  forall loss step, helper_keeps predict_is_bool (process_checkpoint loss step).

Lemma keeps_main : keeps predict_is_bool quiet main.
Proof.
  unfold main.
  keeps_with ltac:(first
    [ exact eq_refl
    | apply keeps_select_device; intros ? ? Ha; exact Ha
    | apply keeps_assign; intros ? Ha; exact Ha
    | apply keeps_call; [exact eq_refl | assumption]
    | apply keeps_train; solve [apply frames_predict | assumption]
    | apply keeps_predict_test; solve [apply frames_predict | assumption]
    | intros w Hw; rewrite (open_writer_skipped _ Hw); split; [exact Hw | constructor]
    | intros w Hw; rewrite (close_writer_skipped _ Hw); split; [exact Hw | constructor] ]).
Qed.
End BooleanFlag.
End MainFacts.

(** ** The validation pass *)

Section ValidationFacts.
Context {T : Torch} {H : Helpers}.

Lemma take_batch_concat {A : Type} (size : nat) (l cur : list A) :
  List.concat (take_batch size cur l) = rev cur ++ l.
Proof.
  revert cur; induction l as [|x l IH]; intros cur; cbn [take_batch].
  - destruct cur; cbn [List.concat]; rewrite ?app_nil_r; reflexivity.
  - destruct (Nat.eqb (S (List.length cur)) size); cbn [List.concat].
    + rewrite IH. cbn [rev app]. rewrite <- app_assoc. reflexivity.
    + rewrite IH. cbn [rev]. rewrite <- app_assoc. reflexivity.
Qed.

Lemma loader_len_positive {A : Type} (dl : DataLoader A) :
  0 < dl_batch_size dl -> dl_dataset dl <> [] -> 0 < loader_len dl.
Proof.
  intros Hpos Hne. unfold loader_len.
  destruct (dl_dataset dl) as [|x l]; [congruence|]. cbn [List.length].
  apply Z.div_str_pos; lia.
Qed.

Lemma add_tensorboard_run inputs targets outputs global_step name (w : World) wr :
  writer (args w) = Some wr ->
  add_tensorboard inputs targets outputs global_step name w
  = mkOutcome (Ok tt) w (four_way name (device (args w)) inputs targets outputs global_step).
Proof.
  intros Hw. unfold add_tensorboard. repeat run_step. finish_run.
Qed.

Lemma validate_batch_run global_step idx (b : Batch) run_loss (w : World) model crit wr :
  net (args w) = Some model -> criterion (args w) = Some crit ->
  writer (args w) = Some wr ->
  validate_batch global_step (idx, b) run_loss w
  = mkOutcome (Ok (Next (run_loss + batch_loss (device (args w)) model b)%float)) w
      (if idx =? 1 then first_batch_grid "Valid" (device (args w)) model global_step [b]
       else []).
Proof.
  intros Hnet Hcrit Hw. destruct b as [inputs targets]. unfold validate_batch.
  do 3 run_step. destruct crit. cbn [apply_criterion].
  destruct (idx =? 1); cbn [when].
  - rewrite (bind_step _ (add_tensorboard_run _ _ _ global_step "Valid" w Hw)).
    run_step. finish_run.
  - repeat run_step. finish_run.
Qed.

Lemma validate_batches_run global_step (w : World) model crit wr :
  net (args w) = Some model -> criterion (args w) = Some crit ->
  writer (args w) = Some wr ->
  forall batches idx run_loss,
    1 <= idx ->
    for_loop (enumerate batches idx) (validate_batch global_step) run_loss w
    = mkOutcome
        (Ok (accumulate run_loss (map (batch_loss (device (args w)) model) batches)))
        w
        (if idx =? 1
         then first_batch_grid "Valid" (device (args w)) model global_step batches
         else []).
Proof.
  intros Hnet Hcrit Hw. induction batches as [|b batches IH];
    intros idx run_loss Hidx; cbn [enumerate for_loop map].
  - destruct (idx =? 1); reflexivity.
  - rewrite (bind_step _ (validate_batch_run global_step idx b run_loss w Hnet Hcrit Hw)).
    rewrite IH by lia.
    replace (idx + 1 =? 1) with false by (symmetry; apply Z.eqb_neq; lia).
    unfold prepend; cbn [result after events accumulate fold_left].
    rewrite app_nil_r. destruct (idx =? 1); reflexivity.
Qed.

(** One call of [validate], when the namespace holds a model, a loss and a
    writer and the partition is not empty. *)
Lemma validate_run validset print_info log_info global_step (w : World) model crit wr :
  net (args w) = Some model -> criterion (args w) = Some crit ->
  writer (args w) = Some wr ->
  0 < batch_size (args w) -> validset <> [] ->
  let d := device (args w) in
  let loader := mkLoader validset (batch_size (args w)) true in
  let batches := map collate (loader_batches (draws w (passes w)) loader) in
  let mean := (accumulate 0 (map (batch_loss d model) batches)
               / Z2float (loader_len loader))%float in
  validate validset print_info log_info global_step w
  = mkOutcome (Ok mean) (with_passes (S (passes w)) w)
      ((if print_info then [Print PStartedValidation] else [])
       ++ first_batch_grid "Valid" d model global_step batches
       ++ (if log_info then [AddScalar "Valid/loss" mean global_step] else [])).
Proof.
  intros Hnet Hcrit Hw Hpos Hne d loader batches mean.
  assert (Hlen : loader_len loader <> 0).
  { pose proof (@loader_len_positive _ loader Hpos Hne). lia. }
  unfold validate. do 2 run_step. fold loader.
  assert (Hprint : when print_info (emit (Print PStartedValidation)) w
                   = mkOutcome (Ok tt) w
                       (if print_info then [Print PStartedValidation] else [])).
  { destruct print_info; reflexivity. }
  rewrite (bind_step _ Hprint).
  assert (Hiter : iterate loader w
                  = mkOutcome (Ok batches) (with_passes (S (passes w)) w) []).
  { reflexivity. }
  rewrite (bind_step _ Hiter).
  rewrite (bind_step _ (@validate_batches_run global_step (with_passes (S (passes w)) w)
                          model crit wr Hnet Hcrit Hw batches 1 0%float (Z.le_refl 1))).
  cbn [Z.eqb Pos.eqb args with_passes]. fold d. fold mean.
  destruct log_info; cbn [when].
  - repeat run_step. finish_run.
  - repeat run_step. finish_run.
Qed.
End ValidationFacts.

(** ** One batch of the training loop *)

Section BatchStatusFacts.
Context {T : Torch} {H : Helpers}.

Lemma batch_status_off_interval batch_idx inputs outputs targets epoch loader loss
  validset (w : World) r t wr :
  running_loss (args w) = Some r -> train_loss (args w) = Some t ->
  writer (args w) = Some wr ->
  log_interval (args w) <> 0 ->
  (batch_idx + loader_len loader * epoch) mod log_interval (args w) <> 0 ->
  batch_status batch_idx inputs outputs targets epoch loader loss validset w
  = mkOutcome (Ok tt) (with_args (accumulated loss r t (args w)) w)
      [AddScalar "Train/loss" loss (batch_idx + loader_len loader * epoch); Flush].
Proof.
  intros Hr Ht Hw Hli Hmod. unfold batch_status. do 7 run_step.
  cbn [args with_args log_interval set_train_loss set_running_loss].
  apply Z.eqb_neq in Hmod. rewrite Hmod. cbn [when].
  repeat run_step. finish_run.
Qed.

Lemma batch_status_on_interval batch_idx inputs outputs targets epoch loader loss
  validset (w : World) r t wr :
  running_loss (args w) = Some r -> train_loss (args w) = Some t ->
  writer (args w) = Some wr ->
  log_interval (args w) <> 0 ->
  (batch_idx + loader_len loader * epoch) mod log_interval (args w) = 0 ->
  let gs := batch_idx + loader_len loader * epoch in
  batch_status batch_idx inputs outputs targets epoch loader loss validset w
  = prepend [AddScalar "Train/loss" loss gs]
      ((interval_actions batch_idx inputs outputs targets epoch loss validset gs ;;
        writer_call Flush) (with_args (accumulated loss r t (args w)) w)).
Proof.
  intros Hr Ht Hw Hli Hmod gs. subst gs. unfold batch_status. do 7 run_step.
  cbn [args with_args log_interval set_train_loss set_running_loss].
  rewrite Hmod. cbn [Z.eqb when].
  rewrite !prepend_nil. reflexivity.
Qed.

(** The interval actions, when validation can run and the checkpoint helper
    returns a namespace the progress line can be printed from. *)
Lemma interval_actions_run batch_idx inputs outputs targets epoch loss validset gs
  (w : World) model crit wr a2 f2 size loader_size r2 :
  net (args w) = Some model -> criterion (args w) = Some crit ->
  writer (args w) = Some wr ->
  0 < batch_size (args w) -> validset <> [] ->
  process_checkpoint loss gs (args w) (files w) = Ok (a2, f2) ->
  dataset_size a2 = Some size -> dataloader_size a2 = Some loader_size ->
  loader_size <> 0 -> running_loss a2 = Some r2 -> log_interval a2 <> 0 ->
  let d := device (args w) in
  let loader := mkLoader validset (batch_size (args w)) true in
  let batches := map collate (loader_batches (draws w (passes w)) loader) in
  let vloss := (accumulate 0 (map (batch_loss d model) batches)
                / Z2float (loader_len loader))%float in
  interval_actions batch_idx inputs outputs targets epoch loss validset gs w
  = mkOutcome (Ok tt)
      (with_args (set_running_loss (Some 0%float) a2)
         (with_files f2 (with_passes (S (passes w)) w)))
      (first_batch_grid "Valid" d model gs batches
       ++ [AddScalar "Valid/loss" vloss gs]
       ++ four_way "Train" d inputs targets outputs gs
       ++ [CallProcessCheckpoint loss gs;
           Print (PProgress epoch batch_idx (batch_size a2 * batch_idx) size
                    (100 * Z2float batch_idx / Z2float loader_size)%float
                    (r2 / Z2float (log_interval a2))%float vloss)]).
Proof.
  intros Hnet Hcrit Hw Hpos Hne Hproc Hsize Hlsize Hl0 Hr2 Hli d loader batches vloss.
  unfold interval_actions.
  pose proof (@validate_run _ _ validset false true gs w model crit wr
                Hnet Hcrit Hw Hpos Hne) as Hv.
  cbv zeta in Hv. rewrite (bind_step _ Hv). clear Hv.
  fold d loader batches vloss.
  rewrite (bind_step _ (@add_tensorboard_run _ _ inputs targets outputs gs "Train"
                          (with_passes (S (passes w)) w) wr Hw)).
  repeat run_step. finish_run.
  rewrite <- !app_assoc. reflexivity.
Qed.
End BatchStatusFacts.

(** ** The inference pass *)

Section PredictFacts.
Context {T : Torch} {H : Helpers}.

Lemma predict_batch_run idx (b : Batch) run_loss (w : World) model crit line rest :
  net (args w) = Some model -> criterion (args w) = Some crit ->
  stdin w = line :: rest ->
  predict_batch (idx, b) run_loss w
  = mkOutcome
      (Ok (let total := (run_loss + batch_loss (device (args w)) model b)%float in
           if idx <? 10 then Next total else Break total))
      (with_stdin rest w)
      (inspection (device (args w)) model b).
Proof.
  intros Hnet Hcrit Hin. destruct b as [inputs targets]. unfold predict_batch.
  do 9 run_step. destruct crit. cbn [apply_criterion].
  destruct (idx <? 10); run_step; finish_run.
Qed.

Lemma predict_batches_run model crit :
  forall batches idx run_loss (w : World),
    net (args w) = Some model -> criterion (args w) = Some crit ->
    1 <= idx <= 10 ->
    let seen := firstn (Z.to_nat (11 - idx)) batches in
    (List.length seen <= List.length (stdin w))%nat ->
    for_loop (enumerate batches idx) predict_batch run_loss w
    = mkOutcome
        (Ok (accumulate run_loss (map (batch_loss (device (args w)) model) seen)))
        (with_stdin (skipn (List.length seen) (stdin w)) w)
        (flat_map (inspection (device (args w)) model) seen).
Proof.
  induction batches as [|b batches IH];
    intros idx run_loss w Hnet Hcrit Hidx seen Hin.
  - subst seen. rewrite firstn_nil. destruct w; reflexivity.
  - assert (Hk : Z.to_nat (11 - idx) = S (Z.to_nat (11 - (idx + 1)))) by lia.
    subst seen. rewrite Hk in *. cbn [firstn List.length] in Hin.
    cbn [firstn enumerate for_loop map flat_map List.length].
    destruct (stdin w) as [|line rest] eqn:Hstdin; [cbn [List.length] in Hin; lia|].
    rewrite (bind_step _ (predict_batch_run idx b run_loss w Hnet Hcrit Hstdin)).
    cbv zeta. destruct (idx <? 10) eqn:E10.
    + apply Z.ltb_lt in E10.
      rewrite (IH (idx + 1) _ (with_stdin rest w) Hnet Hcrit) by
        (cbn [stdin with_stdin List.length] in *; lia).
      unfold prepend.
      cbn [result after events args stdin with_stdin skipn accumulate fold_left].
      reflexivity.
    + apply Z.ltb_ge in E10. assert (idx = 10) by lia; subst idx.
      change (Z.to_nat (11 - (10 + 1))) with 0%nat.
      rewrite ret_run. unfold prepend.
      cbn [firstn map flat_map List.length skipn result after events
           accumulate fold_left].
      reflexivity.
Qed.

(** One call of [predict_test], when the checkpoint helper returns a namespace
    with a model and the user answers every prompt. *)
Lemma predict_test_run testset (w : World) a1 f1 model :
  0 < batch_size (args w) ->
  restore_checkpoint (args w) (files w) = Ok (a1, f1) ->
  net a1 = Some model ->
  let batches :=
    map collate (loader_batches [] (mkLoader testset (batch_size (args w)) false)) in
  let seen := firstn 10 batches in
  (List.length seen <= List.length (stdin w))%nat ->
  predict_test testset w
  = mkOutcome (Ok tt)
      (with_stdin (skipn (List.length seen) (stdin w))
         (with_args (set_criterion (Some MSELoss) a1) (with_files f1 w)))
      (CallRestoreCheckpoint :: flat_map (inspection (device a1) model) seen).
Proof.
  intros Hpos Hrestore Hnet batches seen Hin.
  unfold predict_test. do 4 run_step.
  assert (Hiter : forall w', iterate (mkLoader testset (batch_size (args w)) false) w'
                             = mkOutcome (Ok batches) w' []) by reflexivity.
  rewrite (bind_step _ (Hiter _)).
  match goal with
  | |- context [bind (for_loop _ _ _) _ ?W] =>
      pose proof (@predict_batches_run model MSELoss batches 1 0%float W
                    Hnet eq_refl ltac:(lia) Hin) as Hloop
  end.
  rewrite (bind_step _ Hloop). run_step. finish_run.
  rewrite app_nil_r. reflexivity.
Qed.
End PredictFacts.

(** ** The checkpoint helpers of the specification *)

Section CheckpointFacts.
Context {T : Torch}.

Lemma process_checkpoint_spec_run loss step (a : Args) (fs : Files) recorded model name :
  best a = Some recorded -> net a = Some model -> run a = Some name ->
  process_checkpoint_spec loss step a fs
  = if (loss <? recorded)%float
    then Ok (set_best (Some loss) a,
             (name, mkCheckpoint model (optimizer a) loss step) :: fs)
    else Ok (a, fs).
Proof.
  intros Hb Hn Hr. unfold process_checkpoint_spec. rewrite Hb, Hn, Hr. reflexivity.
Qed.

Lemma process_checkpoint_spec_keeps (I : Args -> Prop) loss step :
  frames I -> helper_keeps I (process_checkpoint_spec loss step).
Proof.
  intros HI a fs a' fs' Ha. unfold process_checkpoint_spec.
  destruct (best a) as [recorded|]; [|discriminate].
  destruct (net a) as [model|]; [|discriminate].
  destruct (run a) as [name|]; [|discriminate].
  destruct (loss <? recorded)%float; intros [= <- <-]; [|exact Ha].
  apply HI; [constructor | exact Ha].
Qed.

Lemma restore_checkpoint_spec_keeps (I : Args -> Prop) :
  frames I -> helper_keeps I restore_checkpoint_spec.
Proof.
  intros HI a fs a' fs' Ha. unfold restore_checkpoint_spec.
  destruct (String.eqb (checkpoint a) "none"); [intros [= <- <-]; exact Ha|].
  destruct (lookup (checkpoint a) fs) as [ck|]; [|discriminate].
  intros [= <- <-].
  apply HI; [constructor|]. apply HI; [constructor|]. apply HI; [constructor | exact Ha].
Qed.
End CheckpointFacts.

Section SetupFacts.
Context {T : Torch} {H : Helpers}.

Lemma ensures_bind {A B : Type} (m : M A) (k : A -> M B) (Q : B -> World -> Prop) :
  (forall x, ensures (k x) Q) -> ensures (bind m k) Q.
Proof.
  intros Hk w y. unfold bind.
  destruct (m w) as [[x|e] w1 ev1]; cbn [result after]; [|discriminate].
  apply Hk.
Qed.

Lemma ensures_bind_value {A B : Type} (m : M A) (k : A -> M B) (P : A -> Prop)
  (Q : B -> World -> Prop) :
  ensures m (fun x _ => P x) -> (forall x, P x -> ensures (k x) Q) ->
  ensures (bind m k) Q.
Proof.
  intros Hm Hk w y. unfold bind. specialize (Hm w).
  destruct (m w) as [[x|e] w1 ev1]; cbn [result after] in *; [|discriminate].
  apply Hk. apply (Hm x eq_refl).
Qed.

(** Whatever [restore_checkpoint] has put into the namespace, [train] starts
    with the best loss at infinity; the loader it builds has a positive batch
    size. *)
Lemma train_setup_ensures (trainset : Dataset) :
  ensures (train_setup trainset)
          (fun loader w' => best (args w') = Some infinity /\ 0 < dl_batch_size loader).
Proof.
  unfold train_setup. apply ensures_bind; intros a.
  apply ensures_bind_value with (P := fun dl : DataLoader Sample => 0 < dl_batch_size dl).
  { intros w dl. unfold new_loader.
    destruct (batch_size a <=? 0) eqn:E; cbn [result]; [discriminate|].
    intros [= <-]. cbn [dl_batch_size]. apply Z.leb_gt, E. }
  intros loader Hloader.
  repeat lazymatch goal with
         | |- ensures (bind (assign (set_best _)) _) _ => fail
         | |- ensures (bind _ _) _ => apply ensures_bind; intros ?
         | |- ensures (match ?x with _ => _ end) _ => destruct x
         end.
  intros w0 y Hy. injection Hy as <-. split; [reflexivity | exact Hloader].
Qed.
End SetupFacts.

Section PassFacts.
Context {T : Torch}.

Lemma insert_at_permutation {A : Type} (k : nat) (x : A) (l : list A) :
  Permutation (insert_at k x l) (x :: l).
Proof.
  revert k; induction l as [|y l IH]; intros [|k]; cbn [insert_at]; try reflexivity.
  rewrite IH. apply perm_swap.
Qed.

Lemma shuffle_permutation {A : Type} (d : list nat) (l : list A) :
  Permutation (shuffle d l) l.
Proof.
  revert d; induction l as [|x l IH]; intros d; cbn [shuffle]; [reflexivity|].
  rewrite insert_at_permutation. constructor. apply IH.
Qed.

Lemma inspection_count {H : Helpers} (d : Device) (model : Model) (seen : list Batch) :
  batches_processed (flat_map (inspection d model) seen) = List.length seen.
Proof.
  unfold batches_processed. induction seen as [|b seen IH]; [reflexivity|].
  cbn [flat_map]. rewrite filter_app, length_app, IH. reflexivity.
Qed.
End PassFacts.

(** * The claims *)

(** C1, as the code has it: after the startup of [train], whether or not
    [restore_checkpoint] restored a checkpoint, the best loss is infinity, and
    the training loop that follows logs under the global steps 1, 2, 3, ...,
    counted from the first batch of epoch 0; neither comes from the checkpoint. *)
Theorem training_starts_afresh {T : Torch} {H : Helpers} (trainset validset : Dataset)
  (w : World) (loader : DataLoader Sample) :
  result (train_setup trainset w) = Ok loader ->
  let w' := after (train_setup trainset w) in
  best (args w') = Some infinity
  /\ forall x, result (train_loop loader validset w') = Ok x ->
       steps (events (train_loop loader validset w'))
       = map Z.of_nat
             (seq 1 (Z.to_nat (loader_len loader) * Z.to_nat (epochs (args w')))).
Proof.
  intros Hsetup w'.
  destruct (train_setup_ensures trainset w Hsetup) as [Hbest Hpos].
  split; [exact Hbest|].
  intros x Hx. rewrite <- schedule_counts.
  exact (proj2 (@train_loop_steps _ _ loader validset w' Hpos) x Hx).
Qed.

Lemma training_starts_afresh_witness :
  best (args (after (train_setup (H := Toy.helpers) (Toy.samples 100) Toy.resumed_world)))
  = Some infinity.
Proof.
  refine (proj1 (@training_starts_afresh Toy.torch Toy.helpers (Toy.samples 100)
                   (Toy.samples 20) Toy.resumed_world
                   (mkLoader (Toy.samples 100) 16 true) _)).
  vm_compute. reflexivity.
Defined.

(** C1 fails as stated: a run that restores a checkpoint saved at step 100 with
    best loss 0.25 starts its training loop with the best loss at infinity and
    logs its first batch under global step 1. *)
Lemma restored_progress_is_discarded :
  let setup := train_setup (H := Toy.helpers) (Toy.samples 100) Toy.resumed_world in
  let run := train (H := Toy.helpers) (Toy.samples 100) (Toy.samples 20) Toy.resumed_world in
  lookup (checkpoint (args Toy.resumed_world)) (files Toy.resumed_world) = Some Toy.saved
  /\ net (args (after setup)) = Some (ck_model Toy.saved)
  /\ best (args (after setup)) <> Some (ck_best Toy.saved)
  /\ result run = Ok tt
  /\ hd 0 (steps (events run)) = 1
  /\ ~ In (ck_step Toy.saved) (steps (events run)).
Proof.
  cbv zeta. split; [reflexivity|]. split; [vm_compute; reflexivity|]. split.
  { vm_compute. intros [= E]. }
  split; [vm_compute; reflexivity|]. split; [vm_compute; reflexivity|].
  vm_compute. intuition discriminate.
Qed.

(** C2, as the code has it: every batch is logged under the global step
    [batch_index + epoch_index * batches_per_epoch] with the batch index counted
    from 1, as [enumerate(train_loader, 1)] counts it (with 7 batches per epoch
    the last batch of epoch 0 has global step 7); over a run the global steps
    are 1, 2, 3, ... in this order, so they increase strictly. *)
Theorem global_step_counts_from_one {T : Torch} {H : Helpers}
  (loader : DataLoader Sample) (validset : Dataset) (w : World) :
  0 < dl_batch_size loader ->
  let n := loader_len loader in
  let run := train_loop loader validset w in
  (forall batch_idx inputs outputs targets epoch loss,
     logs (batch_status batch_idx inputs outputs targets epoch loader loss validset)
          [batch_idx + n * epoch])
  /\ (forall x, result run = Ok x -> steps (events run) = schedule n (epochs (args w)))
  /\ (exists rest, steps (events run) ++ rest = schedule n (epochs (args w)))
  /\ schedule n (epochs (args w))
     = map Z.of_nat (seq 1 (Z.to_nat n * Z.to_nat (epochs (args w))))
  /\ StronglySorted Z.lt (steps (events run))
  /\ schedule 7 1 = [1; 2; 3; 4; 5; 6; 7].
Proof.
  intros Hpos n run.
  destruct (@train_loop_steps _ _ loader validset w Hpos) as [Hprefix Hall].
  split; [intros; apply logs_batch_status|].
  split; [exact Hall|]. split; [exact Hprefix|].
  split; [apply schedule_counts|]. split; [|reflexivity].
  destruct Hprefix as [rest Hrest].
  apply sorted_prefix with (rest := rest).
  fold run n in Hrest. rewrite Hrest, schedule_counts. apply counting_sorted.
Qed.

Lemma global_step_counts_from_one_witness :
  steps (events (train_loop (H := Toy.helpers) Toy.loader100 (Toy.samples 20)
                   Toy.loop_world))
  = schedule (loader_len Toy.loader100) (epochs (args Toy.loop_world)).
Proof.
  refine (proj1 (proj2
    (@global_step_counts_from_one Toy.torch Toy.helpers Toy.loader100
       (Toy.samples 20) Toy.loop_world eq_refl)) tt _).
  vm_compute. reflexivity.
Defined.

(** C2 fails as stated: with 100 samples in batches of 16 an epoch has 7
    batches, and the last batch of epoch 0 is logged under global step 7, not
    under 6. *)
Lemma last_batch_of_first_epoch :
  let loader := mkLoader (Toy.samples 100) 16 true in
  let run := train (H := Toy.helpers) (Toy.samples 100) (Toy.samples 20) Toy.ready_world in
  loader_len loader = 7
  /\ epochs (args Toy.ready_world) = 1
  /\ result run = Ok tt
  /\ steps (events run) = [1; 2; 3; 4; 5; 6; 7]
  /\ last (steps (events run)) 0 <> 6 + 0 * loader_len loader.
Proof.
  cbv zeta. split; [reflexivity|]. split; [reflexivity|].
  split; [vm_compute; reflexivity|]. split; [vm_compute; reflexivity|].
  vm_compute. discriminate.
Qed.

(** C3 (against [process_checkpoint] as the specification describes it): a
    checkpoint is written if and only if the just-observed training loss is
    strictly less than the recorded best, and the best is updated exactly when a
    write occurs; for the losses 0.50, 0.40, 0.45, 0.30, starting from the best
    [train] sets, checkpoints are written for 0.50, 0.40 and 0.30 only and the
    final best is 0.30. *)
Theorem checkpoint_written_iff_improved {T : Torch} (loss : float) (step : Z)
  (a : Args) (fs : Files) (recorded : float) (model : Model) (name : string) :
  best a = Some recorded -> net a = Some model -> run a = Some name ->
  let improved := (loss <? recorded)%float in
  let written := (name, mkCheckpoint model (optimizer a) loss step) :: fs in
  process_checkpoint_spec loss step a fs
  = Ok (if improved then set_best (Some loss) a else a,
        if improved then written else fs)
  /\ ((if improved then written else fs) <> fs <-> improved = true)
  /\ (recorded = infinity ->
      evaluate_all Toy.scenario a fs
      = Ok (set_best (Some 0.30%float) a,
            (name, mkCheckpoint model (optimizer a) 0.30%float 200)
            :: (name, mkCheckpoint model (optimizer a) 0.40%float 100)
            :: (name, mkCheckpoint model (optimizer a) 0.50%float 50) :: fs)).
Proof.
  intros Hb Hn Hr improved written. split; [|split].
  - rewrite (@process_checkpoint_spec_run _ loss step a fs recorded model name Hb Hn Hr).
    fold improved. destruct improved; reflexivity.
  - destruct improved; split; try congruence.
    intros _ E. apply (f_equal (@List.length _)) in E.
    subst written. cbn [List.length] in E. lia.
  - intros ->. unfold Toy.scenario. cbn [evaluate_all].
    rewrite (@process_checkpoint_spec_run _ 0.50%float 50 a fs infinity model name Hb Hn Hr).
    change (0.50 <? infinity)%float with true. cbv iota.
    rewrite (@process_checkpoint_spec_run _ 0.40%float 100
               (set_best (Some 0.50%float) a) _ 0.50%float model name eq_refl Hn Hr).
    change (0.40 <? 0.50)%float with true. cbv iota.
    rewrite (@process_checkpoint_spec_run _ 0.45%float 150
               (set_best (Some 0.40%float) (set_best (Some 0.50%float) a)) _
               0.40%float model name eq_refl Hn Hr).
    change (0.45 <? 0.40)%float with false. cbv iota.
    rewrite (@process_checkpoint_spec_run _ 0.30%float 200
               (set_best (Some 0.40%float) (set_best (Some 0.50%float) a)) _
               0.40%float model name eq_refl Hn Hr).
    change (0.30 <? 0.40)%float with true. cbv iota.
    reflexivity.
Qed.

Lemma checkpoint_written_iff_improved_witness :
  process_checkpoint_spec 0.45%float 150 (set_best (Some 0.40%float) Toy.training) []
  = Ok (set_best (Some 0.40%float) Toy.training, [])
  /\ best (set_best (Some 0.30%float) Toy.training) = Some 0.30%float.
Proof.
  split; [|reflexivity].
  exact (proj1 (@checkpoint_written_iff_improved Toy.torch 0.45%float 150
                  (set_best (Some 0.40%float) Toy.training) [] 0.40%float
                  0.5%float "toy" eq_refl eq_refl eq_refl)).
Defined.

(** C4: the interval actions (the validation pass, the four images of the
    training batch, the checkpoint evaluation, the progress line and the reset
    of the running loss) are done exactly at the global steps that are multiples
    of [log_interval]; at every other step [batch_status] only logs the training
    loss and flushes the writer, and the running loss keeps accumulating. *)
Theorem interval_actions_on_multiples {T : Torch} {H : Helpers}
  (batch_idx : Z) (inputs outputs targets : Tensor) (epoch : Z)
  (loader : DataLoader Sample) (loss : float) (validset : Dataset) (w : World)
  (r t : float) (wr : string) :
  running_loss (args w) = Some r -> train_loss (args w) = Some t ->
  writer (args w) = Some wr -> log_interval (args w) <> 0 ->
  let gs := batch_idx + loader_len loader * epoch in
  let w1 := with_args (accumulated loss r t (args w)) w in
  let status := batch_status batch_idx inputs outputs targets epoch loader loss validset w in
  (~ (log_interval (args w) | gs) ->
   status = mkOutcome (Ok tt) w1 [AddScalar "Train/loss" loss gs; Flush])
  /\ ((log_interval (args w) | gs) ->
      status = prepend [AddScalar "Train/loss" loss gs]
                 ((interval_actions batch_idx inputs outputs targets epoch loss validset gs ;;
                   writer_call Flush) w1)
      /\ forall model crit a2 f2 size loader_size r2 wr2,
           net (args w) = Some model -> criterion (args w) = Some crit ->
           0 < batch_size (args w) -> validset <> [] ->
           process_checkpoint loss gs (args w1) (files w) = Ok (a2, f2) ->
           dataset_size a2 = Some size -> dataloader_size a2 = Some loader_size ->
           loader_size <> 0 -> running_loss a2 = Some r2 -> log_interval a2 <> 0 ->
           writer a2 = Some wr2 ->
           let d := device (args w) in
           let valid_loader := mkLoader validset (batch_size (args w)) true in
           let batches := map collate (loader_batches (draws w (passes w)) valid_loader) in
           let vloss := (accumulate 0 (map (batch_loss d model) batches)
                         / Z2float (loader_len valid_loader))%float in
           status
           = mkOutcome (Ok tt)
               (with_args (set_running_loss (Some 0%float) a2)
                  (with_files f2 (with_passes (S (passes w)) w)))
               ([AddScalar "Train/loss" loss gs]
                ++ first_batch_grid "Valid" d model gs batches
                ++ [AddScalar "Valid/loss" vloss gs]
                ++ four_way "Train" d inputs targets outputs gs
                ++ [CallProcessCheckpoint loss gs;
                    Print (PProgress epoch batch_idx (batch_size a2 * batch_idx) size
                             (100 * Z2float batch_idx / Z2float loader_size)%float
                             (r2 / Z2float (log_interval a2))%float vloss);
                    Flush])).
Proof.
  intros Hr Ht Hw Hli gs w1 status. split.
  - intros Hnot. apply batch_status_off_interval with (wr := wr); try assumption.
    intros Hmod. apply Hnot. apply Z.mod_divide; assumption.
  - intros Hdiv. apply Z.mod_divide in Hdiv; [|exact Hli].
    pose proof (@batch_status_on_interval _ _ batch_idx inputs outputs targets epoch
                  loader loss validset w r t wr Hr Ht Hw Hli Hdiv) as Hon.
    cbv zeta in Hon. fold gs w1 in Hon. split; [exact Hon|].
    intros model crit a2 f2 size loader_size r2 wr2 Hnet Hcrit Hpos Hne Hproc Hsize
           Hlsize Hl0 Hr2 Hli2 Hw2 d valid_loader batches vloss.
    subst status. rewrite Hon.
    pose proof (@interval_actions_run _ _ batch_idx inputs outputs targets epoch loss
                  validset gs w1 model crit wr a2 f2 size loader_size r2
                  Hnet Hcrit Hw Hpos Hne Hproc Hsize Hlsize Hl0 Hr2 Hli2) as Hrun.
    cbv zeta in Hrun. rewrite (bind_step _ Hrun).
    run_step. finish_run. rewrite <- !app_assoc. reflexivity.
Qed.

Lemma interval_actions_on_multiples_witness :
  events (batch_status (H := Toy.helpers) 49 [1%float] [0.5%float] [2%float] 0
            Toy.loader100 2.25%float (Toy.samples 20) Toy.training_world)
  = [AddScalar "Train/loss" 2.25%float 49; Flush]
  /\ running_loss
       (args (after (batch_status (H := Toy.helpers) 50 [1%float] [0.5%float] [2%float] 0
                       Toy.loader100 2.25%float (Toy.samples 20) Toy.training_world)))
     = Some 0%float.
Proof.
  split.
  - rewrite (proj1 (@interval_actions_on_multiples Toy.torch Toy.helpers 49
                      [1%float] [0.5%float] [2%float] 0 Toy.loader100 2.25%float
                      (Toy.samples 20) Toy.training_world 1.5%float 4.5%float
                      "runs/toy" eq_refl eq_refl eq_refl ltac:(discriminate))).
    + reflexivity.
    + intros [k Hk]. assert (E : 49 = k * 50) by exact Hk. lia.
  - destruct (@interval_actions_on_multiples Toy.torch Toy.helpers 50
                [1%float] [0.5%float] [2%float] 0 Toy.loader100 2.25%float
                (Toy.samples 20) Toy.training_world 1.5%float 4.5%float
                "runs/toy" eq_refl eq_refl eq_refl ltac:(discriminate)) as [_ Hon].
    destruct (Hon ltac:(exists 1; reflexivity)) as [_ Hfull].
    erewrite Hfull.
    + reflexivity.
    + reflexivity.
    + reflexivity.
    + reflexivity.
    + discriminate.
    + vm_compute. reflexivity.
    + reflexivity.
    + reflexivity.
    + discriminate.
    + reflexivity.
    + discriminate.
    + reflexivity.
Defined.

(** C5: on a validation partition that is not empty, [validate] runs one pass
    over every sample in batches of the configured size, the last one partial,
    takes the mean squared error of each batch, returns the sum of these losses
    divided by the number of batches, logs the four images of the first batch
    only, under [Valid] and the caller's global step, and leaves the namespace,
    with the model and the optimizer in it, as it was. *)
Theorem validate_returns_mean_loss {T : Torch} {H : Helpers} (validset : Dataset)
  (print_info log_info : bool) (global_step : Z) (w : World)
  (model : Model) (crit : Criterion) (wr : string) :
  net (args w) = Some model -> criterion (args w) = Some crit ->
  writer (args w) = Some wr ->
  0 < batch_size (args w) -> validset <> [] ->
  let d := device (args w) in
  let pass := loader_batches (draws w (passes w))
                (mkLoader validset (batch_size (args w)) true) in
  let batches := map collate pass in
  let losses := map (fun b => mse_loss (forward model (to_device d (fst b)))
                                       (to_device d (snd b))) batches in
  let mean := (accumulate 0 losses / Z2float (Z.of_nat (List.length batches)))%float in
  let o := validate validset print_info log_info global_step w in
  Permutation (List.concat pass) validset
  /\ Z.of_nat (List.length batches)
     = (Z.of_nat (List.length validset) + batch_size (args w) - 1) / batch_size (args w)
  /\ result o = Ok mean
  /\ events o
     = (if print_info then [Print PStartedValidation] else [])
       ++ first_batch_grid "Valid" d model global_step batches
       ++ (if log_info then [AddScalar "Valid/loss" mean global_step] else [])
  /\ args (after o) = args w.
Proof.
  intros Hnet Hcrit Hw Hpos Hne d pass batches losses mean o.
  assert (Hcount : Z.of_nat (List.length batches)
                   = loader_len (mkLoader validset (batch_size (args w)) true)).
  { subst batches pass. rewrite length_map. apply loader_batches_length. exact Hpos. }
  pose proof (@validate_run _ _ validset print_info log_info global_step w model crit wr
                Hnet Hcrit Hw Hpos Hne) as Hrun.
  cbv zeta in Hrun. fold d pass batches in Hrun. rewrite <- Hcount in Hrun.
  change (map (batch_loss d model) batches) with losses in Hrun. fold mean o in Hrun.
  split.
  { subst pass. unfold loader_batches, chunks. rewrite take_batch_concat.
    cbn [rev app dl_shuffle dl_dataset]. apply shuffle_permutation. }
  split; [exact Hcount|].
  rewrite Hrun. cbn [result events after args with_passes]. repeat split.
Qed.

Lemma validate_returns_mean_loss_witness :
  result (validate (H := Toy.helpers) (Toy.samples 20) false true 50 Toy.training_world)
  = Ok 491.625%float.
Proof.
  rewrite (proj1 (proj2 (proj2
    (@validate_returns_mean_loss Toy.torch Toy.helpers (Toy.samples 20) false true 50
       Toy.training_world 0.5%float MSELoss "runs/toy"
       eq_refl eq_refl eq_refl eq_refl ltac:(discriminate))))).
  vm_compute. reflexivity.
Defined.

(** C6: calling [validate] twice without training in between, with the sampler
    drawing the same batch order, leaves the model as it was and returns the
    same mean loss both times, whatever is logged. *)
Theorem validate_twice_same_loss {T : Torch} {H : Helpers} (validset : Dataset)
  (print1 log1 print2 log2 : bool) (step1 step2 : Z) (w : World)
  (model : Model) (crit : Criterion) (wr : string) :
  net (args w) = Some model -> criterion (args w) = Some crit ->
  writer (args w) = Some wr ->
  0 < batch_size (args w) -> validset <> [] ->
  draws w (S (passes w)) = draws w (passes w) ->
  let first := validate validset print1 log1 step1 w in
  let second := validate validset print2 log2 step2 (after first) in
  net (args (after first)) = Some model
  /\ net (args (after second)) = Some model
  /\ args (after second) = args w
  /\ exists loss, result first = Ok loss /\ result second = Ok loss.
Proof.
  intros Hnet Hcrit Hw Hpos Hne Hdraws first second.
  pose proof (@validate_run _ _ validset print1 log1 step1 w model crit wr
                Hnet Hcrit Hw Hpos Hne) as H1.
  cbv zeta in H1. fold first in H1.
  assert (Hafter : after first = with_passes (S (passes w)) w) by (rewrite H1; reflexivity).
  pose proof (@validate_run _ _ validset print2 log2 step2 (with_passes (S (passes w)) w)
                model crit wr Hnet Hcrit Hw Hpos Hne) as H2.
  cbv zeta in H2. rewrite <- Hafter in H2 at 1. fold second in H2.
  cbn [args draws passes with_passes] in H2. rewrite Hdraws in H2.
  rewrite H1, H2. cbn [result after args with_passes].
  repeat split; try assumption. eexists; split; reflexivity.
Qed.

Lemma validate_twice_same_loss_witness :
  exists loss,
    result (validate (H := Toy.helpers) (Toy.samples 20) false true 50 Toy.training_world)
    = Ok loss
    /\ result (validate (H := Toy.helpers) (Toy.samples 20) true false 100
                 (after (validate (H := Toy.helpers) (Toy.samples 20) false true 50
                           Toy.training_world)))
       = Ok loss.
Proof.
  exact (proj2 (proj2 (proj2
    (@validate_twice_same_loss Toy.torch Toy.helpers (Toy.samples 20)
       false true true false 50 100 Toy.training_world 0.5%float MSELoss "runs/toy"
       eq_refl eq_refl eq_refl eq_refl ltac:(discriminate) eq_refl)))).
Defined.

(** C7, as the code has it: [predict_test] runs the model forward on the first
    ten batches of the test partition (on all of them when there are fewer),
    since it leaves the loop only after the tenth batch has been processed; for
    each of them it takes [get_max] of the inputs and of the outputs, shows
    them and waits for the user; it never steps the optimizer, so the namespace
    it leaves is the restored one with the loss function set. *)
Theorem predict_runs_ten_batches {T : Torch} {H : Helpers} (testset : Dataset)
  (w : World) (a1 : Args) (f1 : Files) (model : Model) :
  0 < batch_size (args w) ->
  restore_checkpoint (args w) (files w) = Ok (a1, f1) ->
  net a1 = Some model ->
  let batches :=
    map collate (loader_batches [] (mkLoader testset (batch_size (args w)) false)) in
  (Nat.min 10 (List.length batches) <= List.length (stdin w))%nat ->
  let o := predict_test testset w in
  result o = Ok tt
  /\ events o
     = CallRestoreCheckpoint :: flat_map (inspection (device a1) model) (firstn 10 batches)
  /\ batches_processed (events o) = Nat.min 10 (List.length batches)
  /\ args (after o) = set_criterion (Some MSELoss) a1.
Proof.
  intros Hpos Hrestore Hnet batches Hin o.
  pose proof (@predict_test_run _ _ testset w a1 f1 model Hpos Hrestore Hnet) as Hrun.
  cbv zeta in Hrun. fold batches in Hrun. rewrite length_firstn in Hrun.
  specialize (Hrun Hin). fold o in Hrun. rewrite Hrun.
  cbn [result events after args with_stdin with_args].
  split; [reflexivity|]. split; [reflexivity|]. split; [|reflexivity].
  change (batches_processed (?e :: ?l)) with (batches_processed l).
  rewrite inspection_count. apply length_firstn.
Qed.

Lemma predict_runs_ten_batches_witness :
  batches_processed (events (predict_test (H := Toy.helpers) (Toy.samples 12)
                               Toy.predict_world))
  = Nat.min 10 12.
Proof.
  exact (proj1 (proj2 (proj2
    (@predict_runs_ten_batches Toy.torch Toy.helpers (Toy.samples 12) Toy.predict_world
       (args Toy.predict_world) [] 0.5%float eq_refl eq_refl eq_refl
       ltac:(vm_compute; lia))))).
Defined.

(** C7 fails as stated: on a test partition of 12 batches [predict_test] runs
    the model on 10 batches, not on 9. *)
Lemma tenth_batch_is_processed :
  let o := predict_test (H := Toy.helpers) (Toy.samples 12) Toy.predict_world in
  List.length (loader_batches [] (mkLoader (Toy.samples 12)
                                    (batch_size (args Toy.predict_world)) false)) = 12%nat
  /\ result o = Ok tt
  /\ batches_processed (events o) = 10%nat
  /\ batches_processed (events o) <> 9%nat.
Proof.
  cbv zeta. split; [vm_compute; reflexivity|]. split; [vm_compute; reflexivity|].
  split; [vm_compute; reflexivity|]. vm_compute. discriminate.
Qed.

(** C8, as the code has it: the training, validation and inference loops change
    none of the hyperparameters of the configuration other than the optimizer,
    provided the checkpoint helpers change none; [validate] leaves the whole
    namespace as it was. *)
Theorem loops_keep_hyperparameters {T : Torch} {H : Helpers} :
  (forall h, helper_keeps (fun a => hyperparameters a = h) restore_checkpoint) ->
  (forall h loss step,
     helper_keeps (fun a => hyperparameters a = h) (process_checkpoint loss step)) ->
  forall (w : World) (trainset validset testset : Dataset)
         (print_info log_info : bool) (global_step : Z),
    hyperparameters (args (after (train trainset validset w))) = hyperparameters (args w)
    /\ args (after (validate validset print_info log_info global_step w)) = args w
    /\ hyperparameters (args (after (predict_test testset w))) = hyperparameters (args w).
Proof.
  intros Hrestore Hprocess w trainset validset testset print_info log_info global_step.
  split; [|split].
  - exact (proj1 (@keeps_train _ _ (fun a => hyperparameters a = hyperparameters (args w))
                    (@frames_hyperparameters _ _) (Hrestore _) (Hprocess _)
                    trainset validset w eq_refl)).
  - apply (@keeps_args _ interval_only).
    intros I. apply keeps_validate.
  - exact (proj1 (@keeps_predict_test _ _
                    (fun a => hyperparameters a = hyperparameters (args w))
                    (@frames_hyperparameters _ _) (Hrestore _) testset w eq_refl)).
Qed.

Lemma loops_keep_hyperparameters_witness :
  hyperparameters (args (after (train (H := Toy.helpers) (Toy.samples 100)
                                  (Toy.samples 20) Toy.ready_world)))
  = hyperparameters (args Toy.ready_world).
Proof.
  refine (proj1 (@loops_keep_hyperparameters Toy.torch Toy.helpers _ _ Toy.ready_world
                   (Toy.samples 100) (Toy.samples 20) (Toy.samples 12) false false 0)).
  - intros h. apply restore_checkpoint_spec_keeps, frames_hyperparameters.
  - intros h loss step. apply process_checkpoint_spec_keeps, frames_hyperparameters.
Defined.

(** C8 fails as stated: [train] stores the optimizer object under
    [args.optimizer], where the configuration held the optimizer's name. *)
Lemma train_replaces_optimizer :
  let run := train (H := Toy.helpers) (Toy.samples 100) (Toy.samples 20) Toy.ready_world in
  optimizer (args Toy.ready_world) = OptStr "adam"
  /\ result run = Ok tt
  /\ optimizer (args (after run)) = OptObj (0.0001%float : @Optimizer Toy.torch)
  /\ optimizer (args (after run)) <> optimizer (args Toy.ready_world).
Proof.
  cbv zeta. split; [reflexivity|]. split; [vm_compute; reflexivity|].
  split; [vm_compute; reflexivity|]. vm_compute. discriminate.
Qed.

(** C9: when the accelerator is requested but not available, [main] selects the
    CPU device without raising, prints the selected device and goes on; when the
    accelerator is available, it selects the accelerator. *)
Theorem accelerator_fallback {T : Torch} {H : Helpers} (w : World) :
  device (args w) = DevStr "cuda" ->
  let selected := DevTorch (if cuda_is_available w then "cuda:0" else "cpu") in
  select_device w
  = mkOutcome (Ok tt) (with_args (set_device selected (args w)) w)
              [Print (PDevice selected)]
  /\ exists rest, events (main w) = Print (PDevice selected) :: rest.
Proof.
  intros Hdev selected.
  assert (Hsel : select_device w
                 = mkOutcome (Ok tt) (with_args (set_device selected (args w)) w)
                             [Print (PDevice selected)]).
  { unfold select_device. rewrite (bind_step _ (get_args_run w)). rewrite Hdev.
    change (device_ne_cpu (DevStr "cuda")) with true. cbn [when].
    unfold bind at 1. cbn [assign result after events].
    repeat run_step. finish_run. }
  split; [exact Hsel|].
  unfold main. rewrite (bind_step _ Hsel). unfold prepend; cbn [events app].
  eexists; reflexivity.
Qed.

Lemma accelerator_fallback_witness :
  device (args (after (select_device Toy.cuda_world))) = DevTorch "cpu".
Proof.
  destruct (accelerator_fallback (H := Toy.helpers) Toy.cuda_world eq_refl) as [E _].
  rewrite E. reflexivity.
Defined.

(** C10: the flag [--predict] parses to a boolean, never to [None], so the guard
    [args.predict is None] is false on every invocation of [main]: [main] never
    constructs the [SummaryWriter] and never closes it, and whenever
    [batch_status] reaches the per-step scalar logging with no writer attached,
    the access to [args.writer] raises. *)
Theorem writer_never_opened {T : Torch} {H : Helpers} :
  helper_keeps predict_is_bool read_checkpoint ->
  helper_keeps predict_is_bool restore_checkpoint ->
  (forall loss step, helper_keeps predict_is_bool (process_checkpoint loss step)) ->
  forall (c : CmdLine) (w : World),
    parse_args c = Some (args w) ->
    is_None (predict (args w)) = false
    /\ open_writer w = mkOutcome (Ok tt) w []
    /\ Forall (fun e => writer_lifecycle e = false) (events (main w))
    /\ is_None (predict (args (after (main w)))) = false
    /\ close_writer (after (main w)) = mkOutcome (Ok tt) (after (main w)) []
    /\ (forall batch_idx inputs outputs targets epoch loader loss validset
               (w' : World) r t,
          running_loss (args w') = Some r -> train_loss (args w') = Some t ->
          writer (args w') = None ->
          batch_status batch_idx inputs outputs targets epoch loader loss validset w'
          = mkOutcome (Raise (AttributeError "writer"))
                      (with_args (accumulated loss r t (args w')) w') []).
Proof.
  intros Hread Hrestore Hprocess c w Hparse.
  assert (Hbool : predict_is_bool (args w)).
  { unfold parse_args in Hparse. destruct (accepted c); [|discriminate].
    injection Hparse as <-. reflexivity. }
  destruct (keeps_main Hread Hrestore Hprocess w Hbool) as [Hafter Hquiet].
  repeat split.
  - exact Hbool.
  - apply open_writer_skipped, Hbool.
  - exact Hquiet.
  - exact Hafter.
  - apply close_writer_skipped, Hafter.
  - intros batch_idx inputs outputs targets epoch loader loss validset w' r t Hr Ht Hw.
    unfold batch_status. do 4 run_step.
    unfold writer_call. rewrite bind_assoc.
    match goal with
    | |- context [bind (read "writer" writer) _ ?W] =>
        rewrite (bind_stop _ (read_unset "writer" writer W Hw))
    end.
    finish_run.
Qed.

Lemma writer_never_opened_witness :
  Forall (fun e => writer_lifecycle e = false)
         (events (main (H := Toy.helpers) (Toy.world0 (namespace_of Toy.no_options))))
  /\ result (main (H := Toy.helpers) (Toy.world0 (namespace_of Toy.no_options)))
     = Raise (AttributeError "writer").
Proof.
  split; [|vm_compute; reflexivity].
  refine (proj1 (proj2 (proj2
    (@writer_never_opened Toy.torch Toy.helpers _ _ _ Toy.no_options
       (Toy.world0 (namespace_of Toy.no_options)) eq_refl)))).
  - intros a fs a' fs' Ha [= <- <-]. exact Ha.
  - apply restore_checkpoint_spec_keeps, frames_predict.
  - intros loss step. apply process_checkpoint_spec_keeps, frames_predict.
Defined.

(** * Further properties of the script *)

(** Running a statement whose attribute was assigned a few lines before. *)
Ltac solve_known :=
  solve [eassumption | cbn; eassumption | reflexivity | cbn; reflexivity
        | cbn; lia | cbn; congruence].

Ltac exec_step :=
  cbv beta zeta;
  lazymatch goal with
  | |- context [bind (bind ?m ?k1) ?k2 ?w] => rewrite (bind_assoc m k1 k2 w)
  | |- context [bind get_args ?k ?w] => rewrite (bind_step k (get_args_run w))
  | |- context [bind (assign ?f) ?k ?w] => rewrite (bind_step k (assign_run f w))
  | |- context [bind (emit ?e) ?k ?w] => rewrite (bind_step k (emit_run e w))
  | |- context [bind (ret ?x) ?k ?w] => rewrite (bind_step k (ret_run x w))
  | |- context [bind (read ?n ?f) ?k ?w] =>
      let E := fresh "E" in
      eassert (E : f (args w) = Some _) by solve_known;
      rewrite (bind_step k (read_run n f w E)); clear E
  | |- context [bind (writer_call ?e) ?k ?w] =>
      let E := fresh "E" in
      eassert (E : writer (args w) = Some _) by solve_known;
      rewrite (bind_step k (writer_call_run e w E)); clear E
  | |- context [bind (div_int ?x ?n) ?k ?w] =>
      let E := fresh "E" in
      assert (E : n <> 0) by solve_known;
      rewrite (bind_step k (div_int_run x w E)); clear E
  | |- context [bind (py_mod ?a ?b) ?k ?w] =>
      let E := fresh "E" in
      assert (E : b <> 0) by solve_known;
      rewrite (bind_step k (py_mod_run a w E)); clear E
  | |- context [bind (new_loader ?ds ?size ?sh) ?k ?w] =>
      let E := fresh "E" in
      assert (E : 0 < size) by solve_known;
      rewrite (bind_step k (new_loader_run ds sh w E)); clear E
  | |- context [bind (call ?e ?h) ?k ?w] =>
      let E := fresh "E" in
      eassert (E : h (args w) (files w) = Ok (_, _)) by solve_known;
      rewrite (bind_step k (call_run e h w E)); clear E
  | |- context [bind input ?k ?w] =>
      let E := fresh "E" in
      eassert (E : stdin w = _ :: _) by solve_known;
      rewrite (bind_step k (input_run w E)); clear E
  | |- context [writer_call ?e ?w] =>
      let E := fresh "E" in
      eassert (E : writer (args w) = Some _) by solve_known;
      rewrite (writer_call_run e w E); clear E
  | |- context [div_int ?x ?n ?w] =>
      let E := fresh "E" in
      assert (E : n <> 0) by solve_known;
      rewrite (div_int_run x w E); clear E
  | |- context [assign ?f ?w] => rewrite (assign_run f w)
  | |- context [emit ?e ?w] => rewrite (emit_run e w)
  | |- context [ret ?x ?w] => rewrite (ret_run x w)
  end.

(** ** The command line *)

Section ParserFacts.
Context {T : Torch}.

Lemma one_of_two (x y s : string) : one_of [x; y] s = true -> s = x \/ s = y.
Proof.
  unfold one_of; cbn [existsb]. rewrite orb_false_r.
  intros E. apply orb_prop in E. destruct E as [E|E]; apply String.eqb_eq in E; auto.
Qed.

Lemma one_of_one (x s : string) : one_of [x] s = true -> s = x.
Proof.
  unfold one_of; cbn [existsb]. rewrite orb_false_r. apply String.eqb_eq.
Qed.

Lemma one_of_neither (x y s : string) : s <> x -> s <> y -> one_of [x; y] s = false.
Proof.
  intros Hx Hy. unfold one_of; cbn [existsb].
  apply String.eqb_neq in Hx, Hy. rewrite Hx, Hy. reflexivity.
Qed.
End ParserFacts.

(** X1: a command line that argparse accepts yields a namespace whose device,
    network, optimizer and dataset are among the declared choices, whose image
    shape is not empty, whose three flags are booleans, and to which none of the
    attributes the script attaches later is set; a device outside the choices
    is rejected. *)
Theorem parsed_namespace_within_choices {T : Torch} (c : CmdLine) :
  (forall a : Args,
     parse_args c = Some a ->
     (device a = DevStr "cpu" \/ device a = DevStr "cuda")
     /\ network a = "posture" /\ dataset a = "coco"
     /\ (optimizer a = OptStr "adam" \/ optimizer a = OptStr "sgd")
     /\ image_shape a <> []
     /\ predict a = PyBool (cl_predict c) /\ plot a = PyBool (cl_plot c)
     /\ summary a = PyBool (cl_summary c)
     /\ writer a = None /\ net a = None /\ criterion a = None /\ best a = None
     /\ run a = None /\ running_loss a = None /\ train_loss a = None)
  /\ (forall d, cl_device c = Some d -> d <> "cpu" -> d <> "cuda" ->
                parse_args (T := T) c = None).
Proof.
  split.
  - intros a. unfold parse_args. destruct (accepted c) eqn:E; [|discriminate].
    intros [= <-]. unfold accepted in E.
    apply andb_prop in E; destruct E as [E Hshape].
    apply andb_prop in E; destruct E as [E Hdata].
    apply andb_prop in E; destruct E as [E Hopt].
    apply andb_prop in E; destruct E as [Hdev Hnet].
    apply one_of_two in Hdev, Hopt. apply one_of_one in Hnet, Hdata.
    cbn [namespace_of device network dataset optimizer image_shape predict plot summary
         writer net criterion best run running_loss train_loss store_true].
    repeat split; try assumption.
    + destruct Hdev as [-> | ->]; auto.
    + destruct Hopt as [-> | ->]; auto.
    + destruct (cl_image_shape c) as [[|z l]|]; cbn [default]; discriminate.
  - intros d Hd Hcpu Hcuda. unfold parse_args, accepted. rewrite Hd. cbn [default].
    rewrite (one_of_neither Hcpu Hcuda). reflexivity.
Qed.

Lemma parsed_namespace_within_choices_witness :
  dataset (namespace_of (T := Toy.torch) Toy.one_epoch) = "coco"
  /\ parse_args (T := Toy.torch) Toy.unknown_device = None.
Proof.
  destruct (@parsed_namespace_within_choices Toy.torch Toy.one_epoch) as [Hin _].
  destruct (@parsed_namespace_within_choices Toy.torch Toy.unknown_device) as [_ Hout].
  split.
  - exact (proj1 (proj2 (proj2 (Hin _ eq_refl)))).
  - apply (Hout "mps" eq_refl); discriminate.
Defined.

(** ** Runs of [main] *)

Section MainRuns.
Context {T : Torch} {H : Helpers}.

Lemma select_device_run (w : World) :
  select_device w
  = mkOutcome (Ok tt) (select_device_world w)
              [Print (PDevice (device (args (select_device_world w))))].
Proof.
  unfold select_device, select_device_world.
  rewrite (bind_step _ (get_args_run w)).
  destruct (device_ne_cpu (device (args w))); cbn [when].
  - unfold bind at 1. cbn [assign result after events].
    repeat run_step. finish_run.
  - repeat run_step. finish_run.
Qed.

Lemma select_device_keeps_checkpoint (w : World) :
  checkpoint (args (select_device_world w)) = checkpoint (args w).
Proof. unfold select_device_world. destruct (device_ne_cpu _); reflexivity. Qed.

(** [main] up to line 371, when [read_checkpoint] returns a namespace with the
    network ['posture'] and a boolean [predict]. *)
Lemma main_startup_run (w : World) (a1 : Args) (f1 : Files) :
  checkpoint (args w) <> EmptyString ->
  read_checkpoint (args (select_device_world w)) (files (select_device_world w))
  = Ok (a1, f1) ->
  is_None (predict a1) = false ->
  network a1 = "posture" ->
  main w
  = prepend (startup_lines (device (args (select_device_world w))) a1)
      (main_tail (if String.eqb (dataset a1) "coco"
                  then Some (load_dataset (named a1)) else None)
                 (freeze_backbone (Resnet_Posture (described a1)))
                 (with_args (built a1) (with_files f1 (select_device_world w)))).
Proof.
  intros Hck Hread Hbool Hnet. unfold main.
  rewrite (bind_step _ (select_device_run w)). run_step.
  rewrite select_device_keeps_checkpoint.
  apply String.eqb_neq in Hck. rewrite Hck. cbn [negb when].
  rewrite (bind_step _ (call_run CallReadCheckpoint read_checkpoint _ Hread)).
  do 3 exec_step.
  match goal with
  | |- context [bind open_writer ?k ?W] =>
      rewrite (bind_step k (open_writer_skipped W Hbool))
  end.
  do 5 exec_step.
  cbn [args with_args with_files network set_hparams set_run].
  rewrite Hnet. cbn [String.eqb Ascii.eqb Bool.eqb unbound].
  do 3 exec_step.
  rewrite !prepend_prepend. cbn [app].
  unfold main_tail, startup_lines, built, built_model, described, named.
  match goal with
  | |- prepend _ (_ ?W1) = prepend _ (_ ?W2) => replace W1 with W2 by reflexivity
  end.
  reflexivity.
Qed.
End MainRuns.

(** X2: unless the checkpoint option is given as the empty string, [main] calls
    [read_checkpoint] right after it has printed the device, also when the
    option is left at its default ['none']. *)
Theorem read_checkpoint_called_by_default {T : Torch} {H : Helpers} (c : CmdLine)
  (w : World) :
  parse_args c = Some (args w) ->
  cl_checkpoint c <> Some EmptyString ->
  exists rest,
    events (main w)
    = Print (PDevice (device (args (select_device_world w)))) :: CallReadCheckpoint :: rest.
Proof.
  intros Hparse Hgiven.
  assert (Hck : String.eqb (checkpoint (args w)) EmptyString = false).
  { unfold parse_args in Hparse. destruct (accepted c); [|discriminate].
    injection Hparse as <-. cbn [namespace_of checkpoint].
    apply String.eqb_neq. destruct (cl_checkpoint c) as [path|]; cbn [default].
    - intros E; apply Hgiven; rewrite E; reflexivity.
    - discriminate. }
  unfold main. rewrite (bind_step _ (select_device_run w)). run_step.
  rewrite select_device_keeps_checkpoint, Hck. cbn [negb when].
  unfold call. rewrite bind_assoc. run_step.
  unfold prepend; cbn [events app]. eexists; reflexivity.
Qed.

Lemma read_checkpoint_called_by_default_witness :
  exists rest,
    events (main (H := Toy.helpers) (Toy.world0 (namespace_of Toy.no_options)))
    = Print (PDevice (DevStr "cpu")) :: CallReadCheckpoint :: rest.
Proof.
  apply (@read_checkpoint_called_by_default Toy.torch Toy.helpers Toy.no_options
           (Toy.world0 (namespace_of Toy.no_options)) eq_refl).
  discriminate.
Defined.

(** X3: with [--summary], [main] prints the model after the startup lines and
    returns: it neither trains nor predicts, calls no checkpoint helper but
    [read_checkpoint], and leaves the model attached to the namespace without
    emptying the accelerator cache. *)
Theorem summary_returns_before_training {T : Torch} {H : Helpers} (w : World)
  (a1 : Args) (f1 : Files) :
  checkpoint (args w) <> EmptyString ->
  read_checkpoint (args (select_device_world w)) (files (select_device_world w))
  = Ok (a1, f1) ->
  is_None (predict a1) = false ->
  network a1 = "posture" ->
  truthy (summary a1) = true ->
  main w
  = mkOutcome (Ok tt) (with_args (built a1) (with_files f1 (select_device_world w)))
      (startup_lines (device (args (select_device_world w))) a1
       ++ [Print (PModel (built_model a1))])
  /\ net (args (after (main w))) = Some (built_model a1).
Proof.
  intros Hck Hread Hbool Hnet Hsum.
  assert (Hrun : main w
    = mkOutcome (Ok tt) (with_args (built a1) (with_files f1 (select_device_world w)))
        (startup_lines (device (args (select_device_world w))) a1
         ++ [Print (PModel (built_model a1))])).
  { rewrite (main_startup_run w Hck Hread Hbool Hnet). unfold main_tail.
    run_step. cbn [args with_args built described named summary set_net set_hparams set_run].
    rewrite Hsum. run_step. rewrite prepend_nil. reflexivity. }
  split; [exact Hrun | rewrite Hrun; reflexivity].
Qed.

Lemma summary_returns_before_training_witness :
  let o := main (H := Toy.helpers) (Toy.world0 (namespace_of Toy.summary_only)) in
  result o = Ok tt /\ net (args (after o)) = Some 0.5%float.
Proof.
  destruct (@summary_returns_before_training Toy.torch Toy.helpers
              (Toy.world0 (namespace_of Toy.summary_only))
              (namespace_of Toy.summary_only) [] ltac:(discriminate)
              eq_refl eq_refl eq_refl eq_refl) as [Hrun Hnet].
  cbv zeta. split; [rewrite Hrun; reflexivity | exact Hnet].
Defined.

(** ** The startup of [train] *)

Section TrainSetupFacts.
Context {T : Torch} {H : Helpers}.

Lemma loader_len_single {A : Type} (dl : DataLoader A) :
  0 < dl_batch_size dl ->
  Z.of_nat (List.length (dl_dataset dl)) <= dl_batch_size dl ->
  loader_len dl <= 1.
Proof.
  intros Hpos Hfew. unfold loader_len.
  apply Z.lt_succ_r. apply Z.div_lt_upper_bound; lia.
Qed.

Lemma plot_run (plotting : bool) (images targets : Tensor) (w : World) :
  (plotting = true -> writer (args w) <> None) ->
  when plotting
    (emit (Imshow (tensor_add (make_grid images) (make_grid (sum_dim1 targets)))) ;;
     writer_call (AddImage "Sample"
                    (tensor_add (make_grid images) (make_grid (sum_dim1 targets))) None)) w
  = mkOutcome (Ok tt) w (sample_plot plotting (images, targets)).
Proof.
  intros Hw. destruct plotting; cbn [when sample_plot fst snd]; [|reflexivity].
  destruct (writer (args w)) as [wr|] eqn:E; [|exfalso; apply Hw; reflexivity].
  run_step. run_step. finish_run.
Qed.

(** X4: the startup of [train] (lines 139-180).  It draws one shuffled pass over
    the training set only to take a sample from it: the second batch, which it
    shows and logs with [--plot] and drops otherwise.  It then builds the
    optimizer named on the command line over the model that is attached, sets the
    mean squared error as the loss, and only then calls [restore_checkpoint],
    which therefore sees the sizes, the optimizer object and the loss; whatever
    best loss the helper leaves is replaced by infinity. *)
Theorem train_prepares_before_restoring (trainset : Dataset) (w : World)
  (first second : Batch)
  (others : list Batch) (kind : string) (model : Model) (a2 : Args) (f2 : Files) :
  0 < batch_size (args w) ->
  let loader := mkLoader trainset (batch_size (args w)) true in
  map collate (loader_batches (draws w (passes w)) loader) = first :: second :: others ->
  (truthy (plot (args w)) = true -> writer (args w) <> None) ->
  optimizer (args w) = OptStr kind -> kind = "adam" \/ kind = "sgd" ->
  net (args w) = Some model ->
  let o := if String.eqb kind "adam" then Adam model (learning_rate (args w))
           else SGD model (learning_rate (args w)) in
  restore_checkpoint
    (prepared (args w) (Z.of_nat (List.length trainset)) (loader_len loader) o) (files w)
  = Ok (a2, f2) ->
  train_setup trainset w
  = mkOutcome (Ok loader)
      (with_args (set_best (Some infinity) a2)
         (with_files f2 (with_passes (S (passes w)) w)))
      (sample_plot (truthy (plot (args w))) second ++ [CallRestoreCheckpoint]).
Proof.
  intros Hpos loader Hpass Hplot Hopt Hkind Hnet o Hrestore.
  unfold train_setup. do 4 exec_step. fold loader.
  match goal with
  | |- context [bind (iterate loader) ?k ?W] =>
      assert (Hiter : iterate loader W
                      = mkOutcome (Ok (first :: second :: others))
                                  (with_passes (S (passes w)) W) [])
        by (rewrite <- Hpass; reflexivity);
      rewrite (bind_step k Hiter); clear Hiter
  end.
  destruct second as [images targets].
  match goal with
  | |- context [@bind ?T0 ?A ?B (@ret _ ?A' ?x) ?k ?W] =>
      rewrite (@bind_step T0 A B (@ret T0 A' x) k W W x [] (@ret_run T0 A' x W))
  end.
  cbv beta iota. exec_step.
  match goal with
  | |- context [bind (when ?b _) ?k ?W] =>
      rewrite (bind_step k (@plot_run b images targets W Hplot))
  end.
  exec_step. cbn [args with_args with_passes optimizer set_dataloader_size set_dataset_size].
  rewrite Hopt.
  assert (Hbuild : forall W : World,
            net (args W) = Some model ->
            (if String.eqb kind "adam"
             then model0 <- read "net" net ;;
                  assign (set_optimizer (OptObj (Adam model0 (learning_rate (args w)))))
             else if String.eqb kind "sgd"
             then model0 <- read "net" net ;;
                  assign (set_optimizer (OptObj (SGD model0 (learning_rate (args w)))))
             else ret tt) W
            = mkOutcome (Ok tt) (with_args (set_optimizer (OptObj o) (args W)) W) []).
  { intros W HW. subst o.
    destruct Hkind as [-> | ->];
      [change (String.eqb "adam" "adam") with true
      |change (String.eqb "sgd" "adam") with false;
       change (String.eqb "sgd" "sgd") with true];
      cbv iota; run_step; run_step; finish_run. }
  cbn [learning_rate set_dataloader_size set_dataset_size].
  match goal with
  | |- context [bind _ ?k ?W] =>
      lazymatch k with
      | (fun _ => bind (assign (set_criterion _)) _) =>
          rewrite (bind_step k (Hbuild W Hnet))
      end
  end.
  exec_step.
  match goal with
  | |- context [bind (call ?e ?h) ?k ?W] =>
      rewrite (bind_step k (@call_run _ e h W a2 f2 Hrestore))
  end.
  do 2 exec_step.
  rewrite !prepend_prepend. unfold prepend. cbn [result after events app].
  f_equal. rewrite !app_nil_r. reflexivity.
Qed.

(** X5: [train] takes two batches from its first pass before anything else, so
    on a training set that fits into one batch it raises [StopIteration]: the
    sizes have been recorded and one shuffle drawn, but no optimizer is built, no
    checkpoint restored and no epoch started. *)
Theorem train_needs_two_batches (trainset validset : Dataset) (w : World) :
  0 < batch_size (args w) ->
  trainset <> [] ->
  Z.of_nat (List.length trainset) <= batch_size (args w) ->
  train trainset validset w
  = mkOutcome (Raise StopIteration)
      (with_passes (S (passes w))
         (with_args
            (set_dataloader_size
               (Some (loader_len (mkLoader trainset (batch_size (args w)) true)))
               (set_dataset_size (Some (Z.of_nat (List.length trainset))) (args w)))
            w))
      [].
Proof.
  intros Hpos Hne Hfew. unfold train, train_setup.
  repeat exec_step.
  set (loader := mkLoader trainset (batch_size (args w)) true).
  assert (Hlen : (List.length (loader_batches (draws w (passes w)) loader) <= 1)%nat).
  { pose proof (loader_batches_length (draws w (passes w)) loader Hpos) as E.
    pose proof (@loader_len_single _ loader Hpos Hfew). lia. }
  match goal with
  | |- context [bind (iterate loader) ?k ?W] =>
      assert (Hiter : iterate loader W
                      = mkOutcome (Ok (map collate (loader_batches (draws w (passes w)) loader)))
                                  (with_passes (S (passes w)) W) [])
        by reflexivity;
      rewrite (bind_step k Hiter); clear Hiter
  end.
  assert (Hstop : forall W : World,
            match map collate (loader_batches (draws w (passes w)) loader) with
            | _ :: second :: _ => ret second
            | _ => raise StopIteration
            end W = mkOutcome (Raise StopIteration) W []).
  { intros W. destruct (loader_batches (draws w (passes w)) loader) as [|b1 [|b2 bs]];
      [reflexivity | reflexivity | cbn [List.length] in Hlen; lia]. }
  rewrite bind_assoc, (bind_stop _ (Hstop _)).
  rewrite !prepend_nil. reflexivity.
Qed.
End TrainSetupFacts.

Lemma train_needs_two_batches_witness :
  result (train (H := Toy.helpers) (Toy.samples 16) (Toy.samples 20) Toy.ready_world)
  = Raise StopIteration.
Proof.
  rewrite (@train_needs_two_batches Toy.torch Toy.helpers (Toy.samples 16) (Toy.samples 20)
             Toy.ready_world eq_refl ltac:(discriminate) ltac:(vm_compute; discriminate)).
  reflexivity.
Defined.

Lemma train_prepares_before_restoring_witness :
  let w := Toy.world0 (Toy.attach (namespace_of Toy.plotting)) in
  exists grid,
    events (train_setup (H := Toy.helpers) (Toy.samples 100) w)
    = [Imshow grid; AddImage "Sample" grid None; CallRestoreCheckpoint]
    /\ best (args (after (train_setup (H := Toy.helpers) (Toy.samples 100) w)))
       = Some infinity.
Proof.
  intros w.
  destruct (map collate
              (loader_batches (draws w (passes w))
                 (mkLoader (Toy.samples 100) (batch_size (args w)) true)))
    as [|first [|second others]] eqn:E;
    [vm_compute in E; discriminate | vm_compute in E; discriminate |].
  pose (a2 := prepared (args w) (Z.of_nat (List.length (Toy.samples 100)))
                (loader_len (mkLoader (Toy.samples 100) (batch_size (args w)) true))
                (Adam (0.5%float : @Model Toy.torch) (learning_rate (args w)))).
  assert (Hrestore : @restore_checkpoint Toy.torch Toy.helpers a2 (files w) = Ok (a2, []))
    by reflexivity.
  pose proof (@train_prepares_before_restoring Toy.torch Toy.helpers (Toy.samples 100)
                w first second others "adam" 0.5%float a2 []
                eq_refl E ltac:(discriminate) eq_refl (or_introl eq_refl) eq_refl
                Hrestore) as Hrun.
  rewrite Hrun. eexists. split; reflexivity.
Defined.

(** ** Edges of the batch status *)

Section BatchStatusEdges.
Context {T : Torch} {H : Helpers}.

Lemma py_mod_zero (a : Z) (w : World) :
  py_mod a 0 w = mkOutcome (Raise ZeroDivisionError) w [].
Proof. reflexivity. Qed.

(** X6: with [--log-interval 0], which the parser accepts, [batch_status] adds
    the loss to both totals and logs it, then raises [ZeroDivisionError] at the
    remainder of line 88: the writer is not flushed and the interval actions are
    not run. *)
Theorem zero_log_interval_raises batch_idx inputs outputs targets epoch
  (loader : DataLoader Sample) (loss : float) (validset : Dataset) (w : World) r t wr :
  running_loss (args w) = Some r -> train_loss (args w) = Some t ->
  writer (args w) = Some wr ->
  log_interval (args w) = 0 ->
  batch_status batch_idx inputs outputs targets epoch loader loss validset w
  = mkOutcome (Raise ZeroDivisionError)
      (with_args (accumulated loss r t (args w)) w)
      [AddScalar "Train/loss" loss (batch_idx + loader_len loader * epoch)].
Proof.
  intros Hr Ht Hw Hli. unfold batch_status. do 6 run_step.
  cbn [args with_args log_interval set_train_loss set_running_loss].
  rewrite Hli, (bind_stop _ (py_mod_zero _ _)).
  rewrite !prepend_nil. reflexivity.
Qed.
End BatchStatusEdges.

Lemma zero_log_interval_raises_witness :
  let o := batch_status (H := Toy.helpers) 1 [1%float] [0.5%float] [2%float] 0
             Toy.loader100 2.25%float (Toy.samples 20)
             (Toy.world0 (Toy.training_with Toy.never_log)) in
  result o = Raise ZeroDivisionError
  /\ events o = [AddScalar "Train/loss" 2.25%float 1].
Proof.
  intros o. subst o.
  rewrite (@zero_log_interval_raises Toy.torch Toy.helpers 1 [1%float] [0.5%float] [2%float]
             0 Toy.loader100 2.25%float (Toy.samples 20)
             (Toy.world0 (Toy.training_with Toy.never_log)) 1.5%float 4.5%float "runs/toy"
             eq_refl eq_refl eq_refl eq_refl).
  split; reflexivity.
Defined.

(** ** The inference pass without a user *)

Section PredictEdges.
Context {T : Torch} {H : Helpers}.

Lemma input_eof (w : World) :
  stdin w = [] -> input w = mkOutcome (Raise EOFError) w [].
Proof. intros E; unfold input; rewrite E; reflexivity. Qed.

Lemma predict_batch_eof idx (b : Batch) run_loss (w : World) model :
  net (args w) = Some model -> stdin w = [] ->
  predict_batch (idx, b) run_loss w
  = mkOutcome (Raise EOFError) w (shown (device (args w)) model b).
Proof.
  intros Hnet Hin. destruct b as [inputs targets]. unfold predict_batch.
  do 7 run_step. rewrite (bind_stop _ (input_eof _ Hin)).
  unfold prepend; cbn [result after events app]. reflexivity.
Qed.

Lemma predict_batches_eof model crit (b : Batch) (rest : list Batch) :
  forall (seen : list Batch) idx run_loss (w : World),
    net (args w) = Some model -> criterion (args w) = Some crit ->
    idx + Z.of_nat (List.length seen) <= 10 ->
    List.length (stdin w) = List.length seen ->
    for_loop (enumerate (seen ++ b :: rest) idx) predict_batch run_loss w
    = mkOutcome (Raise EOFError) (with_stdin [] w)
        (flat_map (inspection (device (args w)) model) seen
         ++ shown (device (args w)) model b).
Proof.
  induction seen as [|s seen IH]; intros idx run_loss w Hnet Hcrit Hidx Hin;
    cbn [app enumerate for_loop flat_map List.length] in *.
  - destruct (stdin w) as [|line lines] eqn:Hstdin; [|discriminate].
    rewrite (bind_stop _ (predict_batch_eof idx b run_loss w Hnet Hstdin)).
    destruct w; cbn [stdin] in Hstdin; subst; reflexivity.
  - destruct (stdin w) as [|line lines] eqn:Hstdin; [discriminate|].
    rewrite (bind_step _ (predict_batch_run idx s run_loss w Hnet Hcrit Hstdin)).
    cbv zeta. replace (idx <? 10) with true by (symmetry; apply Z.ltb_lt; lia).
    rewrite (IH (idx + 1) _ (with_stdin lines w) Hnet Hcrit) by
      (cbn [stdin with_stdin List.length] in *; lia).
    unfold prepend. cbn [result after events args with_stdin].
    rewrite <- app_assoc. reflexivity.
Qed.

(** X7: [predict_test] waits for the user after every batch, so when the input
    ends before the tenth batch and before the last one it raises [EOFError]:
    it has shown the maxima of the next batch, has computed no loss for it, and
    leaves the batches behind it unvisited. *)
Theorem predict_stops_at_end_of_input (testset : Dataset) (w : World) (a1 : Args)
  (f1 : Files) (model : Model) (seen : list Batch) (b : Batch) (rest : list Batch) :
  0 < batch_size (args w) ->
  restore_checkpoint (args w) (files w) = Ok (a1, f1) ->
  net a1 = Some model ->
  map collate (loader_batches [] (mkLoader testset (batch_size (args w)) false))
  = seen ++ b :: rest ->
  List.length (stdin w) = List.length seen ->
  (List.length seen < 10)%nat ->
  predict_test testset w
  = mkOutcome (Raise EOFError)
      (with_stdin [] (with_args (set_criterion (Some MSELoss) a1) (with_files f1 w)))
      (CallRestoreCheckpoint
         :: flat_map (inspection (device a1) model) seen ++ shown (device a1) model b).
Proof.
  intros Hpos Hrestore Hnet Hpass Hin Hfew.
  unfold predict_test. do 4 run_step.
  assert (Hiter : forall w', iterate (mkLoader testset (batch_size (args w)) false) w'
                             = mkOutcome (Ok (seen ++ b :: rest)) w' [])
    by (intros w'; rewrite <- Hpass; reflexivity).
  rewrite (bind_step _ (Hiter _)).
  match goal with
  | |- context [bind (for_loop _ _ _) _ ?W] =>
      pose proof (@predict_batches_eof model MSELoss b rest seen 1 0%float W
                    Hnet eq_refl ltac:(lia) Hin) as Hloop
  end.
  rewrite (bind_stop _ Hloop).
  unfold prepend; cbn [result after events app args with_args with_files with_stdin
                       stdin files passes draws cuda_is_available device set_criterion].
  reflexivity.
Qed.
End PredictEdges.

Lemma predict_stops_at_end_of_input_witness :
  let o := predict_test (H := Toy.helpers) (Toy.samples 12) Toy.impatient_world in
  result o = Raise EOFError /\ batches_processed (events o) = 3%nat.
Proof.
  intros o. subst o.
  destruct (map collate (loader_batches [] (mkLoader (Toy.samples 12) 1 false)))
    as [|b1 [|b2 [|b3 [|b4 rest]]]] eqn:E;
    [vm_compute in E; discriminate .. |].
  rewrite (@predict_stops_at_end_of_input Toy.torch Toy.helpers (Toy.samples 12)
             Toy.impatient_world (args Toy.impatient_world) [] 0.5%float
             [b1; b2; b3] b4 rest eq_refl eq_refl eq_refl E eq_refl ltac:(cbn; lia)).
  split; reflexivity.
Defined.

(** ** [main] in inference mode *)

Section MainModes.
Context {T : Torch} {H : Helpers}.

(** X8: a whole run of [main] with [--predict].  After the startup lines it
    runs [predict_test] on the third partition that [load_dataset] returned,
    which calls [restore_checkpoint] once more; it then deletes the model from
    the namespace and empties the accelerator cache.  No writer is opened, used
    or closed, and nothing is trained. *)
Theorem predict_mode_run (w : World) (a1 a2 : Args) (f1 f2 : Files) (model : Model) :
  let w1 := select_device_world w in
  checkpoint (args w) <> EmptyString ->
  read_checkpoint (args w1) (files w1) = Ok (a1, f1) ->
  predict a1 = PyBool true -> truthy (summary a1) = false ->
  network a1 = "posture" -> dataset a1 = "coco" ->
  0 < batch_size a1 ->
  restore_checkpoint (built a1) f1 = Ok (a2, f2) ->
  net a2 = Some model -> is_None (predict a2) = false ->
  let tst := snd (load_dataset (named a1)) in
  let seen :=
    firstn 10 (map collate (loader_batches [] (mkLoader tst (batch_size a1) false))) in
  (List.length seen <= List.length (stdin w))%nat ->
  main w
  = mkOutcome (Ok tt)
      (with_stdin (skipn (List.length seen) (stdin w))
         (with_args (set_net None (set_criterion (Some MSELoss) a2)) (with_files f2 w1)))
      (startup_lines (device (args w1)) a1
       ++ CallRestoreCheckpoint :: flat_map (inspection (device a2) model) seen
       ++ [EmptyCache]).
Proof.
  intros w1 Hck Hread Hpred Hsum Hnet Hdata Hpos Hrestore Hmodel Hbool tst seen Hin.
  assert (Hb1 : is_None (predict a1) = false) by (rewrite Hpred; reflexivity).
  rewrite (main_startup_run w Hck Hread Hb1 Hnet). fold w1.
  rewrite Hdata. change (String.eqb "coco" "coco") with true. cbv iota.
  unfold main_tail. run_step.
  cbn [args with_args built described named summary predict set_net set_hparams set_run].
  rewrite Hsum, Hpred. cbn [truthy unbound].
  destruct (load_dataset (named a1)) as [[trn vld] tst0] eqn:Hload.
  cbn [snd] in tst. subst tst.
  rewrite bind_assoc.
  match goal with
  | |- context [@bind ?T0 ?A ?B (@ret _ ?A' ?x) ?k ?W] =>
      rewrite (@bind_step T0 A B (@ret T0 A' x) k W W x [] (@ret_run T0 A' x W))
  end.
  cbv beta iota.
  pose proof (@predict_test_run _ _ tst0 (with_args (built a1) (with_files f1 w1))
                a2 f2 model Hpos Hrestore Hmodel) as Hrun.
  cbv zeta in Hrun.
  assert (Hs : stdin w1 = stdin w)
    by (unfold w1, select_device_world; destruct (device_ne_cpu _); reflexivity).
  cbn [args with_args with_files stdin built described named batch_size
       set_net set_hparams set_run] in Hrun.
  rewrite Hs in Hrun. specialize (Hrun Hin).
  rewrite (bind_step _ Hrun). clear Hrun.
  do 3 exec_step.
  match goal with
  | |- context [close_writer ?W] => rewrite (close_writer_skipped W Hbool)
  end.
  rewrite !prepend_prepend. unfold prepend. cbn [result after events].
  f_equal.
  cbn [app]. rewrite !app_nil_r. rewrite <- !app_assoc. reflexivity.
Qed.
End MainModes.

Lemma predict_mode_run_witness :
  let o := main (H := Toy.helpers) Toy.predict_world in
  result o = Ok tt
  /\ net (args (after o)) = None
  /\ batches_processed (events o) = 10%nat.
Proof.
  intros o. subst o.
  pose (a1 := args Toy.predict_world).
  rewrite (@predict_mode_run Toy.torch Toy.helpers Toy.predict_world
             a1 (built (H := Toy.helpers) a1) [] [] 0.5%float
             ltac:(discriminate) eq_refl eq_refl eq_refl eq_refl eq_refl eq_refl
             eq_refl eq_refl eq_refl ltac:(vm_compute; lia)).
  split; [reflexivity|]. split; [reflexivity|]. vm_compute. reflexivity.
Defined.

(** ** Without a writer *)

Ltac unlogged_step rule_writer rule_read solver :=
  cbv beta zeta;
  lazymatch goal with
  | |- keeps _ _ (writer_call _) => apply rule_writer
  | |- keeps _ _ (bind (read "writer" writer) _) => apply rule_read
  | |- _ => keeps_step solver
  end.

Section Unlogged.
Context {T : Torch} {H : Helpers}.
Variable I : Args -> Prop.
Hypothesis I_none : forall a, I a -> writer a = None.
Hypothesis I_frames : frames I.
Hypothesis I_restore : helper_keeps I restore_checkpoint.
Hypothesis I_process : forall loss step, helper_keeps I (process_checkpoint loss step).

Lemma keeps_read_writer_none (E : Event -> Prop) {A : Type} (k : string -> M A) :
  keeps I E (bind (read "writer" writer) k).
Proof.
  intros w Hw. rewrite (bind_stop _ (read_unset "writer" writer w (I_none Hw))).
  cbn [after events]. split; [exact Hw | constructor].
Qed.

Lemma keeps_writer_call_none (E : Event -> Prop) (e : Event) : keeps I E (writer_call e).
Proof. apply keeps_read_writer_none. Qed.

Ltac off_solver :=
  first [ exact eq_refl
        | apply (keeps_loop_assign I_frames); repeat constructor
        | apply keeps_call; [exact eq_refl | solve [auto]] ].

Ltac unlogged solver :=
  repeat (unlogged_step keeps_writer_call_none keeps_read_writer_none solver).

Lemma unlogged_add_tensorboard inputs targets outputs global_step name :
  keeps I off_board (add_tensorboard inputs targets outputs global_step name).
Proof. unfold add_tensorboard. unlogged off_solver. Qed.

Lemma unlogged_validate_batch global_step item run_loss :
  keeps I off_board (validate_batch global_step item run_loss).
Proof.
  unfold validate_batch.
  unlogged ltac:(first [apply unlogged_add_tensorboard | off_solver]).
Qed.

Lemma unlogged_validate validset print_info log_info global_step :
  keeps I off_board (validate validset print_info log_info global_step).
Proof.
  unfold validate.
  unlogged ltac:(first [apply unlogged_validate_batch | off_solver]).
Qed.

Lemma unlogged_interval_actions batch_idx inputs outputs targets epoch loss validset gs :
  keeps I off_board
    (interval_actions batch_idx inputs outputs targets epoch loss validset gs).
Proof.
  unfold interval_actions.
  unlogged ltac:(first [ apply unlogged_validate | apply unlogged_add_tensorboard
                       | off_solver ]).
Qed.

Lemma unlogged_batch_status batch_idx inputs outputs targets epoch loader loss validset :
  keeps I off_board
    (batch_status batch_idx inputs outputs targets epoch loader loss validset).
Proof.
  unfold batch_status.
  unlogged ltac:(first [apply unlogged_interval_actions | off_solver]).
Qed.

Lemma unlogged_train_batch epoch loader validset item :
  keeps I off_board (train_batch epoch loader validset item).
Proof.
  unfold train_batch.
  unlogged ltac:(first [apply unlogged_batch_status | off_solver]).
Qed.

Lemma unlogged_train_epoch loader validset epoch :
  keeps I off_board (train_epoch loader validset epoch).
Proof.
  unfold train_epoch.
  unlogged ltac:(first [apply unlogged_train_batch | off_solver]).
Qed.

Lemma unlogged_train_loop loader validset :
  keeps I off_board (train_loop loader validset).
Proof.
  unfold train_loop.
  unlogged ltac:(first [apply unlogged_train_epoch | off_solver]).
Qed.

Lemma unlogged_train_setup trainset : keeps I off_board (train_setup trainset).
Proof. unfold train_setup. unlogged off_solver. Qed.

Lemma unlogged_train trainset validset : keeps I off_board (train trainset validset).
Proof.
  unfold train.
  unlogged ltac:(first [apply unlogged_train_setup | apply unlogged_train_loop]).
Qed.

Lemma unlogged_predict_batch item run_loss :
  keeps I off_board (predict_batch item run_loss).
Proof. unfold predict_batch. unlogged off_solver. Qed.

Lemma unlogged_predict_test testset : keeps I off_board (predict_test testset).
Proof.
  unfold predict_test.
  unlogged ltac:(first [apply unlogged_predict_batch | off_solver]).
Qed.
End Unlogged.

Section MainUnlogged.
Context {T : Torch} {H : Helpers}.

Lemma frames_no_writer : frames no_writer.
Proof. intros f a Hf; revert a; induction Hf; intros a Ha; auto. Qed.

Lemma unlogged_select_device (I : Args -> Prop) :
  (forall d a, I a -> I (set_device d a)) -> keeps I off_board select_device.
Proof.
  intros Hd. unfold select_device.
  keeps_with ltac:(first [exact eq_refl | idtac]).
  intros w Hw. unfold assign; cbn [after events args with_args].
  split; [apply Hd, Hw | constructor].
Qed.

Section NoWriter.
Hypothesis read_keeps : helper_keeps no_writer read_checkpoint.
Hypothesis restore_keeps : helper_keeps no_writer restore_checkpoint.
Hypothesis process_keeps :
  forall loss step, helper_keeps no_writer (process_checkpoint loss step).

Lemma unlogged_main : keeps no_writer off_board main.
Proof.
  unfold main.
  keeps_with ltac:(first
    [ exact eq_refl
    | apply unlogged_select_device; intros ? ? Ha; exact Ha
    | apply keeps_assign; intros ? Ha; exact Ha
    | apply keeps_call; [exact eq_refl | assumption]
    | apply unlogged_train;
      solve [intros ? Ha; exact (proj2 Ha) | apply frames_no_writer | assumption]
    | apply unlogged_predict_test;
      solve [intros ? Ha; exact (proj2 Ha) | apply frames_no_writer | assumption]
    | intros w Hw; rewrite (open_writer_skipped _ (proj1 Hw));
      split; [exact Hw | constructor]
    | intros w Hw; rewrite (close_writer_skipped _ (proj1 Hw));
      split; [exact Hw | constructor] ]).
Qed.
End NoWriter.
End MainUnlogged.

(** X9: on every invocation [main] logs nothing to tensorboard.  The parsed
    namespace has no writer and [main] attaches none, so as long as the helpers
    attach none either, no scalar and no image is logged, nothing is flushed,
    and the namespace [main] leaves still has no writer: every access to
    [args.writer] on the way raises before the call. *)
Theorem main_logs_nothing {T : Torch} {H : Helpers} :
  helper_keeps no_writer read_checkpoint ->
  helper_keeps no_writer restore_checkpoint ->
  (forall loss step, helper_keeps no_writer (process_checkpoint loss step)) ->
  forall (c : CmdLine) (w : World),
    parse_args c = Some (args w) ->
    Forall (fun e => tensorboard_event e = false) (events (main w))
    /\ writer (args (after (main w))) = None.
Proof.
  intros Hread Hrestore Hprocess c w Hparse.
  assert (Hnone : no_writer (args w)).
  { unfold parse_args in Hparse. destruct (accepted c); [|discriminate].
    injection Hparse as <-. split; reflexivity. }
  destruct (unlogged_main Hread Hrestore Hprocess w Hnone) as [Hafter Hoff].
  split; [exact Hoff | exact (proj2 Hafter)].
Qed.

Lemma main_logs_nothing_witness :
  Forall (fun e => tensorboard_event e = false)
         (events (main (H := Toy.helpers) (Toy.world0 (namespace_of Toy.one_epoch)))).
Proof.
  refine (proj1 (@main_logs_nothing Toy.torch Toy.helpers _ _ _ Toy.one_epoch
                   (Toy.world0 (namespace_of Toy.one_epoch)) eq_refl)).
  - intros a fs a' fs' Ha [= <- <-]. exact Ha.
  - apply restore_checkpoint_spec_keeps, frames_no_writer.
  - intros loss step. apply process_checkpoint_spec_keeps, frames_no_writer.
Defined.

(** ** Training without a writer *)

Section NeverReturns.
Context {T : Torch} {H : Helpers}.
Variable I : Args -> Prop.

Lemma nr_raise {A : Type} (e : PyErr) : never_returns I (raise (A := A) e).
Proof. intros w _ x. discriminate. Qed.

Lemma nr_bind_left {A B : Type} (m : M A) (k : A -> M B) :
  never_returns I m -> never_returns I (bind m k).
Proof.
  intros Hm w Hw y. destruct (result (m w)) as [x|e] eqn:R.
  - exfalso. exact (Hm w Hw x R).
  - rewrite (bind_raise _ _ _ R). discriminate.
Qed.

Lemma nr_bind_value {A B : Type} (m : M A) (k : A -> M B) (P : A -> Prop) :
  keeps I (fun _ => True) m ->
  (forall w x, result (m w) = Ok x -> P x) ->
  (forall x, P x -> never_returns I (k x)) ->
  never_returns I (bind m k).
Proof.
  intros Hm HP Hk w Hw y. destruct (result (m w)) as [x|e] eqn:R.
  - rewrite (bind_ok _ _ _ R). cbn [result].
    apply (Hk x (HP w x R)). apply (Hm w Hw).
  - rewrite (bind_raise _ _ _ R). discriminate.
Qed.

Lemma nr_bind_right {A B : Type} (m : M A) (k : A -> M B) :
  keeps I (fun _ => True) m -> (forall x, never_returns I (k x)) ->
  never_returns I (bind m k).
Proof.
  intros Hm Hk. apply nr_bind_value with (P := fun _ => True); auto.
Qed.

Lemma nr_bind_args {B : Type} (k : Args -> M B) :
  (forall a, I a -> never_returns I (k a)) -> never_returns I (bind get_args k).
Proof.
  intros Hk w Hw y. rewrite (bind_step k (get_args_run w)).
  unfold prepend; cbn [result]. apply (Hk (args w) Hw w Hw).
Qed.

Lemma nr_for_each_cons {A : Type} (x : A) (rest : list A) (body : A -> M unit) :
  never_returns I (body x) -> never_returns I (for_each (x :: rest) body).
Proof.
  intros Hb. unfold for_each; cbn [for_loop]. apply nr_bind_left, nr_bind_left, Hb.
Qed.

Lemma range_cons (n : Z) : 1 <= n -> exists rest, range n = 0 :: rest.
Proof.
  intros Hn. unfold range. destruct (Z.to_nat n) as [|k] eqn:E; [lia|].
  cbn [seq map]. eexists; reflexivity.
Qed.

Lemma iterate_nonempty (loader : DataLoader Sample) (w : World) (batches : list Batch) :
  0 < dl_batch_size loader -> dl_dataset loader <> [] ->
  result (iterate loader w) = Ok batches -> batches <> [].
Proof.
  intros Hpos Hne Hres. pose proof (iterate_length loader w Hpos Hres) as Hlen.
  pose proof (loader_len_positive loader Hpos Hne).
  destruct batches; [cbn [List.length] in Hlen; lia | discriminate].
Qed.

Lemma train_setup_dataset (trainset : Dataset) :
  ensures (train_setup trainset) (fun loader _ => dl_dataset loader = trainset).
Proof.
  unfold train_setup. apply ensures_bind; intros a.
  apply ensures_bind_value with (P := fun dl : DataLoader Sample => dl_dataset dl = trainset).
  { intros w dl. unfold new_loader.
    destruct (batch_size a <=? 0); cbn [result]; [discriminate|].
    intros [= <-]. reflexivity. }
  intros loader Hloader.
  repeat lazymatch goal with
         | |- ensures (bind (assign (set_best _)) _) _ => fail
         | |- ensures (bind _ _) _ => apply ensures_bind; intros ?
         | |- ensures (match ?x with _ => _ end) _ => destruct x
         end.
  intros w0 y Hy. injection Hy as <-. exact Hloader.
Qed.

Lemma train_setup_empty (w : World) (x : DataLoader Sample) :
  result (train_setup [] w) <> Ok x.
Proof.
  unfold train_setup. rewrite (bind_step _ (get_args_run w)).
  unfold prepend at 1; cbn [result].
  destruct (batch_size (args w) <=? 0) eqn:E.
  - unfold new_loader. rewrite E.
    rewrite (bind_stop (w' := w) (e := ValueError "batch_size should be a positive integer value")
               (evs := []) _ eq_refl).
    discriminate.
  - apply Z.leb_gt in E. do 3 run_step.
    assert (Hiter : forall W : World,
              iterate (mkLoader [] (batch_size (args w)) true) W
              = mkOutcome (Ok []) (with_passes (S (passes W)) W) []) by reflexivity.
    rewrite (bind_step _ (Hiter _)). cbv iota.
    match goal with
    | |- context [bind (raise ?e) ?k ?W] =>
        rewrite (bind_stop (w' := W) (e := e) (evs := []) k eq_refl)
    end.
    unfold prepend; cbn [result]. discriminate.
Qed.

Section Doomed.
Hypothesis I_none : forall a, I a -> writer a = None.
Hypothesis I_epochs : forall a, I a -> 1 <= epochs a.
Hypothesis I_frames : frames I.
Hypothesis I_restore : helper_keeps I restore_checkpoint.

Lemma nr_writer_call (e : Event) : never_returns I (writer_call e).
Proof.
  intros w Hw x. unfold writer_call.
  rewrite (bind_stop _ (read_unset "writer" writer w (I_none Hw))). discriminate.
Qed.

Ltac plain_solver :=
  first [ exact Logic.I
        | apply (keeps_loop_assign I_frames); repeat constructor
        | apply keeps_call; [exact Logic.I | solve [auto]] ].

Ltac nr_step :=
  cbv beta zeta;
  lazymatch goal with
  | |- never_returns _ (raise _) => apply nr_raise
  | |- never_returns _ (bind get_args _) => apply nr_bind_args; intros ? ?
  | |- never_returns _ (bind (writer_call _) _) => apply nr_bind_left, nr_writer_call
  | |- never_returns _ (bind _ _) =>
      apply nr_bind_right; [solve [keeps_with plain_solver] | intros ?]
  | |- never_returns _ (match ?x with _ => _ end) => destruct x
  end.

Lemma nr_batch_status batch_idx inputs outputs targets epoch loader loss validset :
  never_returns I
    (batch_status batch_idx inputs outputs targets epoch loader loss validset).
Proof. unfold batch_status. repeat nr_step. Qed.

Lemma nr_train_batch epoch loader validset item :
  never_returns I (train_batch epoch loader validset item).
Proof. unfold train_batch. repeat nr_step. apply nr_batch_status. Qed.

Lemma nr_train_epoch loader validset epoch :
  0 < dl_batch_size loader -> dl_dataset loader <> [] ->
  never_returns I (train_epoch loader validset epoch).
Proof.
  intros Hpos Hne. unfold train_epoch. nr_step.
  apply nr_bind_value with (P := fun batches : list Batch => batches <> []).
  - keeps_with plain_solver.
  - intros w batches. apply iterate_nonempty; assumption.
  - intros [|b batches] Hb; [congruence|]. cbn [enumerate].
    apply nr_bind_left, nr_for_each_cons, nr_train_batch.
Qed.

Lemma nr_train_loop loader validset :
  0 < dl_batch_size loader -> dl_dataset loader <> [] ->
  never_returns I (train_loop loader validset).
Proof.
  intros Hpos Hne. unfold train_loop. do 2 nr_step.
  match goal with Ha : I _ |- _ => destruct (range_cons (I_epochs Ha)) as [rest ->] end.
  apply nr_bind_left, nr_for_each_cons, nr_train_epoch; assumption.
Qed.

Lemma nr_train trainset validset : never_returns I (train trainset validset).
Proof.
  unfold train.
  apply nr_bind_value
    with (P := fun loader : DataLoader Sample =>
                 0 < dl_batch_size loader /\ dl_dataset loader <> []).
  - unfold train_setup. keeps_with plain_solver.
  - intros w loader Hres. split.
    + exact (proj2 (train_setup_ensures trainset w Hres)).
    + rewrite (train_setup_dataset trainset w Hres).
      intros ->. exact (train_setup_empty w Hres).
  - intros loader [Hpos Hne]. apply nr_train_loop; assumption.
Qed.
End Doomed.
End NeverReturns.

Section TrainingMode.
Context {T : Torch} {H : Helpers}.

Lemma frames_training_mode : frames training_mode.
Proof. intros f a Hf; revert a; induction Hf; intros a Ha; auto. Qed.

Hypothesis read_keeps : helper_keeps training_mode read_checkpoint.
Hypothesis restore_keeps : helper_keeps training_mode restore_checkpoint.

Ltac startup_solver :=
  first
    [ exact Logic.I
    | apply keeps_weaken with (E := off_board);
      [ intros; exact Logic.I
      | apply unlogged_select_device; intros ? ? Ha; exact Ha ]
    | apply keeps_assign; intros ? Ha; exact Ha
    | apply keeps_call; [exact Logic.I | assumption]
    | intros w Hw;
      assert (Hb : predict_is_bool (args w))
        by (unfold predict_is_bool; rewrite (proj1 (proj2 Hw)); reflexivity);
      rewrite (open_writer_skipped _ Hb); split; [exact Hw | constructor] ].

Lemma nr_main : never_returns training_mode main.
Proof.
  unfold main.
  repeat (cbv beta zeta;
          lazymatch goal with
          | |- never_returns _ (bind get_args _) => apply nr_bind_args; intros ? ?
          | |- never_returns _ (bind _ _) =>
              apply nr_bind_right; [solve [keeps_with startup_solver] | intros ?]
          end).
  match goal with
  | Ha : training_mode ?a |- never_returns _ (if truthy (summary ?a) then _ else _) =>
      destruct Ha as (_ & Hp & Hs & _); rewrite Hs, Hp
  end.
  cbn [truthy]. apply nr_bind_left, nr_bind_right; [apply keeps_unbound|].
  intros [[trn vld] tst]. apply nr_train.
  - intros b Hb. exact (proj1 Hb).
  - intros b Hb. exact (proj2 (proj2 (proj2 Hb))).
  - apply frames_training_mode.
  - exact restore_keeps.
Qed.
End TrainingMode.

(** X10: a training run of [main] never completes.  When neither [--predict]
    nor [--summary] is given and at least one epoch is asked for, [main] raises,
    unless a checkpoint helper attaches a writer or changes the mode: [train]
    either fails during its startup or reaches the first batch, where
    [batch_status] reads [args.writer], which [main] has not set. *)
Theorem training_never_completes {T : Torch} {H : Helpers} :
  helper_keeps training_mode read_checkpoint ->
  helper_keeps training_mode restore_checkpoint ->
  forall (c : CmdLine) (w : World),
    parse_args c = Some (args w) ->
    cl_predict c = false -> cl_summary c = false -> 1 <= default 2 (cl_epochs c) ->
    exists e, result (main w) = Raise e.
Proof.
  intros Hread Hrestore c w Hparse Hpred Hsum Hepochs.
  assert (Hmode : training_mode (args w)).
  { unfold parse_args in Hparse. destruct (accepted c); [|discriminate].
    injection Hparse as <-. unfold training_mode.
    cbn [namespace_of writer predict summary epochs store_true].
    rewrite Hpred, Hsum.
    split; [reflexivity|]. split; [reflexivity|]. split; [reflexivity | exact Hepochs]. }
  pose proof (nr_main Hread Hrestore w Hmode) as Hnever.
  destruct (result (main w)) as [x|e]; [|exists e; reflexivity].
  exfalso. exact (Hnever x eq_refl).
Qed.

Lemma training_never_completes_witness :
  exists e, result (main (H := Toy.helpers) (Toy.world0 (namespace_of Toy.no_options)))
            = Raise e.
Proof.
  refine (@training_never_completes Toy.torch Toy.helpers _ _ Toy.no_options
            (Toy.world0 (namespace_of Toy.no_options)) eq_refl eq_refl eq_refl _).
  - intros a fs a' fs' Ha [= <- <-]. exact Ha.
  - apply restore_checkpoint_spec_keeps, frames_training_mode.
  - cbn. lia.
Defined.

(** ** One batch of training *)

Section TrainBatchFacts.
Context {T : Torch} {H : Helpers}.

(** Lines 188-209: the forward pass and the step of the optimizer. *)
Lemma train_batch_enter epoch (loader : DataLoader Sample) (validset : Dataset) idx
  (b : Batch) (w : World) opt model crit model' opt' :
  optimizer (args w) = OptObj opt -> net (args w) = Some model ->
  criterion (args w) = Some crit ->
  let d := device (args w) in
  backward_step opt model (to_device d (fst b)) (to_device d (snd b))
  = Some (model', opt') ->
  train_batch epoch loader validset (idx, b) w
  = batch_status idx (to_device d (fst b)) (batch_outputs d model b)
      (to_device d (snd b)) epoch loader (batch_loss d model b) validset
      (with_args (set_optimizer (OptObj opt') (set_net (Some model') (args w))) w).
Proof.
  intros Hopt Hnet Hcrit d Hback. subst d. destruct b as [x y]. cbn [fst snd] in Hback.
  unfold train_batch. run_step. rewrite Hopt. do 3 run_step.
  destruct crit. cbn [apply_criterion]. rewrite Hback. run_step.
  rewrite !prepend_nil. reflexivity.
Qed.

(** X11: one batch of training (lines 188-213).  The loss that is logged, added
    to the totals and handed to [process_checkpoint], and the outputs in the
    [Train] images, are those of the model before the optimizer step; the
    namespace then holds the stepped model and optimizer, and on an interval
    step the validation pass runs on the stepped model. *)
Theorem train_batch_validates_stepped_model epoch (loader : DataLoader Sample)
  (validset : Dataset) idx (b : Batch) (w : World) opt model crit model' opt' r t wr :
  optimizer (args w) = OptObj opt -> net (args w) = Some model ->
  criterion (args w) = Some crit ->
  running_loss (args w) = Some r -> train_loss (args w) = Some t ->
  writer (args w) = Some wr -> log_interval (args w) <> 0 ->
  let d := device (args w) in
  let inputs := to_device d (fst b) in
  let targets := to_device d (snd b) in
  backward_step opt model inputs targets = Some (model', opt') ->
  let gs := idx + loader_len loader * epoch in
  let loss := batch_loss d model b in
  let stepped :=
    accumulated loss r t (set_optimizer (OptObj opt') (set_net (Some model') (args w))) in
  (gs mod log_interval (args w) <> 0 ->
   train_batch epoch loader validset (idx, b) w
   = mkOutcome (Ok tt) (with_args stepped w) [AddScalar "Train/loss" loss gs; Flush])
  /\ (gs mod log_interval (args w) = 0 ->
      forall a2 f2 size loader_size r2 wr2,
        0 < batch_size (args w) -> validset <> [] ->
        process_checkpoint loss gs stepped (files w) = Ok (a2, f2) ->
        dataset_size a2 = Some size -> dataloader_size a2 = Some loader_size ->
        loader_size <> 0 -> running_loss a2 = Some r2 -> log_interval a2 <> 0 ->
        writer a2 = Some wr2 ->
        let valid_loader := mkLoader validset (batch_size (args w)) true in
        let batches := map collate (loader_batches (draws w (passes w)) valid_loader) in
        let vloss := (accumulate 0 (map (batch_loss d model') batches)
                      / Z2float (loader_len valid_loader))%float in
        train_batch epoch loader validset (idx, b) w
        = mkOutcome (Ok tt)
            (with_args (set_running_loss (Some 0%float) a2)
               (with_files f2 (with_passes (S (passes w)) w)))
            ([AddScalar "Train/loss" loss gs]
             ++ first_batch_grid "Valid" d model' gs batches
             ++ [AddScalar "Valid/loss" vloss gs]
             ++ four_way "Train" d inputs targets (batch_outputs d model b) gs
             ++ [CallProcessCheckpoint loss gs;
                 Print (PProgress epoch idx (batch_size a2 * idx) size
                          (100 * Z2float idx / Z2float loader_size)%float
                          (r2 / Z2float (log_interval a2))%float vloss);
                 Flush])).
Proof.
  intros Hopt Hnet Hcrit Hr Ht Hw Hli d inputs targets Hback gs loss stepped.
  pose proof (@train_batch_enter epoch loader validset idx b w opt model crit model' opt'
                Hopt Hnet Hcrit Hback) as Henter.
  cbv zeta in Henter. fold d inputs targets loss in Henter.
  set (w1 := with_args (set_optimizer (OptObj opt') (set_net (Some model') (args w))) w)
    in Henter.
  split.
  - intros Hmod. rewrite Henter.
    exact (@batch_status_off_interval _ _ idx inputs (batch_outputs d model b) targets
             epoch loader loss validset w1 r t wr Hr Ht Hw Hli Hmod).
  - intros Hmod a2 f2 size loader_size r2 wr2 Hpos Hne Hproc Hsize Hlsize Hl0 Hr2 Hli2 Hw2
           valid_loader batches vloss.
    rewrite Henter.
    pose proof (@batch_status_on_interval _ _ idx inputs (batch_outputs d model b) targets
                  epoch loader loss validset w1 r t wr Hr Ht Hw Hli Hmod) as Hon.
    cbv zeta in Hon. fold gs in Hon. rewrite Hon. clear Hon.
    pose proof (@interval_actions_run _ _ idx inputs (batch_outputs d model b) targets
                  epoch loss validset gs
                  (with_args (accumulated loss r t (args w1)) w1)
                  model' crit wr a2 f2 size loader_size r2
                  eq_refl Hcrit Hw Hpos Hne Hproc Hsize Hlsize Hl0 Hr2 Hli2) as Hrun.
    cbv zeta in Hrun. rewrite (bind_step _ Hrun). clear Hrun.
    run_step. rewrite !prepend_prepend. unfold prepend. cbn [result after events].
    f_equal.
    rewrite <- !app_assoc. reflexivity.
Qed.
End TrainBatchFacts.

Lemma train_batch_validates_stepped_model_witness :
  let o := train_batch (H := Toy.helpers) 0 Toy.loader100 (Toy.samples 20)
             (1, ([1%float], [2%float])) (Toy.world0 Toy.stepping) in
  result o = Ok tt /\ events o = [AddScalar "Train/loss" 2.25%float 1; Flush].
Proof.
  intros o. subst o.
  destruct (Toy.descend 0.0001%float 0.5%float [1%float] [2%float])
    as [[model' opt']|] eqn:E; [|vm_compute in E; discriminate].
  destruct (@train_batch_validates_stepped_model Toy.torch Toy.helpers 0 Toy.loader100
              (Toy.samples 20) 1 ([1%float], [2%float]) (Toy.world0 Toy.stepping)
              0.0001%float 0.5%float MSELoss model' opt' 1.5%float 4.5%float "runs/toy"
              eq_refl eq_refl eq_refl eq_refl eq_refl eq_refl ltac:(discriminate) E)
    as [Hoff _].
  specialize (Hoff ltac:(vm_compute; discriminate)).
  split.
  - exact (f_equal (@result _ unit) Hoff).
  - etransitivity; [exact (f_equal (@events _ unit) Hoff) | vm_compute; reflexivity].
Defined.

(** ** The average loss of an epoch *)

Section Tally.
Context {T : Torch} {H : Helpers}.

Lemma logged_losses_app (l1 l2 : list Event) :
  logged_losses (l1 ++ l2) = logged_losses l1 ++ logged_losses l2.
Proof. apply flat_map_app. Qed.

Lemma lossless_logged (evs : list Event) : Forall lossless evs -> logged_losses evs = [].
Proof.
  induction 1 as [|e evs He _ IH]; [reflexivity|].
  unfold logged_losses in *; cbn [flat_map]. rewrite He, IH; reflexivity.
Qed.

Lemma logged_losses_steps (evs : list Event) :
  List.length (logged_losses evs) = List.length (steps evs).
Proof.
  induction evs as [|e evs IH]; [reflexivity|].
  unfold logged_losses, steps in *; cbn [flat_map]. rewrite !length_app, IH.
  f_equal. destruct e; try reflexivity. cbn [train_loss_value train_loss_step].
  destruct (String.eqb tag "Train/loss"); reflexivity.
Qed.

Lemma interval_only_lossless (e : Event) : interval_only e -> lossless e.
Proof.
  unfold interval_only, lossless; destruct e; simpl; try congruence.
  intros Htag. apply String.eqb_eq in Htag; subst tag. reflexivity.
Qed.

Lemma tallies_keeps {A : Type} (m : M A) :
  (forall v, keeps (fun a => train_loss a = v) lossless m) -> tallies m.
Proof.
  intros Hm w t x Ht _. destruct (Hm (Some t) w Ht) as [Ha He].
  rewrite (lossless_logged He). exact Ha.
Qed.

Lemma tallies_bind {A B : Type} (m : M A) (k : A -> M B) :
  tallies m -> (forall x, tallies (k x)) -> tallies (bind m k).
Proof.
  intros Hm Hk w t y Ht. destruct (result (m w)) as [x|e] eqn:R.
  - rewrite (bind_ok _ _ _ R). cbn [result after events]. intros Hy.
    rewrite logged_losses_app. unfold accumulate. rewrite fold_left_app.
    apply (Hk x _ _ y); [|exact Hy]. exact (Hm w t x Ht R).
  - rewrite (bind_raise _ _ _ R). discriminate.
Qed.

Lemma tallies_for_each {A : Type} (items : list A) (body : A -> M unit) :
  (forall x, tallies (body x)) -> tallies (for_each items body).
Proof.
  intros Hb. unfold for_each. induction items as [|x items IH]; cbn [for_loop].
  - apply tallies_keeps; intros v. apply keeps_ret.
  - apply tallies_bind.
    + apply tallies_bind; [apply Hb | intros _].
      apply tallies_keeps; intros v. apply keeps_ret.
    + intros [[]|[]]; [exact IH|]. apply tallies_keeps; intros v. apply keeps_ret.
Qed.

Lemma logged_losses_cons_train (loss : float) (step : Z) (evs : list Event) :
  logged_losses (AddScalar "Train/loss" loss step :: evs) = loss :: logged_losses evs.
Proof. reflexivity. Qed.

Lemma accumulate_cons (t loss : float) (losses : list float) :
  accumulate t (loss :: losses) = accumulate (t + loss)%float losses.
Proof. reflexivity. Qed.

Section Steady.
Hypothesis process_keeps :
  forall loss step v, helper_keeps (fun a => train_loss a = v) (process_checkpoint loss step).
Variable v : option float.

Ltac steady_solver :=
  first [ exact eq_refl
        | apply keeps_assign; intros ? Ha; exact Ha
        | apply keeps_call; [exact eq_refl | apply process_keeps]
        | eapply keeps_weaken; [apply interval_only_lossless | apply keeps_validate]
        | eapply keeps_weaken; [apply interval_only_lossless | apply keeps_add_tensorboard] ].

Lemma steady_interval_actions batch_idx inputs outputs targets epoch loss validset gs :
  keeps (fun a => train_loss a = v) lossless
    (interval_actions batch_idx inputs outputs targets epoch loss validset gs).
Proof. unfold interval_actions. keeps_with steady_solver. Qed.

Lemma steady_status_rest batch_idx inputs outputs targets epoch loss validset gs :
  keeps (fun a => train_loss a = v) lossless
    (a <- get_args ;;
     r <- py_mod gs (log_interval a) ;;
     when (r =? 0)
       (interval_actions batch_idx inputs outputs targets epoch loss validset gs) ;;
     writer_call Flush).
Proof. keeps_with ltac:(first [apply steady_interval_actions | steady_solver]). Qed.
End Steady.

Section Tallying.
Hypothesis process_keeps :
  forall loss step v, helper_keeps (fun a => train_loss a = v) (process_checkpoint loss step).

Lemma tallies_batch_status batch_idx inputs outputs targets epoch
  (loader : DataLoader Sample) loss validset :
  tallies (batch_status batch_idx inputs outputs targets epoch loader loss validset).
Proof.
  intros w t x Ht. unfold batch_status.
  destruct (running_loss (args w)) as [r|] eqn:Hr;
    [|rewrite (bind_stop _ (read_unset "running_loss" running_loss w Hr)); discriminate].
  do 4 run_step.
  destruct (writer (args w)) as [wr|] eqn:Hw.
  - run_step. rewrite !prepend_prepend. unfold prepend.
    cbn [result after events app].
    rewrite logged_losses_cons_train, accumulate_cons.
    match goal with
    | |- result (?m ?W) = Ok _ -> _ =>
        assert (Hrest : tallies m)
          by (apply tallies_keeps; intros v; apply steady_status_rest; exact process_keeps);
        intros Hres; exact (Hrest W _ x eq_refl Hres)
    end.
  - unfold writer_call. rewrite bind_assoc.
    match goal with
    | |- context [bind (read "writer" writer) ?k ?W] =>
        rewrite (bind_stop k (read_unset "writer" writer W Hw))
    end.
    rewrite !prepend_prepend. unfold prepend. cbn [result]. discriminate.
Qed.

Lemma tallies_train_batch epoch (loader : DataLoader Sample) validset item :
  tallies (train_batch epoch loader validset item).
Proof.
  unfold train_batch. destruct item as [idx [inputs targets]].
  repeat (cbv beta zeta;
          lazymatch goal with
          | |- tallies (batch_status _ _ _ _ _ _ _ _) => fail
          | |- tallies (bind _ _) =>
              apply tallies_bind;
              [ apply tallies_keeps; intros v;
                keeps_with ltac:(first [ exact eq_refl
                                       | apply keeps_assign; intros ? Ha; exact Ha ])
              | intros ? ]
          end).
  apply tallies_batch_status.
Qed.

Lemma indices_length (n : Z) : List.length (indices n) = Z.to_nat n.
Proof.
  unfold indices. rewrite enumerate_fst, length_map, length_seq, repeat_length.
  reflexivity.
Qed.
End Tallying.
End Tally.

(** X12: the average an epoch prints.  When an epoch of [train] completes, its
    last event is the line [Epoch: .. Average loss: ..], and the average on it is
    the sum of the losses the epoch logged under [Train/loss], added up from 0.0
    in the order they were logged, divided by the number of batches; one loss
    was logged per batch.  The checkpoint helper must leave [args.train_loss]
    alone. *)
Theorem epoch_average_of_logged_losses {T : Torch} {H : Helpers}
  (loader : DataLoader Sample) (validset : Dataset) (epoch : Z) (w : World) :
  (forall loss step v,
     helper_keeps (fun a => train_loss a = v) (process_checkpoint loss step)) ->
  0 < dl_batch_size loader ->
  result (train_epoch loader validset epoch w) = Ok tt ->
  exists evs,
    events (train_epoch loader validset epoch w)
    = evs ++ [Print (PEpochAverage epoch
                       (accumulate 0 (logged_losses evs) / Z2float (loader_len loader)))]
    /\ Z.of_nat (List.length (logged_losses evs)) = loader_len loader.
Proof.
  intros process_keeps Hpos Hres.
  pose proof (logs_train_epoch loader validset epoch Hpos w) as [_ Hsteps].
  specialize (Hsteps tt Hres). revert Hres Hsteps. unfold train_epoch.
  run_step.
  assert (Hit : forall W : World,
            exists batches W2,
              iterate loader W = mkOutcome (Ok batches) W2 [] /\ args W2 = args W).
  { intros W. unfold iterate. destruct (dl_shuffle loader);
      eexists; eexists; split; reflexivity. }
  match goal with
  | |- context [bind (iterate loader) ?k ?W] =>
      destruct (Hit W) as (batches & W2 & Hiter & Hargs); rewrite (bind_step k Hiter)
  end.
  clear Hit.
  assert (Hzero : train_loss (args W2) = Some 0%float) by (rewrite Hargs; reflexivity).
  pose proof (@tallies_for_each _ _ (enumerate batches 1)
                (train_batch epoch loader validset)
                (tallies_train_batch process_keeps epoch loader validset) W2 0%float tt Hzero) as Htally.
  destruct (for_each (enumerate batches 1) (train_batch epoch loader validset) W2)
    as [[[]|e] W3 evs] eqn:Hloop.
  - cbn [result after events] in Htally. specialize (Htally eq_refl).
    rewrite (bind_step _ Hloop). run_step.
    destruct (Z.eq_dec (loader_len loader) 0) as [Hlen|Hlen].
    + unfold div_int. rewrite Hlen. cbn [Z.eqb].
      match goal with
      | |- context [bind (raise ?err) ?k ?W] =>
          rewrite (bind_stop (w' := W) (e := err) (evs := []) k eq_refl)
      end.
      rewrite !prepend_prepend. unfold prepend. cbn [result]. discriminate.
    + do 2 run_step. rewrite !prepend_prepend. unfold prepend.
      cbn [result after events app]. rewrite !app_nil_r.
      intros _ Hsteps. exists evs. split; [reflexivity|].
      rewrite steps_app in Hsteps. cbn [steps flat_map train_loss_step app] in Hsteps.
      rewrite app_nil_r in Hsteps.
      rewrite logged_losses_steps, Hsteps, length_map, indices_length.
      apply Z2Nat.id. unfold loader_len. apply Z.div_pos; lia.
  - rewrite (bind_stop _ Hloop). rewrite !prepend_prepend. unfold prepend.
    cbn [result]. discriminate.
Qed.

Lemma epoch_average_of_logged_losses_witness :
  exists evs,
    events (train_epoch (H := Toy.helpers) Toy.loader100 (Toy.samples 20) 0 Toy.loop_world)
    = evs ++ [Print (PEpochAverage 0 (accumulate 0 (logged_losses evs) / Z2float 7))]
    /\ List.length (logged_losses evs) = 7%nat.
Proof.
  destruct (@epoch_average_of_logged_losses Toy.torch Toy.helpers Toy.loader100
              (Toy.samples 20) 0 Toy.loop_world) as (evs & Hevs & Hlen).
  - intros loss step v a fs a' fs' Ha. cbn [process_checkpoint Toy.helpers].
    unfold process_checkpoint_spec.
    destruct (best a); [|discriminate]. destruct (net a); [|discriminate].
    destruct (run a); [|discriminate].
    destruct (loss <? f)%float; intros [= <- <-]; exact Ha.
  - reflexivity.
  - vm_compute. reflexivity.
  - exists evs. split; [exact Hevs|].
    change (loader_len Toy.loader100) with 7 in Hlen. lia.
Defined.

(** ** The images and the batch size *)

Section SmallEdges.
Context {T : Torch} {H : Helpers}.

(** X13: [add_tensorboard] logs all four images or none.  With a writer attached
    it logs the ground-truth heatmap, the inputs overlaid with the target
    slice, the predicted heatmap and the inputs overlaid with the output slice,
    in this order and under the caller's step; without one it raises at the
    first access to [args.writer], before anything is logged.  Either way it
    leaves the namespace, the input and the files as they were. *)
Theorem add_tensorboard_all_or_nothing (inputs targets outputs : Tensor)
  (global_step : Z) (name : string) (w : World) :
  let o := add_tensorboard inputs targets outputs global_step name w in
  after o = w
  /\ (writer (args w) <> None ->
      result o = Ok tt
      /\ events o = four_way name (device (args w)) inputs targets outputs global_step)
  /\ (writer (args w) = None ->
      result o = Raise (AttributeError "writer") /\ events o = []).
Proof.
  intros o. subst o. destruct (writer (args w)) as [wr|] eqn:Hw.
  - rewrite (add_tensorboard_run inputs targets outputs global_step name w Hw).
    cbn [result after events]. split; [reflexivity|]. split; [|discriminate].
    intros _. split; reflexivity.
  - assert (Hrun : add_tensorboard inputs targets outputs global_step name w
                   = mkOutcome (Raise (AttributeError "writer")) w []).
    { unfold add_tensorboard. run_step. unfold writer_call. rewrite bind_assoc.
      rewrite (bind_stop _ (read_unset "writer" writer w Hw)).
      rewrite prepend_nil. reflexivity. }
    rewrite Hrun. cbn [result after events]. split; [reflexivity|].
    split; [congruence|]. intros _. split; reflexivity.
Qed.

(** X14: the parser accepts any integer as batch size, and with one that is not
    positive the construction of the data loader raises [ValueError] in
    [train], in [validate] and in [predict_test] alike, before any line is
    printed, any checkpoint helper called or any attribute set. *)
Theorem nonpositive_batch_size_raises (trainset validset testset : Dataset)
  (print_info log_info : bool) (global_step : Z) (w : World) :
  batch_size (args w) <= 0 ->
  exists msg,
    train trainset validset w = mkOutcome (Raise (ValueError msg)) w []
    /\ validate validset print_info log_info global_step w
       = mkOutcome (Raise (ValueError msg)) w []
    /\ predict_test testset w = mkOutcome (Raise (ValueError msg)) w [].
Proof.
  intros Hsize. apply Z.leb_le in Hsize.
  assert (Hnew : forall ds shuffled,
            new_loader ds (batch_size (args w)) shuffled w
            = mkOutcome (Raise (ValueError "batch_size should be a positive integer value"))
                        w []).
  { intros ds shuffled. unfold new_loader. rewrite Hsize. reflexivity. }
  eexists. split; [|split].
  - unfold train, train_setup. rewrite bind_assoc. run_step. rewrite bind_assoc.
    rewrite (bind_stop _ (Hnew _ _)). rewrite prepend_nil. reflexivity.
  - unfold validate. run_step.
    rewrite (bind_stop _ (Hnew _ _)). rewrite prepend_nil. reflexivity.
  - unfold predict_test. run_step.
    rewrite (bind_stop _ (Hnew _ _)). rewrite prepend_nil. reflexivity.
Qed.
End SmallEdges.

Lemma add_tensorboard_all_or_nothing_witness :
  result (add_tensorboard (H := Toy.helpers) [1%float] [2%float] [0.5%float] 50 "Train"
            (Toy.world0 (namespace_of Toy.no_options)))
  = Raise (AttributeError "writer")
  /\ List.length (events (add_tensorboard (H := Toy.helpers) [1%float] [2%float] [0.5%float]
                            50 "Train" Toy.training_world)) = 4%nat.
Proof.
  split.
  - exact (proj1 (proj2 (proj2 (@add_tensorboard_all_or_nothing Toy.torch Toy.helpers
             [1%float] [2%float] [0.5%float] 50 "Train"
             (Toy.world0 (namespace_of Toy.no_options)))) eq_refl)).
  - rewrite (proj2 (proj1 (proj2 (@add_tensorboard_all_or_nothing Toy.torch Toy.helpers
               [1%float] [2%float] [0.5%float] 50 "Train" Toy.training_world))
             ltac:(discriminate))).
    reflexivity.
Defined.

Lemma nonpositive_batch_size_raises_witness :
  exists msg,
    train (H := Toy.helpers) (Toy.samples 100) (Toy.samples 20)
      (Toy.world0 (Toy.attach (namespace_of Toy.empty_batches)))
    = mkOutcome (Raise (ValueError msg))
        (Toy.world0 (Toy.attach (namespace_of Toy.empty_batches))) [].
Proof.
  destruct (@nonpositive_batch_size_raises Toy.torch Toy.helpers (Toy.samples 100)
              (Toy.samples 20) (Toy.samples 12) false false 0
              (Toy.world0 (Toy.attach (namespace_of Toy.empty_batches)))
              ltac:(cbn; lia)) as (msg & Htrain & _).
  exists msg. exact Htrain.
Defined.
